(** * SBEMS: the anomaly detector and the monitoring system

    A shallow embedding of [sbems/analytics/anomaly_detector.py] and of the
    constructor of [sbems/core/monitoring_system.py], with the properties
    the specification states about them.

    Conventions of the embedding.
    - A Python [float] is a real number ([R]); NaN only arises from
      [np.corrcoef] and from the pandas standard deviation of a single
      value, and is an [option] there.
    - A naive [datetime] is the integer number of microseconds on the
      proleptic time line ([Z]); the range limits of [datetime] are not
      modelled.
    - A Python [dict] is an association list in insertion order with unique
      keys.
    - A raised exception is the [Raise] case of [Result]. *)

From Stdlib Require Import String Ascii ZArith Bool Lia List.
From Stdlib Require Import Sorted Permutation.
From Stdlib Require Import Reals Lra.
Import ListNotations.

Local Open Scope string_scope.
Local Open Scope Z_scope.
Local Open Scope list_scope.

(** ** Exceptions *)

Inductive Exc : Type :=
| KeyError (key : string)
| IndexError
| ValueError
| ZeroDivision.

Inductive Result (A : Type) : Type :=
| Ok (a : A)
| Raise (e : Exc).
Arguments Ok {A} a.
Arguments Raise {A} e.

Definition bind {A B : Type} (m : Result A) (f : A -> Result B) : Result B :=
  match m with
  | Ok a => f a
  | Raise e => Raise e
  end.

Notation "x <- m ;; k" := (bind m (fun x => k))
  (at level 61, m at next level, right associativity).

Definition is_ok {A : Type} (m : Result A) : bool :=
  match m with Ok _ => true | Raise _ => false end.

(** ** Insertion-ordered dictionaries *)

Module Dict.
Section Dict.
Context {K V : Type}.
Variable eqb : K -> K -> bool.

Definition t := list (K * V).

Fixpoint get (d : t) (k : K) : option V :=
  match d with
  | [] => None
  | (k', v) :: d' => if eqb k k' then Some v else get d' k
  end.

Definition contains (d : t) (k : K) : bool :=
  match get d k with Some _ => true | None => false end.

(** [d[k] = v]: an existing key keeps its position, a new key goes last. *)
Fixpoint set (d : t) (k : K) (v : V) : t :=
  match d with
  | [] => [(k, v)]
  | (k', v') :: d' =>
      if eqb k k' then (k', v) :: d' else (k', v') :: set d' k v
  end.

Definition keys (d : t) : list K := map fst d.
Definition values (d : t) : list V := map snd d.
End Dict.
End Dict.

(** ** Enumerations *)

Inductive AnomalyType : Type :=
| ENERGY_SPIKE
| EQUIPMENT_FAILURE
| EFFICIENCY_DROP
| NETWORK_ISOLATION
| SEASONAL_DEVIATION
| OCCUPANCY_MISMATCH
| UNKNOWN.

Definition AnomalyType_value (t : AnomalyType) : string :=
  match t with
  | ENERGY_SPIKE => "energy_spike"
  | EQUIPMENT_FAILURE => "equipment_failure"
  | EFFICIENCY_DROP => "efficiency_drop"
  | NETWORK_ISOLATION => "network_isolation"
  | SEASONAL_DEVIATION => "seasonal_deviation"
  | OCCUPANCY_MISMATCH => "occupancy_mismatch"
  | UNKNOWN => "unknown"
  end.

(** Iteration order of [for atype in AnomalyType]. *)
Definition AnomalyType_members : list AnomalyType :=
  [ENERGY_SPIKE; EQUIPMENT_FAILURE; EFFICIENCY_DROP; NETWORK_ISOLATION;
   SEASONAL_DEVIATION; OCCUPANCY_MISMATCH; UNKNOWN].

Definition AnomalyType_eqb (a b : AnomalyType) : bool :=
  match a, b with
  | ENERGY_SPIKE, ENERGY_SPIKE
  | EQUIPMENT_FAILURE, EQUIPMENT_FAILURE
  | EFFICIENCY_DROP, EFFICIENCY_DROP
  | NETWORK_ISOLATION, NETWORK_ISOLATION
  | SEASONAL_DEVIATION, SEASONAL_DEVIATION
  | OCCUPANCY_MISMATCH, OCCUPANCY_MISMATCH
  | UNKNOWN, UNKNOWN => true
  | _, _ => false
  end.

Inductive SeverityLevel : Type :=
| LOW
| MEDIUM
| HIGH
| CRITICAL.

Definition SeverityLevel_value (s : SeverityLevel) : string :=
  match s with
  | LOW => "low"
  | MEDIUM => "medium"
  | HIGH => "high"
  | CRITICAL => "critical"
  end.

(** Iteration order of [for level in SeverityLevel]. *)
Definition SeverityLevel_members : list SeverityLevel :=
  [LOW; MEDIUM; HIGH; CRITICAL].

Definition SeverityLevel_eqb (a b : SeverityLevel) : bool :=
  match a, b with
  | LOW, LOW | MEDIUM, MEDIUM | HIGH, HIGH | CRITICAL, CRITICAL => true
  | _, _ => false
  end.

(** The rank the specification gives the severities; it is also the table
    [severity_order] of [MonitoringSystem._process_alerts]. *)
Definition severity_order (s : SeverityLevel) : Z :=
  match s with
  | LOW => 0
  | MEDIUM => 1
  | HIGH => 2
  | CRITICAL => 3
  end.

(** ** Time *)

Definition datetime := Z.

Definition microseconds_per_second : Z := 1000000.
Definition microseconds_per_hour : Z := 3600 * microseconds_per_second.

(** [ts.hour] *)
Definition hour (ts : datetime) : Z := (ts / microseconds_per_hour) mod 24.

(** [timedelta(hours=h)] *)
Definition timedelta_hours (h : Z) : Z := h * microseconds_per_hour.

(** ** Readings and anomalies *)

Inductive MetaValue : Type :=
| MNum (x : R)
| MInt (n : Z)
| MStr (s : string).

Definition Metadata := list (string * MetaValue).

Record Reading : Type := mkReading {
  r_timestamp : datetime;
  r_value : R;
  r_sensor_type : string;
  r_zone_id : option string;
  r_metadata : Metadata
}.

(** The formatted descriptions, kept as template and argument (the
    rendering of a float by a format string is not modelled). *)
Inductive Description : Type :=
| DescIsolationForest (score : R)
| DescEnergySpike (z_score : R)
| DescTimeOfDay (deviation : R)
| DescCorrelationBreakdown (other : string)
| DescNetworkIsolated.

Record Anomaly : Type := mkAnomaly {
  sensor_id : string;
  anomaly_type : AnomalyType;
  severity : SeverityLevel;
  confidence : R;
  timestamp : datetime;
  value : R;
  expected_range : R * R;
  description : Description;
  recommendations : list string;
  metadata : Metadata
}.

(** ** The detector *)

(** An [nx.Graph] as its adjacency: the nodes in insertion order, each with
    its neighbours. *)
Definition Graph := list (string * list string).

Definition graph_nodes (g : Graph) : list string := map fst g.

Definition graph_degree (g : Graph) (node : string) : nat :=
  match Dict.get String.eqb g node with
  | Some nbrs => length nbrs
  | None => 0%nat
  end.

(** The fitted [sklearn.ensemble.IsolationForest], a library outside the
    repository: what [fit_predict(values)] and the following
    [decision_function(values)] return for a column of values.  The model is
    seeded ([random_state=42]) and refitted by every call, so both are
    functions of the values. *)
Record IsolationForest : Type := mkIsolationForest {
  fit_predict : list R -> list Z;
  decision_function : list R -> list R
}.

Record AnomalyDetector : Type := mkDetector {
  window_size : Z;
  contamination : R;
  min_samples_for_detection : Z;
  network_analysis : bool;
  isolation_forest : IsolationForest;
  sensor_data : list (string * list Reading);
  detected_anomalies : list Anomaly;
  network_graph : option Graph;
  energy_spike_threshold : R;
  efficiency_drop_threshold : R;
  occupancy_energy_ratio_threshold : R
}.

Definition with_sensor_data (d : AnomalyDetector)
    (sd : list (string * list Reading)) : AnomalyDetector :=
  mkDetector (window_size d) (contamination d) (min_samples_for_detection d)
    (network_analysis d) (isolation_forest d) sd (detected_anomalies d)
    (network_graph d) (energy_spike_threshold d)
    (efficiency_drop_threshold d) (occupancy_energy_ratio_threshold d).

Definition with_detected_anomalies (d : AnomalyDetector)
    (l : list Anomaly) : AnomalyDetector :=
  mkDetector (window_size d) (contamination d) (min_samples_for_detection d)
    (network_analysis d) (isolation_forest d) (sensor_data d) l
    (network_graph d) (energy_spike_threshold d)
    (efficiency_drop_threshold d) (occupancy_energy_ratio_threshold d).

Definition with_network_graph (d : AnomalyDetector)
    (g : option Graph) : AnomalyDetector :=
  mkDetector (window_size d) (contamination d) (min_samples_for_detection d)
    (network_analysis d) (isolation_forest d) (sensor_data d)
    (detected_anomalies d) g (energy_spike_threshold d)
    (efficiency_drop_threshold d) (occupancy_energy_ratio_threshold d).

(** [AnomalyDetector.__init__]; [sklearn] is the library's constructor
    [IsolationForest(contamination=..., random_state=42, n_estimators=100)]. *)
Definition AnomalyDetector_init (sklearn : R -> IsolationForest)
    (window_size : Z) (contamination : R) (min_samples_for_detection : Z)
    (network_analysis : bool) : AnomalyDetector :=
  mkDetector window_size contamination min_samples_for_detection
    network_analysis (sklearn contamination) [] [] None
    2%R (3 / 10)%R (1 / 2)%R.

(** The defaults of the constructor. *)
Definition AnomalyDetector_default (sklearn : R -> IsolationForest)
    : AnomalyDetector :=
  AnomalyDetector_init sklearn 50 (5 / 100)%R 20 true.

(** [len(l)] *)
Definition len {A : Type} (l : list A) : Z := Z.of_nat (length l).

(** [self.sensor_data[sensor_id]] *)
Definition getitem (d : AnomalyDetector) (sid : string)
    : Result (list Reading) :=
  match Dict.get String.eqb (sensor_data d) sid with
  | Some l => Ok l
  | None => Raise (KeyError sid)
  end.

(** [AnomalyDetector.add_sensor_reading]; [now] is what [datetime.now()]
    returns during the call. *)
Definition add_sensor_reading (now : datetime) (d : AnomalyDetector)
    (sid : string) (value : R) (timestamp : option datetime)
    (sensor_type : string) (zone_id : option string) (metadata : Metadata)
    : AnomalyDetector :=
  let timestamp := match timestamp with None => now | Some t => t end in
  let reading := mkReading timestamp value sensor_type zone_id metadata in
  let data :=
    if Dict.contains String.eqb (sensor_data d) sid then sensor_data d
    else Dict.set String.eqb (sensor_data d) sid [] in
  let appended :=
    match Dict.get String.eqb data sid with
    | Some l => l ++ [reading]
    | None => [reading]
    end in
  let limited :=
    if len appended >? window_size d then tl appended else appended in
  with_sensor_data d (Dict.set String.eqb data sid limited).

(** One call of [add_sensor_reading], as data. *)
Record Call : Type := mkCall {
  c_now : datetime;
  c_sensor_id : string;
  c_value : R;
  c_timestamp : option datetime;
  c_sensor_type : string;
  c_zone_id : option string;
  c_metadata : Metadata
}.

Definition call (d : AnomalyDetector) (c : Call) : AnomalyDetector :=
  add_sensor_reading (c_now c) d (c_sensor_id c) (c_value c) (c_timestamp c)
    (c_sensor_type c) (c_zone_id c) (c_metadata c).

Definition run_calls (d : AnomalyDetector) (cs : list Call)
    : AnomalyDetector :=
  fold_left call cs d.

(** The reading a call stores. *)
Definition reading_of (c : Call) : Reading :=
  mkReading (match c_timestamp c with None => c_now c | Some t => t end)
    (c_value c) (c_sensor_type c) (c_zone_id c) (c_metadata c).

(** The readings the calls [cs] add for sensor [sid], in call order. *)
Definition added_for (sid : string) (cs : list Call) : list Reading :=
  map reading_of (filter (fun c => String.eqb (c_sensor_id c) sid) cs).

(** The stored window of a sensor ([[]] for an unknown sensor). *)
Definition stored (d : AnomalyDetector) (sid : string) : list Reading :=
  match Dict.get String.eqb (sensor_data d) sid with
  | Some l => l
  | None => []
  end.

(** The last [n] elements of a list. *)
Definition lastn {A : Type} (n : nat) (l : list A) : list A :=
  skipn (length l - n) l.

(** ** Numeric library functions *)

Fixpoint Rsum (l : list R) : R :=
  match l with
  | [] => 0%R
  | x :: l' => (x + Rsum l')%R
  end.

(** [np.mean] *)
Definition np_mean (l : list R) : R := (Rsum l / INR (length l))%R.

(** The sum of the squared deviations from the mean. *)
Definition sum_sq_dev (l : list R) : R :=
  let m := np_mean l in
  Rsum (map (fun x => ((x - m) * (x - m))%R) l).

(** [np.std]: the population standard deviation, as a real number; what
    the library returns after rounding is a field of [Numerics] below. *)
Definition np_std (l : list R) : R := sqrt (sum_sq_dev l / INR (length l)).

(** The sample covariance of [np.cov] (normalised by [n - 1]). *)
Definition np_cov (x y : list R) : R :=
  let mx := np_mean x in
  let my := np_mean y in
  (Rsum (map (fun p => ((fst p - mx) * (snd p - my))%R) (combine x y))
   / (INR (length x) - 1))%R.

Definition clip (lo hi x : R) : R := Rmax lo (Rmin hi x).

(** [np.corrcoef(x, y)[0, 1]]; [None] is NaN, which is what a zero
    variance yields. *)
Definition np_corrcoef (x y : list R) : option R :=
  let sx := sqrt (np_cov x x) in
  let sy := sqrt (np_cov y y) in
  if Req_dec_T sx 0 then None
  else if Req_dec_T sy 0 then None
  else Some (clip (-1) 1 (np_cov x y / sx / sy)%R).

(** The pandas aggregations [mean] and [std] of a group; the standard
    deviation is the sample one and NaN ([None]) for a single value. *)
Definition pd_mean (l : list R) : R := (Rsum l / INR (length l))%R.

Definition pd_std (l : list R) : option R :=
  if (length l <? 2)%nat then None
  else Some (sqrt (sum_sq_dev l / (INR (length l) - 1))).

(** [.fillna(0)] on one cell. *)
Definition fillna0 (x : option R) : R :=
  match x with Some v => v | None => 0%R end.

Definition Rgtb (x y : R) : bool := if Rgt_dec x y then true else false.

(** A division of the source whose divisor is a variable; a zero divisor is
    reported instead of producing inf or NaN. *)
Definition checked_div (x y : R) : Result R :=
  if Req_dec_T y 0 then Raise ZeroDivision else Ok (x / y)%R.

(** ** Slices and indexing *)

(** [l[-n:]] *)
Definition slice_last {A : Type} (n : nat) (l : list A) : list A :=
  skipn (length l - n) l.

(** [l[:-n]] for [n > 0] *)
Definition slice_drop_last {A : Type} (n : nat) (l : list A) : list A :=
  firstn (length l - n) l.

(** [l[-1]] *)
Fixpoint last_item {A : Type} (l : list A) : Result A :=
  match l with
  | [] => Raise IndexError
  | [x] => Ok x
  | _ :: l' => last_item l'
  end.

(** ** Helpers of the detector *)

(** [AnomalyDetector._is_energy_sensor] *)
Definition _is_energy_sensor (sensor_type : string) : bool :=
  let energy_types :=
    ["energy_power"; "energy_voltage"; "energy_current"; "energy_total"] in
  existsb (String.eqb sensor_type) energy_types.

(** [AnomalyDetector._calculate_severity] *)
Definition _calculate_severity (confidence value : R)
    (readings : list Reading) : SeverityLevel :=
  if Rgtb confidence (8 / 10) then CRITICAL
  else if Rgtb confidence (6 / 10) then HIGH
  else if Rgtb confidence (4 / 10) then MEDIUM
  else LOW.

(** [AnomalyDetector._calculate_expected_range] *)
Definition _calculate_expected_range (readings : list Reading) : R * R :=
  let values := map r_value readings in
  let mean := np_mean values in
  let std := np_std values in
  ((mean - 2 * std)%R, (mean + 2 * std)%R).

(** [AnomalyDetector._align_sensor_readings] *)
Definition timestamp_dict (readings : list Reading) : list (datetime * R) :=
  fold_left (fun acc r => Dict.set Z.eqb acc (r_timestamp r) (r_value r))
    readings [].

Definition _align_sensor_readings (readings1 readings2 : list Reading)
    : list (R * R) :=
  let dict1 := timestamp_dict readings1 in
  let dict2 := timestamp_dict readings2 in
  flat_map
    (fun '(ts1, val1) =>
       match
         find (fun '(ts2, _) =>
                 Z.abs (ts1 - ts2) <=? 60 * microseconds_per_second) dict2
       with
       | Some (_, val2) => [(val1, val2)]
       | None => []
       end)
    dict1.

(** ** The detection checks *)

(** [AnomalyDetector._detect_isolation_forest_anomalies]; the library
    refuses an empty column with a [ValueError]. *)
Definition _detect_isolation_forest_anomalies (d : AnomalyDetector)
    (sid : string) : Result (list Anomaly) :=
  readings <- getitem d sid ;;
  let values := map r_value readings in
  match values with
  | [] => Raise ValueError
  | _ :: _ =>
      let predictions := fit_predict (isolation_forest d) values in
      let anomaly_scores := decision_function (isolation_forest d) values in
      Ok (flat_map
            (fun '(prediction, (score, reading)) =>
               if prediction =? -1 then
                 let confidence := Rmin 1 (Rabs score / (1 / 2)) in
                 let severity :=
                   _calculate_severity confidence (r_value reading)
                     readings in
                 [mkAnomaly sid UNKNOWN severity confidence
                    (r_timestamp reading) (r_value reading)
                    (_calculate_expected_range readings)
                    (DescIsolationForest score)
                    ["Investigate sensor reading"; "Check equipment status"]
                    [("algorithm", MStr "isolation_forest");
                     ("score", MNum score)]]
               else [])
            (combine predictions (combine anomaly_scores readings)))
  end.

(** [AnomalyDetector._detect_energy_anomalies] *)
Definition _detect_energy_anomalies (d : AnomalyDetector) (sid : string)
    : Result (list Anomaly) :=
  readings <- getitem d sid ;;
  latest_reading <- last_item readings ;;
  if negb (_is_energy_sensor (r_sensor_type latest_reading)) then Ok []
  else
    let values := map r_value readings in
    if len values >=? 10 then
      let recent_mean := np_mean (slice_last 10 values) in
      let historical_mean :=
        if len values >? 10 then np_mean (slice_drop_last 10 values)
        else recent_mean in
      let historical_std :=
        if len values >? 10 then np_std (slice_drop_last 10 values)
        else np_std values in
      if Rgtb historical_std 0 then
        z_score <- checked_div (recent_mean - historical_mean)
                     historical_std ;;
        if Rgtb (Rabs z_score) (energy_spike_threshold d) then
          let severity := if Rgtb (Rabs z_score) 3 then HIGH else MEDIUM in
          Ok [mkAnomaly sid ENERGY_SPIKE severity
                (Rmin 1 (Rabs z_score / 3))
                (r_timestamp latest_reading) (r_value latest_reading)
                ((historical_mean - 2 * historical_std)%R,
                 (historical_mean + 2 * historical_std)%R)
                (DescEnergySpike z_score)
                ["Check for equipment malfunction";
                 "Verify load connections";
                 "Investigate unusual usage patterns"]
                [("z_score", MNum z_score);
                 ("historical_mean", MNum historical_mean)]]
        else Ok []
      else Ok []
    else Ok [].

(** What the energy check computes with: [np.mean], [np.std] and the
    operators [-], [+], [*] and [/] of floats. The library and the machine
    round what they return, so that, for one, the deviation of a constant
    column need not come out as 0. The check is therefore also given over
    whatever these operations return; comparisons, [abs] and [min] are
    exact on floats. *)
Record Numerics : Type := mkNumerics {
  lib_mean : list R -> R;
  lib_std : list R -> R;
  float_sub : R -> R -> R;
  float_add : R -> R -> R;
  float_mul : R -> R -> R;
  float_div : R -> R -> R
}.

(** The operations without rounding. *)
Definition exact_arithmetic : Numerics :=
  mkNumerics np_mean np_std Rminus Rplus Rmult Rdiv.

(** [AnomalyDetector._detect_energy_anomalies] over the operations [np];
    the division happens under the guard [historical_std > 0]. *)
Definition _detect_energy_anomalies_np (np : Numerics)
    (d : AnomalyDetector) (sid : string) : Result (list Anomaly) :=
  readings <- getitem d sid ;;
  latest_reading <- last_item readings ;;
  if negb (_is_energy_sensor (r_sensor_type latest_reading)) then Ok []
  else
    let values := map r_value readings in
    if len values >=? 10 then
      let recent_mean := lib_mean np (slice_last 10 values) in
      let historical_mean :=
        if len values >? 10 then lib_mean np (slice_drop_last 10 values)
        else recent_mean in
      let historical_std :=
        if len values >? 10 then lib_std np (slice_drop_last 10 values)
        else lib_std np values in
      if Rgtb historical_std 0 then
        let z_score :=
          float_div np (float_sub np recent_mean historical_mean)
            historical_std in
        if Rgtb (Rabs z_score) (energy_spike_threshold d) then
          let severity := if Rgtb (Rabs z_score) 3 then HIGH else MEDIUM in
          Ok [mkAnomaly sid ENERGY_SPIKE severity
                (Rmin 1 (float_div np (Rabs z_score) 3))
                (r_timestamp latest_reading) (r_value latest_reading)
                (float_sub np historical_mean
                   (float_mul np 2 historical_std),
                 float_add np historical_mean
                   (float_mul np 2 historical_std))
                (DescEnergySpike z_score)
                ["Check for equipment malfunction";
                 "Verify load connections";
                 "Investigate unusual usage patterns"]
                [("z_score", MNum z_score);
                 ("historical_mean", MNum historical_mean)]]
        else Ok []
      else Ok []
    else Ok [].

(** [df.groupby('hour')['value'].agg(['mean', 'std']).fillna(0)]: one row
    per hour of the day that has readings, in increasing order. *)
Definition hour_bucket (readings : list Reading) (h : Z) : list R :=
  map r_value (filter (fun r => hour (r_timestamp r) =? h) readings).

Definition hourly_row (readings : list Reading) (h : Z)
    : list (Z * (R * R)) :=
  let vs := hour_bucket readings h in
  match vs with
  | [] => []
  | _ :: _ => [(h, (pd_mean vs, fillna0 (pd_std vs)))]
  end.

Definition hourly_patterns (readings : list Reading)
    : list (Z * (R * R)) :=
  flat_map (hourly_row readings) (map Z.of_nat (seq 0 24)).

(** [AnomalyDetector._detect_temporal_anomalies] *)
Definition _detect_temporal_anomalies (d : AnomalyDetector) (sid : string)
    : Result (list Anomaly) :=
  readings <- getitem d sid ;;
  if len readings <? 24 then Ok []
  else
    let patterns := hourly_patterns readings in
    latest_reading <- last_item readings ;;
    let current_hour := hour (r_timestamp latest_reading) in
    match Dict.get Z.eqb patterns current_hour with
    | Some (expected_mean, expected_std) =>
        if Rgtb expected_std 0 then
          deviation <- checked_div
                         (Rabs (r_value latest_reading - expected_mean))
                         expected_std ;;
          if Rgtb deviation (25 / 10) then
            let severity := if Rgtb deviation 4 then HIGH else MEDIUM in
            Ok [mkAnomaly sid SEASONAL_DEVIATION severity
                  (Rmin 1 (deviation / 4))
                  (r_timestamp latest_reading) (r_value latest_reading)
                  ((expected_mean - 2 * expected_std)%R,
                   (expected_mean + 2 * expected_std)%R)
                  (DescTimeOfDay deviation)
                  ["Compare with historical patterns";
                   "Check for schedule changes";
                   "Verify sensor calibration"]
                  [("hourly_deviation", MNum deviation);
                   ("expected_mean", MNum expected_mean)]]
          else Ok []
        else Ok []
    | None => Ok []
    end.

(** [AnomalyDetector._analyze_sensor_correlation] *)
Definition _analyze_sensor_correlation (d : AnomalyDetector)
    (sensor1_id sensor2_id : string) : Result (option Anomaly) :=
  readings1 <- getitem d sensor1_id ;;
  readings2 <- getitem d sensor2_id ;;
  let common_readings := _align_sensor_readings readings1 readings2 in
  if len common_readings <? 10 then Ok None
  else
    let values1 := map fst common_readings in
    let values2 := map snd common_readings in
    match np_corrcoef values1 values2 with
    | None => Ok None
    | Some correlation =>
        match np_corrcoef (slice_last 10 values1) (slice_last 10 values2) with
        | None => Ok None
        | Some recent_corr =>
            if Rgtb (Rabs (correlation - recent_corr)) (1 / 2) then
              latest_reading <- last_item readings1 ;;
              Ok (Some
                    (mkAnomaly sensor1_id NETWORK_ISOLATION MEDIUM
                       (Rabs (correlation - recent_corr))
                       (r_timestamp latest_reading) (r_value latest_reading)
                       (_calculate_expected_range readings1)
                       (DescCorrelationBreakdown sensor2_id)
                       ["Check sensor connectivity";
                        "Verify both sensors are operational";
                        "Investigate environmental changes"]
                       [("historical_correlation", MNum correlation);
                        ("recent_correlation", MNum recent_corr);
                        ("correlated_sensor", MStr sensor2_id)]))
            else Ok None
        end
    end.

(** The truth value of an optional string. *)
Definition truthy_zone (z : option string) : bool :=
  match z with
  | None => false
  | Some s => negb (String.eqb s "")
  end.

Definition zone_eqb (a b : option string) : bool :=
  match a, b with
  | None, None => true
  | Some x, Some y => String.eqb x y
  | _, _ => false
  end.

(** The first loop of [_detect_correlation_anomalies]: the sensors of the
    same zone that have enough readings. *)
Fixpoint correlated_sensors (d : AnomalyDetector) (sid : string)
    (target_zone : option string) (items : list (string * list Reading))
    : Result (list string) :=
  match items with
  | [] => Ok []
  | (other_id, other_readings) :: rest =>
      if String.eqb other_id sid
         || (len other_readings <? min_samples_for_detection d)
      then correlated_sensors d sid target_zone rest
      else
        other_latest <- last_item other_readings ;;
        let other_zone := r_zone_id other_latest in
        more <- correlated_sensors d sid target_zone rest ;;
        if truthy_zone target_zone && zone_eqb other_zone target_zone
        then Ok (other_id :: more)
        else Ok more
  end.

(** The second loop of [_detect_correlation_anomalies]. *)
Fixpoint analyze_all (d : AnomalyDetector) (sid : string)
    (others : list string) : Result (list Anomaly) :=
  match others with
  | [] => Ok []
  | other_id :: rest =>
      anomaly <- _analyze_sensor_correlation d sid other_id ;;
      more <- analyze_all d sid rest ;;
      match anomaly with
      | Some a => Ok (a :: more)
      | None => Ok more
      end
  end.

(** [AnomalyDetector._detect_correlation_anomalies] *)
Definition _detect_correlation_anomalies (d : AnomalyDetector)
    (sid : string) : Result (list Anomaly) :=
  if len (sensor_data d) <? 2 then Ok []
  else
    target_readings <- getitem d sid ;;
    target_latest <- last_item target_readings ;;
    let target_zone := r_zone_id target_latest in
    correlated <- correlated_sensors d sid target_zone (sensor_data d) ;;
    match correlated with
    | [] => Ok []
    | _ :: _ => analyze_all d sid correlated
    end.

(** The truth value of [self.network_graph]: a graph is false when it has
    no node. *)
Definition truthy_graph (g : option Graph) : bool :=
  match g with
  | None => false
  | Some [] => false
  | Some (_ :: _) => true
  end.

(** The anomaly [_detect_network_anomalies] creates for an isolated node,
    if the node is a sensor with a reading. *)
Definition network_anomaly (d : AnomalyDetector) (sid : string)
    : list Anomaly :=
  match Dict.get String.eqb (sensor_data d) sid with
  | Some (r :: rs) =>
      match last_item (r :: rs) with
      | Ok latest_reading =>
          [mkAnomaly sid NETWORK_ISOLATION HIGH 1
             (r_timestamp latest_reading) (r_value latest_reading)
             (_calculate_expected_range (r :: rs))
             DescNetworkIsolated
             ["Check network connectivity";
              "Verify sensor power supply";
              "Inspect physical connections"]
             [("network_degree", MInt 0)]]
      | Raise _ => []
      end
  | _ => []
  end.

(** [AnomalyDetector._detect_network_anomalies] *)
Definition _detect_network_anomalies (d : AnomalyDetector)
    : list Anomaly :=
  if negb (truthy_graph (network_graph d)) then []
  else
    match network_graph d with
    | None => []
    | Some g =>
        let isolated_nodes :=
          filter (fun node => (graph_degree g node =? 0)%nat)
            (graph_nodes g) in
        flat_map (network_anomaly d) isolated_nodes
    end.

(** [AnomalyDetector.update_network_graph], given what
    [building.get_sensor_network_graph()] returns. *)
Definition update_network_graph (d : AnomalyDetector) (g : option Graph)
    : AnomalyDetector :=
  with_network_graph d g.

(** ** Sorting *)

(** The sort key [(x.severity.value, x.timestamp)]: the enum value is the
    string. *)
Definition sort_key (a : Anomaly) : string * datetime :=
  (SeverityLevel_value (severity a), timestamp a).

(** The order of Python tuples of a string and a datetime. *)
Definition key_ltb (k1 k2 : string * datetime) : bool :=
  match String.compare (fst k1) (fst k2) with
  | Lt => true
  | Gt => false
  | Eq => snd k1 <? snd k2
  end.

(** [list.sort(key=..., reverse=True)]: descending and stable. *)
Fixpoint insert_reverse (a : Anomaly) (l : list Anomaly) : list Anomaly :=
  match l with
  | [] => [a]
  | b :: l' =>
      if key_ltb (sort_key a) (sort_key b) then b :: insert_reverse a l'
      else a :: b :: l'
  end.

Definition sort_reverse (l : list Anomaly) : list Anomaly :=
  fold_right insert_reverse [] l.

(** ** [detect_anomalies] *)

(** The loop over the sensor ids. *)
Fixpoint detect_sensors (d : AnomalyDetector) (sensor_ids : list string)
    : Result (list Anomaly) :=
  match sensor_ids with
  | [] => Ok []
  | sid :: rest =>
      readings <- getitem d sid ;;
      if len readings <? min_samples_for_detection d then
        detect_sensors d rest
      else
        isolation_anomalies <- _detect_isolation_forest_anomalies d sid ;;
        energy_anomalies <- _detect_energy_anomalies d sid ;;
        temporal_anomalies <- _detect_temporal_anomalies d sid ;;
        correlation_anomalies <- _detect_correlation_anomalies d sid ;;
        more <- detect_sensors d rest ;;
        Ok (isolation_anomalies ++ energy_anomalies ++ temporal_anomalies
            ++ correlation_anomalies ++ more)
  end.

(** [AnomalyDetector.detect_anomalies]: the detector after the call and the
    returned list. *)
Definition detect_anomalies (d : AnomalyDetector)
    (sensor_ids : option (list string))
    : Result (AnomalyDetector * list Anomaly) :=
  let sensor_ids :=
    match sensor_ids with
    | None => Dict.keys (sensor_data d)
    | Some ids => ids
    end in
  per_sensor <- detect_sensors d sensor_ids ;;
  let detected :=
    if network_analysis d && truthy_graph (network_graph d)
    then per_sensor ++ _detect_network_anomalies d
    else per_sensor in
  Ok (with_detected_anomalies d (detected_anomalies d ++ detected),
      sort_reverse detected).

(** ** [get_anomaly_summary] *)

Record Summary : Type := mkSummary {
  total_anomalies : Z;
  by_severity : list (string * Z);
  by_type : list (string * Z);
  most_recent : option datetime;
  critical_sensors : list string
}.

(** [list(set(...))]; the order of a set is not specified, the first
    occurrences are kept here. *)
Definition dedup (l : list string) : list string :=
  fold_left (fun acc s => if existsb (String.eqb s) acc then acc
                          else acc ++ [s]) l [].

(** [AnomalyDetector.get_anomaly_summary]; [now] is [datetime.now()].  The
    ISO string of [most_recent] is represented by the datetime it prints. *)
Definition get_anomaly_summary (now : datetime) (d : AnomalyDetector)
    (hours : Z) : Summary :=
  let cutoff_time := now - timedelta_hours hours in
  let recent_anomalies :=
    filter (fun a => timestamp a >=? cutoff_time) (detected_anomalies d) in
  mkSummary
    (len recent_anomalies)
    (fold_left
       (fun acc level =>
          Dict.set String.eqb acc (SeverityLevel_value level)
            (len (filter (fun a => SeverityLevel_eqb (severity a) level)
                    recent_anomalies)))
       SeverityLevel_members [])
    (fold_left
       (fun acc atype =>
          Dict.set String.eqb acc (AnomalyType_value atype)
            (len (filter (fun a => AnomalyType_eqb (anomaly_type a) atype)
                    recent_anomalies)))
       AnomalyType_members [])
    (match recent_anomalies with
     | a :: _ => Some (timestamp a)
     | [] => None
     end)
    (dedup (map sensor_id
              (filter (fun a => SeverityLevel_eqb (severity a) CRITICAL)
                 recent_anomalies))).

(** ** [clear_old_anomalies] *)

(** [timedelta(days=n)] *)
Definition timedelta_days (n : Z) : Z := n * (24 * microseconds_per_hour).

(** [AnomalyDetector.clear_old_anomalies]: the detector after the call and
    the returned count; [now] is [datetime.now()]. *)
Definition clear_old_anomalies (now : datetime) (d : AnomalyDetector)
    (days : Z) : AnomalyDetector * Z :=
  let cutoff_time := now - timedelta_days days in
  let initial_count := len (detected_anomalies d) in
  let d' :=
    with_detected_anomalies d
      (filter (fun a => timestamp a >=? cutoff_time)
         (detected_anomalies d)) in
  let removed_count := initial_count - len (detected_anomalies d') in
  (d', removed_count).

(** ** The monitoring system *)

(** [MonitoringConfig], a dataclass without [__post_init__]. *)
Record MonitoringConfig : Type := mkMonitoringConfig {
  sampling_interval : Z;
  anomaly_check_interval : Z;
  auto_start : bool;
  save_history : bool;
  max_history_size : Z;
  enable_alerts : bool;
  alert_threshold : string
}.

(** [MonitoringConfig()] *)
Definition MonitoringConfig_default : MonitoringConfig :=
  mkMonitoringConfig 60 300 true true 10000 true "medium".

Section Monitoring.
(** The building and the entries of the two histories are those of the
    rest of the repository. *)
Variables Building Snapshot Alert : Type.

Record MonitoringSystem : Type := mkMonitoringSystem {
  building : Building;
  config : MonitoringConfig;
  anomaly_detector : AnomalyDetector;
  is_running : bool;
  monitoring_thread_started : bool;
  stop_event : bool;
  reading_history : list Snapshot;
  alert_history : list Alert;
  start_time : option datetime;
  total_readings : Z;
  total_anomalies_found : Z
}.

(** [MonitoringSystem.__init__] *)
Definition MonitoringSystem_init (sklearn : R -> IsolationForest)
    (b : Building) (cfg : option MonitoringConfig)
    : Result MonitoringSystem :=
  let config :=
    match cfg with
    | Some c => c
    | None => MonitoringConfig_default
    end in
  Ok (mkMonitoringSystem b config (AnomalyDetector_default sklearn)
        false false false [] [] None 0 0).
End Monitoring.

Arguments building {Building Snapshot Alert} _.
Arguments config {Building Snapshot Alert} _.
Arguments anomaly_detector {Building Snapshot Alert} _.
Arguments is_running {Building Snapshot Alert} _.
Arguments MonitoringSystem_init {Building} Snapshot Alert sklearn b cfg.

(** ** The operations of the monitoring system *)

Arguments mkMonitoringSystem {Building Snapshot Alert}.
Arguments monitoring_thread_started {Building Snapshot Alert} _.
Arguments stop_event {Building Snapshot Alert} _.
Arguments reading_history {Building Snapshot Alert} _.
Arguments alert_history {Building Snapshot Alert} _.
Arguments start_time {Building Snapshot Alert} _.
Arguments total_readings {Building Snapshot Alert} _.
Arguments total_anomalies_found {Building Snapshot Alert} _.

(** The table [severity_order] of [_process_alerts] and its lookup
    [severity_order.get(key, default)]. *)
Definition severity_order_table : list (string * Z) :=
  [("low", 0); ("medium", 1); ("high", 2); ("critical", 3)].

Definition severity_order_get (key : string) (default : Z) : Z :=
  match Dict.get String.eqb severity_order_table key with
  | Some level => level
  | None => default
  end.

(** An entry of [alert_history]; the ISO string of the timestamp is
    represented by the datetime it prints. *)
Record AlertRecord : Type := mkAlert {
  alert_timestamp : datetime;
  alert_sensor_id : string;
  alert_anomaly_type : string;
  alert_severity : string;
  alert_confidence : R;
  alert_description : Description;
  alert_recommendations : list string;
  alert_value : R;
  alert_expected_range : R * R
}.

(** What [_get_building_state_summary] returns; it is computed by the
    building and the sensors. *)
Record BuildingState : Type := mkBuildingState {
  total_occupancy : Z;
  total_energy_consumption : R;
  active_sensors : Z;
  total_sensors : Z
}.

(** An entry of the [readings] of a snapshot. *)
Inductive ReadingEntry : Type :=
| EntryValue (value : R) (unit : string) (quality : R)
    (sensor_type : string) (zone_id : option string)
| EntryError (message : string).

(** An entry of [reading_history]. *)
Record SnapshotRecord : Type := mkSnapshot {
  snapshot_timestamp : datetime;
  snapshot_readings : list (string * ReadingEntry);
  snapshot_building_summary : BuildingState
}.

(** What a sensor of the building answers during one collection: it is
    not active, or [is_active()] or [take_reading()] raises, or
    [take_reading()] returns a reading. *)
Inductive SensorAnswer : Type :=
| Inactive
| Failed (message : string)
| Measured (value : R) (unit : string) (quality : R)
    (sensor_type : string) (zone_id : option string) (metadata : Metadata).

Section MonitoringOperations.
Variable Building : Type.

Definition System : Type :=
  MonitoringSystem Building SnapshotRecord AlertRecord.

(** [MonitoringSystem.start_monitoring]; [now] is [datetime.now()]. The
    worker thread is represented by the flag that it was started; what it
    does concurrently is not part of the embedding. *)
Definition start_monitoring (now : datetime) (s : System) : System :=
  if is_running s then s
  else
    mkMonitoringSystem (building s) (config s) (anomaly_detector s)
      true
      (if auto_start (config s) then true else monitoring_thread_started s)
      false
      (reading_history s) (alert_history s) (Some now)
      (total_readings s) (total_anomalies_found s).

(** [MonitoringSystem.stop_monitoring] *)
Definition stop_monitoring (s : System) : System :=
  if negb (is_running s) then s
  else
    mkMonitoringSystem (building s) (config s) (anomaly_detector s)
      false (monitoring_thread_started s) true
      (reading_history s) (alert_history s) (start_time s)
      (total_readings s) (total_anomalies_found s).

(** The loop of [_collect_sensor_readings] over
    [self.building.sensors.items()], given what each sensor answers: the
    detector, the [readings] of the snapshot and [total_readings]. *)
Fixpoint collect_loop (timestamp : datetime)
    (sweep : list (string * SensorAnswer)) (detector : AnomalyDetector)
    (readings : list (string * ReadingEntry)) (total : Z)
    : AnomalyDetector * list (string * ReadingEntry) * Z :=
  match sweep with
  | [] => (detector, readings, total)
  | (sid, Inactive) :: rest =>
      collect_loop timestamp rest detector readings total
  | (sid, Failed message) :: rest =>
      collect_loop timestamp rest detector
        (Dict.set String.eqb readings sid (EntryError message)) total
  | (sid, Measured value unit quality sensor_type zone_id metadata)
    :: rest =>
      collect_loop timestamp rest
        (add_sensor_reading timestamp detector sid value (Some timestamp)
           sensor_type zone_id metadata)
        (Dict.set String.eqb readings sid
           (EntryValue value unit quality sensor_type zone_id))
        (total + 1)
  end.

(** [MonitoringSystem._collect_sensor_readings]; [timestamp] is
    [datetime.now()] and [state] what [_get_building_state_summary]
    returns. *)
Definition _collect_sensor_readings (timestamp : datetime)
    (sweep : list (string * SensorAnswer)) (state : BuildingState)
    (s : System) : System :=
  let '(detector, readings, total) :=
    collect_loop timestamp sweep (anomaly_detector s) [] (total_readings s)
  in
  let history :=
    if save_history (config s) then
      let appended :=
        reading_history s ++ [mkSnapshot timestamp readings state] in
      if len appended >? max_history_size (config s) then tl appended
      else appended
    else reading_history s in
  mkMonitoringSystem (building s) (config s) detector
    (is_running s) (monitoring_thread_started s) (stop_event s)
    history (alert_history s) (start_time s)
    total (total_anomalies_found s).

(** The alert of an anomaly, created at the clock reading [now]. *)
Definition alert_of (now : datetime) (anomaly : Anomaly) : AlertRecord :=
  mkAlert now (sensor_id anomaly)
    (AnomalyType_value (anomaly_type anomaly))
    (SeverityLevel_value (severity anomaly))
    (confidence anomaly) (description anomaly) (recommendations anomaly)
    (value anomaly) (expected_range anomaly).

(** The loop of [_process_alerts]; [clock i] is what [datetime.now()]
    returns for the alert number [i] of the call. *)
Fixpoint process_alerts_loop (clock : nat -> datetime)
    (threshold_level : Z) (anomalies : list Anomaly) (i : nat)
    (alerts : list AlertRecord) : list AlertRecord :=
  match anomalies with
  | [] => alerts
  | anomaly :: rest =>
      let anomaly_level :=
        severity_order_get (SeverityLevel_value (severity anomaly)) 0 in
      if anomaly_level >=? threshold_level then
        process_alerts_loop clock threshold_level rest (S i)
          (alerts ++ [alert_of (clock i) anomaly])
      else process_alerts_loop clock threshold_level rest i alerts
  end.

(** [MonitoringSystem._process_alerts] *)
Definition _process_alerts (clock : nat -> datetime) (s : System)
    (anomalies : list Anomaly) : System :=
  let threshold_level :=
    severity_order_get (alert_threshold (config s)) 1 in
  mkMonitoringSystem (building s) (config s) (anomaly_detector s)
    (is_running s) (monitoring_thread_started s) (stop_event s)
    (reading_history s)
    (process_alerts_loop clock threshold_level anomalies 0
       (alert_history s))
    (start_time s) (total_readings s) (total_anomalies_found s).

(** [MonitoringSystem._perform_anomaly_detection]; [graph] is what
    [building.get_sensor_network_graph()] returns. *)
Definition _perform_anomaly_detection (clock : nat -> datetime)
    (graph : option Graph) (s : System) : Result System :=
  let detector := update_network_graph (anomaly_detector s) graph in
  r <- detect_anomalies detector None ;;
  let s1 :=
    mkMonitoringSystem (building s) (config s) (fst r)
      (is_running s) (monitoring_thread_started s) (stop_event s)
      (reading_history s) (alert_history s) (start_time s)
      (total_readings s) (total_anomalies_found s) in
  match snd r with
  | [] => Ok s1
  | _ :: _ =>
      let s2 :=
        mkMonitoringSystem (building s1) (config s1) (anomaly_detector s1)
          (is_running s1) (monitoring_thread_started s1) (stop_event s1)
          (reading_history s1) (alert_history s1) (start_time s1)
          (total_readings s1) (total_anomalies_found s1 + len (snd r)) in
      if enable_alerts (config s2) then
        Ok (_process_alerts clock s2 (snd r))
      else Ok s2
  end.

(** What the environment supplies to one [simulate_step]: the two clock
    readings, the answers of the sensors, the state summary of the
    building, the clock of the alerts and the graph of the building. *)
Record StepInput : Type := mkStepInput {
  step_now : datetime;
  step_timestamp : datetime;
  step_sweep : list (string * SensorAnswer);
  step_state : BuildingState;
  step_clock : nat -> datetime;
  step_graph : option Graph
}.

(** [MonitoringSystem.simulate_step] *)
Definition simulate_step (i : StepInput) (s : System) : Result System :=
  let s0 :=
    if negb (is_running s) then
      mkMonitoringSystem (building s) (config s) (anomaly_detector s)
        (is_running s) (monitoring_thread_started s) (stop_event s)
        (reading_history s) (alert_history s) (Some (step_now i))
        (total_readings s) (total_anomalies_found s)
    else s in
  let s1 :=
    _collect_sensor_readings (step_timestamp i) (step_sweep i)
      (step_state i) s0 in
  _perform_anomaly_detection (step_clock i) (step_graph i) s1.

(** Steps one after the other, until one raises. *)
Fixpoint simulate_steps (inputs : list StepInput) (s : System)
    : Result System :=
  match inputs with
  | [] => Ok s
  | i :: rest => s' <- simulate_step i s ;; simulate_steps rest s'
  end.

(** [MonitoringSystem.clear_history] *)
Definition clear_history (s : System) : System :=
  mkMonitoringSystem (building s) (config s)
    (with_detected_anomalies (anomaly_detector s) [])
    (is_running s) (monitoring_thread_started s) (stop_event s)
    [] [] (start_time s) (total_readings s) (total_anomalies_found s).

(** [MonitoringSystem.get_recent_alerts]; [now] is [datetime.now()]. *)
Definition get_recent_alerts (now : datetime) (s : System) (hours : Z)
    : list AlertRecord :=
  let cutoff_time := now - timedelta_hours hours in
  filter (fun alert => alert_timestamp alert >=? cutoff_time)
    (alert_history s).
End MonitoringOperations.

Arguments start_monitoring {Building} now s.
Arguments stop_monitoring {Building} s.
Arguments _collect_sensor_readings {Building} timestamp sweep state s.
Arguments _process_alerts {Building} clock s anomalies.
Arguments _perform_anomaly_detection {Building} clock graph s.
Arguments simulate_step {Building} i s.
Arguments simulate_steps {Building} inputs s.
Arguments clear_history {Building} s.
Arguments get_recent_alerts {Building} now s hours.

(** The number of readings a collection takes. *)
Fixpoint measured_count (sweep : list (string * SensorAnswer)) : Z :=
  match sweep with
  | [] => 0
  | (_, Measured _ _ _ _ _ _) :: rest => 1 + measured_count rest
  | _ :: rest => measured_count rest
  end.

(** ** The sensor network graph of the building *)












(** ** Sample data *)

(** A forest that flags no point. *)
Definition quiet_forest (contamination : R) : IsolationForest :=
  mkIsolationForest (fun values => map (fun _ => 1) values)
                    (fun values => map (fun _ => (1 / 10)%R) values).


(** A call that adds [value] for [sid] at the second [sec]. *)
Definition sample_call (sid : string) (sensor_type : string)
    (zone : option string) (sec : Z) (value : Z) : Call :=
  mkCall (sec * microseconds_per_second) sid (IZR value)
    (Some (sec * microseconds_per_second)) sensor_type zone [].

(** Calls for one sensor: the values at the seconds [start],
    [start + step], ... *)
Fixpoint sample_calls (sid sensor_type : string) (zone : option string)
    (start step : Z) (values : list Z) : list Call :=
  match values with
  | [] => []
  | v :: vs =>
      sample_call sid sensor_type zone start v
      :: sample_calls sid sensor_type zone (start + step) step vs
  end.

Definition three_and_one : list Call :=
  [sample_call "hvac_001" "temperature" None 0 21;
   sample_call "light_001" "illuminance" None 0 300;
   sample_call "hvac_001" "temperature" None 60 22;
   sample_call "hvac_001" "temperature" None 120 23].

(** [sum(d.values())] *)
Definition sum_values (d : list (string * Z)) : Z :=
  fold_right Z.add 0 (Dict.values d).

(** The specification's reading of [most_recent]: the latest timestamp among
    the stored anomalies inside the trailing window, if there is one. *)
Definition latest_in_window (now : datetime) (d : AnomalyDetector)
    (hours : Z) : option datetime :=
  fold_left
    (fun acc a =>
       if timestamp a >=? now - timedelta_hours hours then
         match acc with
         | None => Some (timestamp a)
         | Some t => Some (Z.max t (timestamp a))
         end
       else acc)
    (detected_anomalies d) None.

(** A graph whose only node has no edge. *)
Definition lonely_graph : Graph := [("hvac_001", [])].

(** A default detector with that graph and a single reading of the
    isolated sensor. *)
Definition lonely_detector (sklearn : R -> IsolationForest)
    : AnomalyDetector :=
  call (update_network_graph (AnomalyDetector_default sklearn)
          (Some lonely_graph))
    (sample_call "hvac_001" "temperature" None 1000000 21).

(** Two detection rounds five minutes apart on that sensor: a reading, a
    detection, a second reading, a second detection. *)
Definition two_detections (sklearn : R -> IsolationForest)
    : Result AnomalyDetector :=
  r1 <- detect_anomalies (lonely_detector sklearn) None ;;
  let d2 :=
    call (fst r1) (sample_call "hvac_001" "temperature" None 1000300 22) in
  r2 <- detect_anomalies d2 None ;;
  Ok (fst r2).

(** A configuration with negative intervals. *)
Definition negative_intervals : MonitoringConfig :=
  mkMonitoringConfig (-1) (-300) false true 10000 true "medium".

(** Twenty readings of an energy meter, two minutes apart: ten that
    alternate between 18 and 22, then ten times [recent]. *)
Definition meter_values (recent : Z) : list Z :=
  [18; 22; 18; 22; 18; 22; 18; 22; 18; 22] ++ repeat recent 10.

Definition meter_calls (recent : Z) : list Call :=
  sample_calls "energy_001" "energy_power" (Some "test_zone")
    1000000 120 (meter_values recent).

Definition meter_detector (sklearn : R -> IsolationForest) (recent : Z)
    : AnomalyDetector :=
  run_calls (AnomalyDetector_default sklearn) (meter_calls recent).

(** Forty-eight hourly readings of a thermometer, all 21 degrees. *)
Definition steady_calls : list Call :=
  sample_calls "hvac_001" "temperature" (Some "test_zone")
    1000000 3600 (repeat 21 48).

Definition steady_detector (sklearn : R -> IsolationForest)
    : AnomalyDetector :=
  run_calls (AnomalyDetector_default sklearn) steady_calls.

(** The meter whose last ten readings are 25, isolated in the graph. *)
Definition isolated_meter (sklearn : R -> IsolationForest)
    : AnomalyDetector :=
  update_network_graph (meter_detector sklearn 25)
    (Some [("energy_001", [])]).

(** Two thermometers of one zone, read together every five minutes, twenty
    times: they move together by ten degrees around 20, then against each
    other by one degree. *)
Definition pair_values_1 : list Z :=
  [30; 10; 30; 10; 30; 10; 30; 10; 30; 10;
   21; 19; 21; 19; 21; 19; 21; 19; 21; 19].

Definition pair_values_2 : list Z :=
  [30; 10; 30; 10; 30; 10; 30; 10; 30; 10;
   19; 21; 19; 21; 19; 21; 19; 21; 19; 21].

Definition pair_detector (sklearn : R -> IsolationForest)
    : AnomalyDetector :=
  run_calls (AnomalyDetector_default sklearn)
    (sample_calls "hvac_001" "temperature" (Some "test_zone")
       1000000 300 pair_values_1
     ++ sample_calls "hvac_002" "temperature" (Some "test_zone")
          1000000 300 pair_values_2).

(** Twenty-four readings of a thermometer within one hour, two minutes
    apart: twenty-three times 0 and then 24. *)
Definition burst_values : list Z := repeat 0 23 ++ [24].

Definition burst_detector (sklearn : R -> IsolationForest)
    : AnomalyDetector :=
  run_calls (AnomalyDetector_default sklearn)
    (sample_calls "hvac_001" "temperature" (Some "test_zone")
       1000800 120 burst_values).

(** A system as the constructor makes it, over a building without
    content. *)
Definition fresh_system : System unit :=
  mkMonitoringSystem tt MonitoringConfig_default
    (AnomalyDetector_default quiet_forest)
    false false false [] [] None 0 0.

(** A collection in which one sensor answers, one fails and one is not
    active. *)
Definition mixed_sweep : list (string * SensorAnswer) :=
  [("hvac_001", Measured 21 "C" 1 "temperature" (Some "test_zone") []);
   ("light_001", Failed "Sensor light_001 has failed");
   ("occ_001", Inactive)].

Definition idle_state : BuildingState := mkBuildingState 0 0 1 3.

Definition mixed_step (sec : Z) : StepInput :=
  mkStepInput (sec * microseconds_per_second)
    (sec * microseconds_per_second) mixed_sweep idle_state
    (fun _ => sec * microseconds_per_second) None.



(** ** Auxiliary definitions *)

(** What one call does to a stored window. *)
Definition limit (ws : Z) (l : list Reading) : list Reading :=
  if len l >? ws then tl l else l.

(** The position of a severity in the order of the enum values, which are
    strings: "critical" < "high" < "low" < "medium". *)
Definition alphabetical_rank (s : SeverityLevel) : Z :=
  match s with
  | CRITICAL => 0
  | HIGH => 1
  | LOW => 2
  | MEDIUM => 3
  end.

(** The order [sort_reverse] establishes between an element and a later
    one. *)
Definition code_before (a b : Anomaly) : Prop :=
  key_ltb (sort_key a) (sort_key b) = false.

(** The order the specification states for the returned list: a higher
    severity rank first, and the more recent first within a severity. *)
Definition claimed_before (a b : Anomaly) : Prop :=
  severity_order (severity b) < severity_order (severity a) \/
  (severity a = severity b /\ timestamp b <= timestamp a).

(** Every stored window has a reading, as is the case after any calls of
    [add_sensor_reading] when [window_size >= 1]. *)
Definition store_nonempty (d : AnomalyDetector) : Prop :=
  Forall (fun kv => snd kv <> []) (sensor_data d).

(** The alerts of the anomalies [l], created at the clock readings
    [clock i], [clock (i + 1)], ... *)
Fixpoint stamp (clock : nat -> datetime) (i : nat) (l : list Anomaly)
    : list AlertRecord :=
  match l with
  | [] => []
  | a :: rest => alert_of (clock i) a :: stamp clock (S i) rest
  end.

(** What the monitoring system relies on between steps: the detector's
    windows all hold a reading and its window size is at least one. *)
Definition detector_sound (d : AnomalyDetector) : Prop :=
  store_nonempty d /\ 1 <= window_size d.

(** The readings that the steps [inputs] take in total. *)
Fixpoint measured_total (inputs : list StepInput) : Z :=
  match inputs with
  | [] => 0
  | i :: rest => measured_count (step_sweep i) + measured_total rest
  end.

(** The calls of [add_sensor_reading] that a collection makes. *)
Fixpoint sweep_calls (timestamp : datetime)
    (sweep : list (string * SensorAnswer)) : list Call :=
  match sweep with
  | [] => []
  | (sid, Measured value unit quality sensor_type zone_id metadata)
    :: rest =>
      mkCall timestamp sid value (Some timestamp) sensor_type zone_id
        metadata
      :: sweep_calls timestamp rest
  | _ :: rest => sweep_calls timestamp rest
  end.

(** The entry that a collection records for an answer, if any. *)
Definition sweep_entry (answer : SensorAnswer) : option ReadingEntry :=
  match answer with
  | Inactive => None
  | Failed message => Some (EntryError message)
  | Measured value unit quality sensor_type zone_id _ =>
      Some (EntryValue value unit quality sensor_type zone_id)
  end.

Definition record_entry (readings : list (string * ReadingEntry))
    (item : string * SensorAnswer) : list (string * ReadingEntry) :=
  match sweep_entry (snd item) with
  | Some entry => Dict.set String.eqb readings (fst item) entry
  | None => readings
  end.

(** The calls of [add_sensor_reading] that the steps [inputs] make, in
    order. *)
Definition steps_calls (inputs : list StepInput) : list Call :=
  flat_map (fun i => sweep_calls (step_timestamp i) (step_sweep i)) inputs.


(** An anomaly is about a stored reading of its sensor when it carries the
    reading's timestamp and value; for every check but the isolation
    forest's the reading is the latest of the window. *)
Definition about_reading (d : AnomalyDetector) (a : Anomaly) : Prop :=
  exists r,
    In r (stored d (sensor_id a)) /\
    timestamp a = r_timestamp r /\
    value a = r_value r /\
    (anomaly_type a <> UNKNOWN ->
     last_item (stored d (sensor_id a)) = Ok r).

(** The bounds of the expected range and of the confidence. *)
Definition within_bounds (a : Anomaly) : Prop :=
  (fst (expected_range a) <= snd (expected_range a))%R /\
  (0 <= confidence a <= 2)%R /\
  ((1 < confidence a)%R ->
   exists other, description a = DescCorrelationBreakdown other).

(** Evaluation of the data of a goal, the real numbers left as they are. *)
Ltac evaluate :=
  lazy -[IZR INR Rplus Rminus Rmult Rdiv Rinv Ropp sqrt Rabs Rmin Rmax
         Rgt_dec Req_dec_T];
  reflexivity.

(** Unfolding the statistics of a list that is written out. *)
Ltac stats :=
  repeat (progress (unfold np_mean, np_std, pd_mean, sum_sq_dev, np_cov;
                    cbn [Rsum map length combine fst snd List.repeat app]));
  rewrite ?INR_IZR_INZ;
  cbn [Z.of_nat Pos.of_succ_nat Pos.succ].

(** Case analysis along the binds and branches of a computation that is
    known to return. *)
Ltac returns H :=
  repeat (cbn [bind] in H;
          match type of H with
          | Ok _ = Ok _ => inversion H; subst; clear H
          | Raise _ = Ok _ => discriminate H
          | context [bind ?m _] => destruct m eqn:?
          | context [if ?b then _ else _] => destruct b eqn:?
          | context [match ?x with _ => _ end] => destruct x eqn:?
          end).

(** * Properties *)

(** ** Dictionaries keyed by strings *)

Section DictFacts.
Context {V : Type}.
Implicit Types (d : list (string * V)) (k : string) (v : V).

Lemma get_set_same d k v :
  Dict.get String.eqb (Dict.set String.eqb d k v) k = Some v.
Proof.
  induction d as [|[k' v'] d IH]; simpl.
  - now rewrite String.eqb_refl.
  - destruct (String.eqb k k') eqn:E; simpl; rewrite E; auto.
Qed.

Lemma get_set_other d k k' v :
  k <> k' ->
  Dict.get String.eqb (Dict.set String.eqb d k v) k' =
  Dict.get String.eqb d k'.
Proof.
  intros Hne. induction d as [|[k0 v0] d IH]; simpl.
  - destruct (String.eqb k' k) eqn:E; auto.
    apply String.eqb_eq in E. congruence.
  - destruct (String.eqb k k0) eqn:E; simpl.
    + apply String.eqb_eq in E. subst k0.
      destruct (String.eqb k' k) eqn:E'; auto.
      apply String.eqb_eq in E'. congruence.
    + now rewrite IH.
Qed.


Lemma keys_get d k :
  In k (Dict.keys d) <-> exists v, Dict.get String.eqb d k = Some v.
Proof.
  induction d as [|[k' v'] d IH]; simpl.
  - split; [tauto | intros [v H]; discriminate].
  - destruct (String.eqb k k') eqn:E.
    + apply String.eqb_eq in E. subst. split; eauto.
    + apply String.eqb_neq in E. rewrite <- IH. split.
      * intros [H | H]; [congruence | exact H].
      * auto.
Qed.
End DictFacts.

(** ** The window of [add_sensor_reading] *)

Lemma stored_call d c sid :
  stored (call d c) sid =
  if String.eqb (c_sensor_id c) sid
  then limit (window_size d) (stored d sid ++ [reading_of c])
  else stored d sid.
Proof.
  unfold call, add_sensor_reading, stored, limit, reading_of. simpl.
  destruct (String.eqb (c_sensor_id c) sid) eqn:E.
  - apply String.eqb_eq in E. subst sid. rewrite get_set_same.
    unfold Dict.contains.
    destruct (Dict.get String.eqb (sensor_data d) (c_sensor_id c)) eqn:G.
    + rewrite G. reflexivity.
    + rewrite get_set_same. reflexivity.
  - apply String.eqb_neq in E. rewrite get_set_other by exact E.
    destruct (Dict.contains String.eqb (sensor_data d) (c_sensor_id c)).
    + reflexivity.
    + now rewrite get_set_other by exact E.
Qed.

Lemma window_size_call d c : window_size (call d c) = window_size d.
Proof. reflexivity. Qed.

Lemma window_size_run_calls cs : forall d,
  window_size (run_calls d cs) = window_size d.
Proof.
  induction cs as [|c cs IH]; intros d; simpl; [reflexivity|].
  now rewrite IH, window_size_call.
Qed.

Lemma run_calls_snoc d cs c :
  run_calls d (cs ++ [c]) = call (run_calls d cs) c.
Proof. unfold run_calls. now rewrite fold_left_app. Qed.

Lemma added_for_snoc sid cs c :
  added_for sid (cs ++ [c]) =
  if String.eqb (c_sensor_id c) sid
  then added_for sid cs ++ [reading_of c]
  else added_for sid cs.
Proof.
  unfold added_for. rewrite filter_app. simpl.
  destruct (String.eqb (c_sensor_id c) sid).
  - now rewrite map_app.
  - now rewrite app_nil_r.
Qed.

Lemma tl_skipn_snoc {A : Type} (k : nat) (l : list A) (x : A) :
  (k <= length l)%nat ->
  tl (skipn k l ++ [x]) = skipn (S k) (l ++ [x]).
Proof.
  revert l. induction k as [|k IH]; intros l Hk.
  - simpl. destruct l; reflexivity.
  - destruct l as [|y l]; simpl in Hk; [lia|].
    simpl. rewrite IH by lia. destruct k; reflexivity.
Qed.

Lemma limit_lastn (n : nat) (rs : list Reading) (r : Reading) :
  limit (Z.of_nat n) (lastn n rs ++ [r]) = lastn n (rs ++ [r]).
Proof.
  unfold limit, lastn, len.
  rewrite !length_app, length_skipn. simpl.
  destruct (Nat.le_gt_cases n (length rs)) as [Hle | Hgt].
  - replace (Z.of_nat (length rs - (length rs - n) + 1) >? Z.of_nat n)
      with true by (symmetry; apply Z.gtb_lt; lia).
    rewrite tl_skipn_snoc by lia. f_equal. lia.
  - replace (Z.of_nat (length rs - (length rs - n) + 1) >? Z.of_nat n)
      with false
      by (symmetry; destruct (Z.gtb_spec
            (Z.of_nat (length rs - (length rs - n) + 1)) (Z.of_nat n));
          [lia | reflexivity]).
    replace (length rs - n)%nat with 0%nat by lia.
    replace (length rs + 1 - n)%nat with 0%nat by lia.
    reflexivity.
Qed.

Lemma length_lastn {A : Type} (n : nat) (l : list A) :
  length (lastn n l) = Nat.min n (length l).
Proof. unfold lastn. rewrite length_skipn. lia. Qed.

(** From a fresh detector the stored window of a sensor is the last
    [window_size] readings added for it. *)
Lemma stored_run_calls sklearn ws c m na cs sid :
  0 <= ws ->
  stored (run_calls (AnomalyDetector_init sklearn ws c m na) cs) sid =
  lastn (Z.to_nat ws) (added_for sid cs).
Proof.
  intros Hws. induction cs as [|x cs IH] using rev_ind.
  - reflexivity.
  - rewrite run_calls_snoc, stored_call, added_for_snoc.
    destruct (String.eqb (c_sensor_id x) sid); [|exact IH].
    rewrite IH, window_size_run_calls. simpl.
    rewrite <- (Z2Nat.id ws) at 1 by exact Hws.
    apply limit_lastn.
Qed.

(** C6: after [M] additions for a sensor to a detector of window size
    [N >= 0], the stored list never has more than [N] elements, and when
    [M > N] it has exactly [N] elements, which are the last [N] readings
    added for the sensor in insertion order. Calls for other sensors may be
    interleaved. *)
Theorem add_sensor_reading_keeps_last_window :
  forall sklearn ws c m na cs sid,
    0 <= ws ->
    let d := run_calls (AnomalyDetector_init sklearn ws c m na) cs in
    let added := added_for sid cs in
    len (stored d sid) <= ws /\
    (len added > ws ->
     len (stored d sid) = ws /\
     stored d sid = lastn (Z.to_nat ws) added).
Proof.
  intros sklearn ws c m na cs sid Hws d added.
  assert (E : stored d sid = lastn (Z.to_nat ws) added)
    by (apply stored_run_calls; exact Hws).
  unfold len. rewrite E, length_lastn. split; [lia|].
  intros HM. unfold len in HM. split; [lia | reflexivity].
Qed.

Lemma add_sensor_reading_keeps_last_window_witness :
  0 <= 2 /\
  let d := run_calls
             (AnomalyDetector_init quiet_forest 2 (5 / 100)%R 20 true)
             three_and_one in
  let added := added_for "hvac_001" three_and_one in
  len (stored d "hvac_001") <= 2 /\
  (len added > 2 ->
   len (stored d "hvac_001") = 2 /\
   stored d "hvac_001" = lastn (Z.to_nat 2) added).
Proof.
  split; [lia|].
  apply (add_sensor_reading_keeps_last_window quiet_forest 2 (5 / 100)%R 20
           true three_and_one "hvac_001").
  lia.
Defined.

(** The stored window of the sample run, computed. *)
Example stored_three_and_one :
  stored (run_calls (AnomalyDetector_init quiet_forest 2 (5 / 100)%R 20 true)
            three_and_one) "hvac_001" =
  [reading_of (sample_call "hvac_001" "temperature" None 60 22);
   reading_of (sample_call "hvac_001" "temperature" None 120 23)].
Proof. reflexivity. Qed.

(** ** The summary *)

Lemma count_by_severity (l : list Anomaly) :
  len (filter (fun a => SeverityLevel_eqb (severity a) LOW) l)
  + (len (filter (fun a => SeverityLevel_eqb (severity a) MEDIUM) l)
  + (len (filter (fun a => SeverityLevel_eqb (severity a) HIGH) l)
  + (len (filter (fun a => SeverityLevel_eqb (severity a) CRITICAL) l)
  + 0))) = len l.
Proof.
  unfold len. induction l as [|a l IH]; [reflexivity|].
  cbn [filter]. destruct (severity a); cbn [SeverityLevel_eqb length];
    rewrite ?Nat2Z.inj_succ; lia.
Qed.

Lemma count_by_type (l : list Anomaly) :
  len (filter (fun a => AnomalyType_eqb (anomaly_type a) ENERGY_SPIKE) l)
  + (len (filter (fun a => AnomalyType_eqb (anomaly_type a)
                             EQUIPMENT_FAILURE) l)
  + (len (filter (fun a => AnomalyType_eqb (anomaly_type a)
                             EFFICIENCY_DROP) l)
  + (len (filter (fun a => AnomalyType_eqb (anomaly_type a)
                             NETWORK_ISOLATION) l)
  + (len (filter (fun a => AnomalyType_eqb (anomaly_type a)
                             SEASONAL_DEVIATION) l)
  + (len (filter (fun a => AnomalyType_eqb (anomaly_type a)
                             OCCUPANCY_MISMATCH) l)
  + (len (filter (fun a => AnomalyType_eqb (anomaly_type a) UNKNOWN) l)
  + 0)))))) = len l.
Proof.
  unfold len. induction l as [|a l IH]; [reflexivity|].
  cbn [filter]. destruct (anomaly_type a); cbn [AnomalyType_eqb length];
    rewrite ?Nat2Z.inj_succ; lia.
Qed.

(** C9: in every summary the counts by severity and the counts by type both
    add up to [total_anomalies], and the two tables have a key for each of
    the four severities and each of the seven anomaly types. *)
Theorem get_anomaly_summary_counts_add_up :
  forall now d hours,
    let s := get_anomaly_summary now d hours in
    sum_values (by_severity s) = total_anomalies s /\
    total_anomalies s = sum_values (by_type s) /\
    Dict.keys (by_severity s) = map SeverityLevel_value SeverityLevel_members /\
    Dict.keys (by_type s) = map AnomalyType_value AnomalyType_members.
Proof.
  intros now d hours. cbn -[Z.add len filter].
  repeat split.
  - apply count_by_severity.
  - symmetry. apply count_by_type.
Qed.

(** The keys of the two tables, written out. *)
Example summary_keys :
  map SeverityLevel_value SeverityLevel_members
  = ["low"; "medium"; "high"; "critical"] /\
  map AnomalyType_value AnomalyType_members
  = ["energy_spike"; "equipment_failure"; "efficiency_drop";
     "network_isolation"; "seasonal_deviation"; "occupancy_mismatch";
     "unknown"].
Proof. split; reflexivity. Qed.

(** [most_recent] is the first stored anomaly of the window, and null
    exactly when the window holds none. *)
Lemma most_recent_is_first now d hours :
  most_recent (get_anomaly_summary now d hours) =
  match filter (fun a => timestamp a >=? now - timedelta_hours hours)
          (detected_anomalies d) with
  | a :: _ => Some (timestamp a)
  | [] => None
  end.
Proof. reflexivity. Qed.

Lemma most_recent_null_iff now d hours :
  most_recent (get_anomaly_summary now d hours) = None <->
  forall a, In a (detected_anomalies d) ->
            timestamp a < now - timedelta_hours hours.
Proof.
  rewrite most_recent_is_first.
  set (inside := fun a => timestamp a >=? now - timedelta_hours hours).
  split.
  - intros H a Ha.
    destruct (inside a) eqn:E.
    + assert (In a (filter inside (detected_anomalies d)))
        by (apply filter_In; auto).
      destruct (filter inside (detected_anomalies d)); [contradiction|].
      discriminate.
    + unfold inside in E.
      destruct (Z.geb_spec (timestamp a) (now - timedelta_hours hours));
        [discriminate | lia].
  - intros H.
    destruct (filter inside (detected_anomalies d)) as [|a l] eqn:E;
      [reflexivity|].
    assert (Ha : In a (filter inside (detected_anomalies d)))
      by (rewrite E; left; reflexivity).
    apply filter_In in Ha. destruct Ha as [Ha Hin].
    apply H in Ha. unfold inside in Hin.
    destruct (Z.geb_spec (timestamp a) (now - timedelta_hours hours));
      [lia | discriminate].
Qed.

(** C4, at the failing input: after two detection rounds the store holds an
    anomaly of the first round and, behind it, one of the second round; one
    minute later both are inside the 24-hour window, and [most_recent] is
    the timestamp of the first round although the latest one is that of the
    second round. *)
Theorem most_recent_is_the_oldest_of_two_rounds :
  forall sklearn, exists d,
    two_detections sklearn = Ok d /\
    map timestamp (detected_anomalies d)
    = [1000000 * microseconds_per_second;
       1000300 * microseconds_per_second] /\
    most_recent
      (get_anomaly_summary (1000360 * microseconds_per_second) d 24)
    = Some (1000000 * microseconds_per_second) /\
    latest_in_window (1000360 * microseconds_per_second) d 24
    = Some (1000300 * microseconds_per_second).
Proof.
  intros sklearn. eexists. split; [reflexivity|].
  repeat split.
Qed.

(** ** Construction of the monitoring system *)

(** C5 as stated fails: a configuration with a negative sampling interval
    and a negative anomaly check interval is accepted by the constructor. *)
Lemma negative_intervals_are_accepted :
  sampling_interval negative_intervals < 0 /\
  anomaly_check_interval negative_intervals < 0 /\
  is_ok (MonitoringSystem_init unit unit quiet_forest tt
           (Some negative_intervals)) = true.
Proof. repeat split. Qed.

(** C5, amended: the constructor validates nothing; for every building and
    every configuration it succeeds and the system holds the configuration
    it was given, or the default one when none was given. *)
Theorem MonitoringSystem_init_accepts_every_config :
  forall (Building Snapshot Alert : Type) sklearn (b : Building) cfg,
  exists s,
    MonitoringSystem_init Snapshot Alert sklearn b cfg = Ok s /\
    config s = match cfg with
               | Some c => c
               | None => MonitoringConfig_default
               end /\
    is_running s = false.
Proof.
  intros Building Snapshot Alert sklearn b cfg.
  eexists. split; [reflexivity|]. split; reflexivity.
Qed.

(** ** Comparisons and statistics *)

Lemma Rgtb_true x y : (x > y)%R -> Rgtb x y = true.
Proof. intros H. unfold Rgtb. destruct (Rgt_dec x y); tauto. Qed.

Lemma Rgtb_false x y : ~ (x > y)%R -> Rgtb x y = false.
Proof. intros H. unfold Rgtb. destruct (Rgt_dec x y); tauto. Qed.

Lemma Rgtb_true_iff x y : Rgtb x y = true <-> (x > y)%R.
Proof.
  unfold Rgtb. destruct (Rgt_dec x y); split; auto; discriminate.
Qed.

Lemma checked_div_nonzero x y : y <> 0%R -> checked_div x y = Ok (x / y)%R.
Proof.
  intros H. unfold checked_div. destruct (Req_dec_T y 0); tauto.
Qed.

Lemma np_std_nonneg l : (0 <= np_std l)%R.
Proof. apply sqrt_pos. Qed.

Lemma length_slice_drop_last {A : Type} (n : nat) (l : list A) :
  length (slice_drop_last n l) = (length l - n)%nat.
Proof. unfold slice_drop_last. rewrite length_firstn. lia. Qed.

Lemma last_item_nonempty {A : Type} (l : list A) :
  l <> [] -> exists x, last_item l = Ok x /\ In x l.
Proof.
  induction l as [|a l IH]; [congruence|]. intros _.
  destruct l as [|b l].
  - exists a. split; [reflexivity | now left].
  - destruct IH as [x [Hx Hin]]; [discriminate|].
    exists x. split; [exact Hx | now right].
Qed.

(** ** The energy check *)

(** The energy check on a window of more than ten readings, as one
    equation. *)
Lemma _detect_energy_anomalies_long d sid readings latest :
  getitem d sid = Ok readings ->
  last_item readings = Ok latest ->
  _is_energy_sensor (r_sensor_type latest) = true ->
  len readings > 10 ->
  let values := map r_value readings in
  let hist := slice_drop_last 10 values in
  let z := ((np_mean (slice_last 10 values) - np_mean hist)
            / np_std hist)%R in
  _detect_energy_anomalies d sid =
  if Rgtb (np_std hist) 0 then
    if Rgtb (Rabs z) (energy_spike_threshold d) then
      Ok [mkAnomaly sid ENERGY_SPIKE
            (if Rgtb (Rabs z) 3 then HIGH else MEDIUM)
            (Rmin 1 (Rabs z / 3))
            (r_timestamp latest) (r_value latest)
            ((np_mean hist - 2 * np_std hist)%R,
             (np_mean hist + 2 * np_std hist)%R)
            (DescEnergySpike z)
            ["Check for equipment malfunction";
             "Verify load connections";
             "Investigate unusual usage patterns"]
            [("z_score", MNum z); ("historical_mean", MNum (np_mean hist))]]
    else Ok []
  else Ok [].
Proof.
  intros Hget Hlast Hen Hlen values hist z.
  unfold _detect_energy_anomalies. rewrite Hget. cbn [bind].
  rewrite Hlast. cbn [bind]. rewrite Hen. cbn [negb].
  fold values.
  assert (Hv : len values = len readings)
    by (unfold len, values; now rewrite length_map).
  replace (len values >=? 10) with true
    by (symmetry; apply Z.geb_le; lia).
  replace (len values >? 10) with true
    by (symmetry; apply Z.gtb_lt; lia).
  fold hist.
  destruct (Rgtb (np_std hist) 0) eqn:Hstd; [|reflexivity].
  apply Rgtb_true_iff in Hstd.
  rewrite checked_div_nonzero by lra.
  cbn [bind]. fold z. reflexivity.
Qed.

(** The check over exact operations is the energy check. *)
Lemma _detect_energy_anomalies_exact d sid :
  _detect_energy_anomalies_np exact_arithmetic d sid
  = _detect_energy_anomalies d sid.
Proof.
  unfold _detect_energy_anomalies_np, _detect_energy_anomalies.
  destruct (getitem d sid) as [readings|]; cbn [bind]; [|reflexivity].
  destruct (last_item readings) as [latest|]; cbn [bind]; [|reflexivity].
  destruct (negb (_is_energy_sensor (r_sensor_type latest)));
    [reflexivity|].
  cbv zeta. cbn [lib_mean lib_std float_sub float_add float_mul float_div
                 exact_arithmetic].
  destruct (len (map r_value readings) >=? 10); [|reflexivity].
  destruct (Rgtb _ 0) eqn:Hstd; [|reflexivity].
  apply Rgtb_true_iff in Hstd.
  rewrite checked_div_nonzero by lra. reflexivity.
Qed.

(** The energy check over the operations [np] on a window of more than
    ten readings, as one equation. *)
Lemma _detect_energy_anomalies_np_long np d sid readings latest :
  getitem d sid = Ok readings ->
  last_item readings = Ok latest ->
  _is_energy_sensor (r_sensor_type latest) = true ->
  len readings > 10 ->
  let values := map r_value readings in
  let hist := slice_drop_last 10 values in
  let s := lib_std np hist in
  let z :=
    float_div np
      (float_sub np (lib_mean np (slice_last 10 values)) (lib_mean np hist))
      s in
  _detect_energy_anomalies_np np d sid =
  if Rgtb s 0 then
    if Rgtb (Rabs z) (energy_spike_threshold d) then
      Ok [mkAnomaly sid ENERGY_SPIKE
            (if Rgtb (Rabs z) 3 then HIGH else MEDIUM)
            (Rmin 1 (float_div np (Rabs z) 3))
            (r_timestamp latest) (r_value latest)
            (float_sub np (lib_mean np hist) (float_mul np 2 s),
             float_add np (lib_mean np hist) (float_mul np 2 s))
            (DescEnergySpike z)
            ["Check for equipment malfunction";
             "Verify load connections";
             "Investigate unusual usage patterns"]
            [("z_score", MNum z);
             ("historical_mean", MNum (lib_mean np hist))]]
    else Ok []
  else Ok [].
Proof.
  intros Hget Hlast Hen Hlen values hist s z.
  unfold _detect_energy_anomalies_np. rewrite Hget. cbn [bind].
  rewrite Hlast. cbn [bind]. rewrite Hen. cbn [negb].
  fold values.
  assert (Hv : len values = len readings)
    by (unfold len, values; now rewrite length_map).
  replace (len values >=? 10) with true
    by (symmetry; apply Z.geb_le; lia).
  replace (len values >? 10) with true
    by (symmetry; apply Z.gtb_lt; lia).
  reflexivity.
Qed.

(** C7: on an energy-typed window of more than ten readings, with [s] the
    deviation [std(values[:-10])] and
    [z = (mean(values[-10:]) - mean(values[:-10])) / s] as the library and
    the machine compute them: when [s] is zero (or not positive, which
    [np.std] never returns) no anomaly is emitted; otherwise exactly one
    ENERGY_SPIKE anomaly is emitted when [|z|] exceeds the threshold and
    none when it does not, of severity HIGH when [|z| > 3] and MEDIUM
    otherwise, with confidence [min(1, |z| / 3)]. In particular a
    historical mean of 20 with deviation 2 and a recent mean of 28 give a
    HIGH anomaly of confidence 1, for a threshold below 4 (the default is
    2) and operations that compute [28 - 20] as 8, [8 / 2] as 4 and [4 / 3]
    as no less than 1, as those of binary floats do. *)
Theorem energy_spike_rule :
  forall np d sid readings latest,
    getitem d sid = Ok readings ->
    last_item readings = Ok latest ->
    _is_energy_sensor (r_sensor_type latest) = true ->
    len readings > 10 ->
    let values := map r_value readings in
    let hist := slice_drop_last 10 values in
    let recent := slice_last 10 values in
    let s := lib_std np hist in
    let z :=
      float_div np (float_sub np (lib_mean np recent) (lib_mean np hist))
        s in
    ((s <= 0)%R -> _detect_energy_anomalies_np np d sid = Ok []) /\
    ((s > 0)%R ->
     (~ (Rabs z > energy_spike_threshold d)%R ->
      _detect_energy_anomalies_np np d sid = Ok []) /\
     ((Rabs z > energy_spike_threshold d)%R ->
      exists a,
        _detect_energy_anomalies_np np d sid = Ok [a] /\
        sensor_id a = sid /\
        anomaly_type a = ENERGY_SPIKE /\
        ((Rabs z > 3)%R -> severity a = HIGH) /\
        (~ (Rabs z > 3)%R -> severity a = MEDIUM) /\
        confidence a = Rmin 1 (float_div np (Rabs z) 3))) /\
    (lib_mean np hist = 20%R -> s = 2%R -> lib_mean np recent = 28%R ->
     float_sub np 28 20 = 8%R -> float_div np 8 2 = 4%R ->
     (1 <= float_div np 4 3)%R ->
     (energy_spike_threshold d < 4)%R ->
     exists a,
       _detect_energy_anomalies_np np d sid = Ok [a] /\
       anomaly_type a = ENERGY_SPIKE /\
       severity a = HIGH /\
       confidence a = 1%R).
Proof.
  intros np d sid readings latest Hget Hlast Hen Hlen values hist recent
    s z.
  pose proof (_detect_energy_anomalies_np_long np d sid readings latest
                Hget Hlast Hen Hlen) as E.
  cbv zeta in E. fold values hist recent s z in E.
  split; [|split].
  - intros H0. rewrite E, Rgtb_false by lra. reflexivity.
  - intros Hpos. rewrite Rgtb_true in E by exact Hpos. split.
    + intros Hz. rewrite E, Rgtb_false by exact Hz. reflexivity.
    + intros Hz. rewrite Rgtb_true in E by exact Hz.
      eexists. split; [exact E|]. cbn.
      repeat split.
      * intros H3. now rewrite Rgtb_true.
      * intros H3. now rewrite Rgtb_false.
  - intros Hm Hs Hr Hsub Hdiv Hconf Hthr.
    assert (Hz : z = 4%R) by (unfold z; rewrite Hm, Hs, Hr, Hsub; exact Hdiv).
    assert (Habs : Rabs z = 4%R) by (rewrite Hz; apply Rabs_pos_eq; lra).
    rewrite Rgtb_true in E by lra.
    rewrite Rgtb_true in E by lra.
    eexists. split; [exact E|]. cbn. repeat split.
    + rewrite Rgtb_true by lra. reflexivity.
    + rewrite Habs. apply Rmin_left. exact Hconf.
Qed.

Lemma meter_values_stored sklearn recent :
  map r_value (stored (meter_detector sklearn recent) "energy_001")
  = map IZR (meter_values recent).
Proof. reflexivity. Qed.

Lemma meter_historical_mean :
  np_mean (map IZR [18; 22; 18; 22; 18; 22; 18; 22; 18; 22]) = 20%R.
Proof. stats. lra. Qed.

Lemma meter_historical_std :
  np_std (map IZR [18; 22; 18; 22; 18; 22; 18; 22; 18; 22]) = 2%R.
Proof.
  unfold np_std. rewrite <- (sqrt_square 2) by lra. f_equal.
  stats. lra.
Qed.

Lemma meter_recent_mean recent :
  np_mean (map IZR (repeat recent 10)) = IZR recent.
Proof. stats. lra. Qed.

Lemma energy_spike_rule_witness :
  exists a,
    _detect_energy_anomalies_np exact_arithmetic
      (meter_detector quiet_forest 28) "energy_001"
    = Ok [a] /\
    anomaly_type a = ENERGY_SPIKE /\
    severity a = HIGH /\
    confidence a = 1%R.
Proof.
  assert (Hget : getitem (meter_detector quiet_forest 28) "energy_001"
                 = Ok (stored (meter_detector quiet_forest 28) "energy_001"))
    by reflexivity.
  assert (Hlast : last_item (stored (meter_detector quiet_forest 28)
                               "energy_001")
                  = Ok (reading_of
                          (sample_call "energy_001" "energy_power"
                             (Some "test_zone") 1002280 28)))
    by reflexivity.
  assert (Hlen : len (stored (meter_detector quiet_forest 28) "energy_001")
                 > 10) by reflexivity.
  pose proof
    (energy_spike_rule exact_arithmetic (meter_detector quiet_forest 28)
       "energy_001" _ _ Hget Hlast eq_refl Hlen) as H.
  cbv zeta in H. destruct H as [_ [_ H]].
  rewrite meter_values_stored in H.
  change (slice_drop_last 10 (map IZR (meter_values 28)))
    with (map IZR [18; 22; 18; 22; 18; 22; 18; 22; 18; 22]) in H.
  change (slice_last 10 (map IZR (meter_values 28)))
    with (map IZR (repeat 28 10)) in H.
  cbn [lib_mean lib_std float_sub float_div exact_arithmetic] in H.
  apply H.
  - exact meter_historical_mean.
  - exact meter_historical_std.
  - exact (meter_recent_mean 28).
  - lra.
  - lra.
  - lra.
  - change (2 < 4)%R. lra.
Defined.

(** ** The temporal check *)

(** The row of an hour in the hourly table. *)
Lemma hourly_patterns_rows readings hs h :
  Dict.get Z.eqb (flat_map (hourly_row readings) hs) h
  = if existsb (Z.eqb h) hs then Dict.get Z.eqb (hourly_row readings h) h
    else None.
Proof.
  induction hs as [|h0 hs IH]; [reflexivity|].
  cbn [flat_map existsb].
  destruct (Z.eqb_spec h h0) as [-> | Hne]; cbn [orb].
  - unfold hourly_row at 1 3. cbv zeta.
    destruct (hour_bucket readings h0) eqn:B.
    + cbn [app]. rewrite IH. unfold hourly_row. rewrite B.
      now destruct (existsb (Z.eqb h0) hs).
    + cbn [app Dict.get]. now rewrite Z.eqb_refl.
  - unfold hourly_row at 1. cbv zeta.
    destruct (hour_bucket readings h0) eqn:B.
    + cbn [app]. exact IH.
    + cbn [app Dict.get].
      destruct (Z.eqb_spec h h0); [contradiction | exact IH].
Qed.

Lemma hourly_patterns_get readings h :
  Dict.get Z.eqb (hourly_patterns readings) h = None \/
  Dict.get Z.eqb (hourly_patterns readings) h
  = Some (pd_mean (hour_bucket readings h),
          fillna0 (pd_std (hour_bucket readings h))).
Proof.
  unfold hourly_patterns. rewrite hourly_patterns_rows.
  destruct (existsb (Z.eqb h) (map Z.of_nat (seq 0 24))); [|now left].
  unfold hourly_row. cbv zeta.
  destruct (hour_bucket readings h); [now left|].
  right. cbn [Dict.get]. now rewrite Z.eqb_refl.
Qed.

(** The temporal check emits nothing when the deviation column of the
    latest reading's hour is zero. *)
Lemma _detect_temporal_anomalies_flat d sid readings latest :
  getitem d sid = Ok readings ->
  last_item readings = Ok latest ->
  fillna0 (pd_std (hour_bucket readings (hour (r_timestamp latest)))) = 0%R ->
  _detect_temporal_anomalies d sid = Ok [].
Proof.
  intros Hget Hlast Hzero.
  unfold _detect_temporal_anomalies. rewrite Hget. cbn [bind].
  destruct (len readings <? 24); [reflexivity|].
  rewrite Hlast. cbn [bind].
  destruct (hourly_patterns_get readings (hour (r_timestamp latest)))
    as [E | E]; rewrite E; [reflexivity|].
  rewrite Hzero, Rgtb_false by lra. reflexivity.
Qed.

(** C8, amended: on a window of at least 24 readings, when the hour bucket
    of the latest reading (the readings of the window at its hour of the
    day, the latest reading among them) holds that reading alone, or has a
    sample standard deviation of zero, the temporal check returns the empty
    list; it returns normally, so no division by zero is attempted. *)
Theorem temporal_check_skips_zero_deviation :
  forall d sid readings latest,
    getitem d sid = Ok readings ->
    len readings >= 24 ->
    last_item readings = Ok latest ->
    let bucket := hour_bucket readings (hour (r_timestamp latest)) in
    (length bucket <= 1)%nat \/ pd_std bucket = Some 0%R ->
    _detect_temporal_anomalies d sid = Ok [].
Proof.
  intros d sid readings latest Hget _ Hlast bucket Hflat.
  apply (_detect_temporal_anomalies_flat d sid readings latest Hget Hlast).
  fold bucket. destruct Hflat as [Hone | Hzero].
  - unfold pd_std.
    replace (length bucket <? 2)%nat with true
      by (symmetry; apply Nat.ltb_lt; lia).
    reflexivity.
  - rewrite Hzero. reflexivity.
Qed.

Lemma steady_bucket sklearn :
  hour_bucket (stored (steady_detector sklearn) "hvac_001") 12
  = [21%R; 21%R].
Proof. evaluate. Qed.

Lemma pd_std_constant_pair (x : R) : pd_std [x; x] = Some 0%R.
Proof.
  unfold pd_std. cbn [length Nat.ltb Nat.leb]. f_equal.
  rewrite <- sqrt_0. f_equal. stats. lra.
Qed.

Lemma temporal_check_skips_zero_deviation_witness :
  _detect_temporal_anomalies (steady_detector quiet_forest) "hvac_001"
  = Ok [].
Proof.
  assert (Hget : getitem (steady_detector quiet_forest) "hvac_001"
                 = Ok (stored (steady_detector quiet_forest) "hvac_001"))
    by evaluate.
  assert (Hlen : len (stored (steady_detector quiet_forest) "hvac_001")
                 >= 24) by (lazy; intro H; discriminate H).
  assert (Hlast : last_item (stored (steady_detector quiet_forest)
                               "hvac_001")
                  = Ok (reading_of
                          (sample_call "hvac_001" "temperature"
                             (Some "test_zone") 1169200 21)))
    by evaluate.
  apply (temporal_check_skips_zero_deviation
           (steady_detector quiet_forest) "hvac_001" _ _ Hget Hlen Hlast).
  right.
  replace (hour (r_timestamp
                   (reading_of
                      (sample_call "hvac_001" "temperature"
                         (Some "test_zone") 1169200 21)))) with 12
    by evaluate.
  rewrite steady_bucket. apply pd_std_constant_pair.
Defined.

(** ** The order of the returned list *)

Lemma compare_values (s1 s2 : SeverityLevel) :
  String.compare (SeverityLevel_value s1) (SeverityLevel_value s2)
  = Z.compare (alphabetical_rank s1) (alphabetical_rank s2).
Proof. destruct s1, s2; reflexivity. Qed.

Lemma alphabetical_rank_inj s1 s2 :
  alphabetical_rank s1 = alphabetical_rank s2 -> s1 = s2.
Proof. destruct s1, s2; simpl; congruence. Qed.

(** The sort key orders by the alphabetical rank, then by the timestamp. *)
Lemma code_before_iff a b :
  code_before a b <->
  alphabetical_rank (severity b) < alphabetical_rank (severity a) \/
  (severity a = severity b /\ timestamp b <= timestamp a).
Proof.
  unfold code_before, key_ltb, sort_key. cbn [fst snd].
  rewrite compare_values.
  destruct (Z.compare_spec (alphabetical_rank (severity a))
              (alphabetical_rank (severity b))) as [E | L | G].
  - apply alphabetical_rank_inj in E. rewrite E.
    rewrite Z.ltb_ge. split; [intros H; right; now split|].
    intros [H | [_ H]]; [lia | exact H].
  - split; [discriminate|].
    intros [H | [E _]]; [lia | rewrite E in L; lia].
  - split; [intros _; now left | reflexivity].
Qed.

Lemma code_before_trans a b c :
  code_before a b -> code_before b c -> code_before a c.
Proof.
  rewrite !code_before_iff.
  intros [H1 | [E1 T1]] [H2 | [E2 T2]].
  - left. lia.
  - left. rewrite <- E2. exact H1.
  - left. rewrite E1. exact H2.
  - right. split; [congruence | lia].
Qed.

Lemma code_before_total a b : code_before a b \/ code_before b a.
Proof.
  rewrite !code_before_iff.
  destruct (Z.lt_total (alphabetical_rank (severity a))
              (alphabetical_rank (severity b))) as [H | [H | H]];
    [right; now left | | left; now left].
  apply alphabetical_rank_inj in H.
  destruct (Z.le_ge_cases (timestamp a) (timestamp b)).
  - right. right. now split.
  - left. right. now split.
Qed.

Lemma insert_reverse_In a x l :
  In x (insert_reverse a l) <-> x = a \/ In x l.
Proof.
  induction l as [|b l IH]; simpl.
  - intuition auto.
  - destruct (key_ltb (sort_key a) (sort_key b)); simpl.
    + rewrite IH. intuition auto.
    + intuition auto.
Qed.

Lemma sort_reverse_In x l : In x (sort_reverse l) <-> In x l.
Proof.
  induction l as [|a l IH]; simpl; [tauto|].
  rewrite insert_reverse_In, IH. intuition auto.
Qed.

Lemma insert_reverse_sorted a l :
  StronglySorted code_before l ->
  StronglySorted code_before (insert_reverse a l).
Proof.
  induction 1 as [|b l Hs IH Hall]; simpl.
  - constructor; [constructor | constructor].
  - destruct (key_ltb (sort_key a) (sort_key b)) eqn:E.
    + constructor; [exact IH|].
      apply Forall_forall. intros x Hx.
      apply insert_reverse_In in Hx. destruct Hx as [-> | Hx].
      * destruct (code_before_total b a) as [H | H]; [exact H|].
        unfold code_before in H. congruence.
      * rewrite Forall_forall in Hall. now apply Hall.
    + constructor; [constructor; assumption|].
      constructor; [exact E|].
      apply Forall_forall. intros x Hx.
      rewrite Forall_forall in Hall.
      apply (code_before_trans a b x); [exact E | now apply Hall].
Qed.

(** What the sort does establish: the list is in descending order of the
    pair of the severity's name and the timestamp. *)
Lemma sort_reverse_sorted l : StronglySorted code_before (sort_reverse l).
Proof.
  induction l as [|a l IH]; simpl; [constructor|].
  now apply insert_reverse_sorted.
Qed.

Lemma sort_reverse_perm l : Permutation (sort_reverse l) l.
Proof.
  induction l as [|a l IH]; simpl; [constructor|].
  transitivity (a :: sort_reverse l); [|now constructor].
  clear IH. induction (sort_reverse l) as [|b m IH]; simpl.
  - reflexivity.
  - destruct (key_ltb (sort_key a) (sort_key b)); [|reflexivity].
    transitivity (b :: a :: m); [now constructor | constructor].
Qed.

Lemma strongly_sorted_pair {A : Type} (R : A -> A -> Prop) l a b :
  StronglySorted R l -> In a l -> In b l -> a = b \/ R a b \/ R b a.
Proof.
  induction 1 as [|x l Hs IH Hall]; simpl; [tauto|].
  rewrite Forall_forall in Hall.
  intros [-> | Ha] [-> | Hb]; auto.
Qed.

Lemma strongly_sorted_both {A : Type} (R1 R2 : A -> A -> Prop) l :
  StronglySorted R1 l -> StronglySorted R2 l ->
  StronglySorted (fun a b => R1 a b /\ R2 a b) l.
Proof.
  induction 1 as [|x l Hs IH Hall]; intros H2; [constructor|].
  inversion H2 as [|? ? Hs2 Hall2]; subst.
  constructor; [now apply IH|].
  rewrite Forall_forall in *. intros y Hy. split; auto.
Qed.

(** A list in the order of the sort that holds a MEDIUM and a HIGH anomaly
    is not in the order the specification states. *)
Lemma medium_before_high l m h :
  StronglySorted code_before l ->
  In m l -> In h l -> severity m = MEDIUM -> severity h = HIGH ->
  ~ StronglySorted claimed_before l.
Proof.
  intros Hcode Hm Hh Em Eh Hclaim.
  pose proof (strongly_sorted_both _ _ l Hcode Hclaim) as Hboth.
  destruct (strongly_sorted_pair _ l m h Hboth Hm Hh)
    as [E | [[Hc Hs] | [Hc Hs]]].
  - subst h. congruence.
  - unfold claimed_before in Hs. rewrite Em, Eh in Hs. simpl in Hs.
    destruct Hs as [Hs | [Hs _]]; [lia | discriminate].
  - apply code_before_iff in Hc. rewrite Em, Eh in Hc. simpl in Hc.
    destruct Hc as [Hc | [Hc _]]; [lia | discriminate].
Qed.

(** ** Whose anomalies the checks create *)

Lemma isolation_forest_sensor d sid l :
  _detect_isolation_forest_anomalies d sid = Ok l ->
  Forall (fun a => sensor_id a = sid) l.
Proof.
  unfold _detect_isolation_forest_anomalies. intros H.
  destruct (getitem d sid) as [readings|]; cbn [bind] in H;
    [|discriminate].
  destruct (map r_value readings); [discriminate|].
  inversion H; subst; clear H.
  apply Forall_forall. intros a Ha.
  apply in_flat_map in Ha. destruct Ha as [[p [sc rd]] [_ Ha]].
  destruct (p =? -1); [|contradiction].
  destruct Ha as [<- | []]. reflexivity.
Qed.

Lemma energy_sensor d sid l :
  _detect_energy_anomalies d sid = Ok l ->
  Forall (fun a => sensor_id a = sid) l.
Proof.
  unfold _detect_energy_anomalies. intros H.
  returns H; try constructor; try reflexivity; constructor.
Qed.

Lemma temporal_sensor d sid l :
  _detect_temporal_anomalies d sid = Ok l ->
  Forall (fun a => sensor_id a = sid) l.
Proof.
  unfold _detect_temporal_anomalies. intros H.
  returns H; try constructor; try reflexivity; constructor.
Qed.

Lemma analyze_sensor d s1 s2 a :
  _analyze_sensor_correlation d s1 s2 = Ok (Some a) -> sensor_id a = s1.
Proof.
  unfold _analyze_sensor_correlation. intros H.
  returns H; reflexivity.
Qed.

Lemma analyze_kind d s1 s2 a :
  _analyze_sensor_correlation d s1 s2 = Ok (Some a) ->
  anomaly_type a = NETWORK_ISOLATION /\ severity a = MEDIUM.
Proof.
  unfold _analyze_sensor_correlation. intros H.
  returns H; split; reflexivity.
Qed.

Lemma analyze_all_sensor d sid others : forall l,
  analyze_all d sid others = Ok l ->
  Forall (fun a => sensor_id a = sid) l.
Proof.
  induction others as [|o others IH]; intros l H; simpl in H.
  - inversion H. constructor.
  - destruct (_analyze_sensor_correlation d sid o) as [[a|]|] eqn:Ea;
      cbn [bind] in H; try discriminate;
      destruct (analyze_all d sid others) as [m|]; cbn [bind] in H;
      try discriminate; inversion H; subst; clear H.
    + constructor; [now apply analyze_sensor in Ea | now apply IH].
    + now apply IH.
Qed.

Lemma correlation_sensor d sid l :
  _detect_correlation_anomalies d sid = Ok l ->
  Forall (fun a => sensor_id a = sid) l.
Proof.
  unfold _detect_correlation_anomalies. intros H.
  destruct (len (sensor_data d) <? 2); [inversion H; constructor|].
  destruct (getitem d sid); cbn [bind] in H; [|discriminate].
  destruct (last_item a); cbn [bind] in H; [|discriminate].
  destruct (correlated_sensors d sid (r_zone_id a0) (sensor_data d))
    as [[|o os]|]; cbn [bind] in H; [inversion H; constructor| |discriminate].
  now apply analyze_all_sensor in H.
Qed.

(** Every anomaly of the loop over the sensors belongs to a sensor whose
    window passed the size test. *)
Lemma detect_sensors_origin d ids : forall l a,
  detect_sensors d ids = Ok l -> In a l ->
  exists readings,
    getitem d (sensor_id a) = Ok readings /\
    min_samples_for_detection d <= len readings.
Proof.
  induction ids as [|sid ids IH]; intros l a H Ha; simpl in H.
  - inversion H; subst. contradiction.
  - destruct (getitem d sid) as [readings|] eqn:G; cbn [bind] in H;
      [|discriminate].
    destruct (Z.ltb_spec (len readings) (min_samples_for_detection d))
      as [Hlt | Hge]; [now apply (IH l a)|].
    destruct (_detect_isolation_forest_anomalies d sid) as [l1|] eqn:E1;
      cbn [bind] in H; [|discriminate].
    destruct (_detect_energy_anomalies d sid) as [l2|] eqn:E2;
      cbn [bind] in H; [|discriminate].
    destruct (_detect_temporal_anomalies d sid) as [l3|] eqn:E3;
      cbn [bind] in H; [|discriminate].
    destruct (_detect_correlation_anomalies d sid) as [l4|] eqn:E4;
      cbn [bind] in H; [|discriminate].
    destruct (detect_sensors d ids) as [l5|] eqn:E5;
      cbn [bind] in H; [|discriminate].
    inversion H; subst; clear H.
    apply isolation_forest_sensor in E1. apply energy_sensor in E2.
    apply temporal_sensor in E3. apply correlation_sensor in E4.
    rewrite Forall_forall in E1, E2, E3, E4.
    rewrite !in_app_iff in Ha.
    destruct Ha as [Ha | [Ha | [Ha | [Ha | Ha]]]];
      try (now apply (IH l5 a));
      [apply E1 in Ha | apply E2 in Ha | apply E3 in Ha | apply E4 in Ha];
      rewrite Ha; exists readings; split; assumption.
Qed.

(** The anomalies of the network check: an isolated node of the graph that
    is a sensor with at least one reading. *)
Lemma network_anomaly_spec d sid a :
  In a (network_anomaly d sid) ->
  sensor_id a = sid /\ stored d sid <> [] /\
  anomaly_type a = NETWORK_ISOLATION /\ severity a = HIGH /\
  confidence a = 1%R.
Proof.
  unfold network_anomaly, stored.
  destruct (Dict.get String.eqb (sensor_data d) sid) as [[|r rs]|];
    try contradiction.
  destruct (last_item (r :: rs)); [|contradiction].
  intros [<- | []]. repeat split. discriminate.
Qed.

Lemma _detect_network_anomalies_spec d a :
  In a (_detect_network_anomalies d) ->
  exists g,
    network_graph d = Some g /\
    In (sensor_id a) (graph_nodes g) /\
    graph_degree g (sensor_id a) = 0%nat /\
    stored d (sensor_id a) <> [] /\
    anomaly_type a = NETWORK_ISOLATION /\ severity a = HIGH /\
    confidence a = 1%R.
Proof.
  unfold _detect_network_anomalies.
  destruct (truthy_graph (network_graph d)); [|contradiction].
  cbn [negb]. destruct (network_graph d) as [g|]; [|contradiction].
  intros Ha. apply in_flat_map in Ha. destruct Ha as [sid [Hsid Ha]].
  apply filter_In in Hsid. destruct Hsid as [Hnode Hdeg].
  apply Nat.eqb_eq in Hdeg.
  apply network_anomaly_spec in Ha. destruct Ha as [E Ha]. subst sid.
  exists g. tauto.
Qed.

(** ** Short windows *)

(** One detection round on the isolated sensor returns one anomaly, for
    that sensor. *)
Lemma lonely_detection sklearn :
  exists d' a,
    detect_anomalies (lonely_detector sklearn) None = Ok (d', [a]) /\
    sensor_id a = "hvac_001".
Proof. eexists. eexists. split; [evaluate | reflexivity]. Qed.

(** C2 as stated fails: the sensor of the returned anomaly has one stored
    reading, and twenty are required. *)
Lemma network_check_ignores_the_sample_minimum :
  exists d' l a,
    detect_anomalies (lonely_detector quiet_forest) None = Ok (d', l) /\
    In a l /\
    len (stored (lonely_detector quiet_forest) (sensor_id a))
    < min_samples_for_detection (lonely_detector quiet_forest).
Proof.
  destruct (lonely_detection quiet_forest) as [d' [a [H Hid]]].
  exists d', [a], a.
  split; [exact H|]. split; [now left|].
  rewrite Hid. reflexivity.
Qed.

(** C2, amended: a returned anomaly whose sensor has fewer stored readings
    than [min_samples_for_detection] comes from the network check only:
    network analysis is enabled, the sensor is a node of degree 0 of the
    graph and has a reading, and the anomaly is the NETWORK_ISOLATION
    anomaly of severity HIGH and confidence 1. The four per-sensor checks
    create no anomaly for such a sensor. *)
Theorem short_window_anomalies_are_network_isolations :
  forall d ids d' l a,
    detect_anomalies d ids = Ok (d', l) ->
    In a l ->
    len (stored d (sensor_id a)) < min_samples_for_detection d ->
    network_analysis d = true /\
    exists g,
      network_graph d = Some g /\
      In (sensor_id a) (graph_nodes g) /\
      graph_degree g (sensor_id a) = 0%nat /\
      stored d (sensor_id a) <> [] /\
      anomaly_type a = NETWORK_ISOLATION /\
      severity a = HIGH /\
      confidence a = 1%R.
Proof.
  intros d ids d' l a H Ha Hshort.
  unfold detect_anomalies in H.
  destruct (detect_sensors d _) as [per_sensor|] eqn:E; cbn [bind] in H;
    [|discriminate].
  inversion H; subst; clear H.
  rewrite sort_reverse_In in Ha.
  assert (Hper : ~ In a per_sensor).
  { intros Hin.
    destruct (detect_sensors_origin d _ _ a E Hin) as [rs [G Hge]].
    unfold stored in Hshort. unfold getitem in G.
    destruct (Dict.get String.eqb (sensor_data d) (sensor_id a));
      [|discriminate].
    inversion G; subst. lia. }
  destruct (network_analysis d); cbn [andb] in Ha; [|tauto].
  split; [reflexivity|].
  destruct (truthy_graph (network_graph d)); [|tauto].
  apply in_app_iff in Ha. destruct Ha as [Ha | Ha]; [tauto|].
  now apply _detect_network_anomalies_spec.
Qed.

Lemma short_window_anomalies_are_network_isolations_witness :
  exists d' l a,
    detect_anomalies (lonely_detector quiet_forest) None = Ok (d', l) /\
    In a l /\
    network_analysis (lonely_detector quiet_forest) = true /\
    graph_degree lonely_graph (sensor_id a) = 0%nat /\
    anomaly_type a = NETWORK_ISOLATION /\
    severity a = HIGH /\
    confidence a = 1%R.
Proof.
  destruct (lonely_detection quiet_forest) as [d' [a [H Hid]]].
  assert (Ha : In a [a]) by now left.
  assert (Hshort :
            len (stored (lonely_detector quiet_forest) (sensor_id a))
            < min_samples_for_detection (lonely_detector quiet_forest))
    by (rewrite Hid; reflexivity).
  exists d', [a], a.
  destruct (short_window_anomalies_are_network_isolations
              (lonely_detector quiet_forest) None d' [a] a H Ha Hshort)
    as [Hna [g [Hg [_ [Hdeg [_ [Ht [Hs Hc]]]]]]]].
  assert (g = lonely_graph) by (inversion Hg; reflexivity). subst g.
  repeat split; assumption.
Defined.

(** ** When the detection raises *)

Lemma get_In {V : Type} (d : list (string * V)) k v :
  Dict.get String.eqb d k = Some v -> In (k, v) d.
Proof.
  induction d as [|[k' v'] d IH]; simpl; [discriminate|].
  destruct (String.eqb_spec k k') as [-> | Hne].
  - intros H. inversion H. now left.
  - intros H. right. now apply IH.
Qed.

Lemma getitem_nonempty d sid readings :
  store_nonempty d -> getitem d sid = Ok readings -> readings <> [].
Proof.
  unfold store_nonempty, getitem. intros Hs H.
  destruct (Dict.get String.eqb (sensor_data d) sid) as [l|] eqn:G;
    [|discriminate].
  inversion H; subst. apply get_In in G.
  rewrite Forall_forall in Hs. exact (Hs _ G).
Qed.

Lemma getitem_key d sid :
  In sid (Dict.keys (sensor_data d)) <->
  exists readings, getitem d sid = Ok readings.
Proof.
  rewrite keys_get. unfold getitem.
  destruct (Dict.get String.eqb (sensor_data d) sid) as [l|].
  - split; intros _; eauto.
  - split; intros [l H]; discriminate.
Qed.

Lemma getitem_missing d sid :
  ~ In sid (Dict.keys (sensor_data d)) ->
  getitem d sid = Raise (KeyError sid).
Proof.
  intros H. unfold getitem.
  destruct (Dict.get String.eqb (sensor_data d) sid) as [l|] eqn:G;
    [|reflexivity].
  exfalso. apply H. apply keys_get. eauto.
Qed.

Lemma isolation_forest_returns d sid readings :
  getitem d sid = Ok readings -> readings <> [] ->
  exists l, _detect_isolation_forest_anomalies d sid = Ok l.
Proof.
  intros G Hne. unfold _detect_isolation_forest_anomalies.
  rewrite G. cbn [bind].
  destruct readings as [|r rs]; [congruence|].
  cbn [map]. eexists. reflexivity.
Qed.

Lemma energy_returns d sid readings :
  getitem d sid = Ok readings -> readings <> [] ->
  exists l, _detect_energy_anomalies d sid = Ok l.
Proof.
  intros G Hne. unfold _detect_energy_anomalies.
  rewrite G. cbn [bind].
  destruct (last_item_nonempty readings Hne) as [latest [Hl _]].
  rewrite Hl. cbn [bind].
  destruct (negb _); [eexists; reflexivity|].
  destruct (_ >=? 10); [|eexists; reflexivity].
  match goal with
  | |- context [Rgtb ?s 0] =>
      destruct (Rgtb s 0) eqn:Hs; [|eexists; reflexivity];
      apply Rgtb_true_iff in Hs; rewrite (checked_div_nonzero _ s) by lra
  end.
  cbn [bind]. destruct (Rgtb _ _); eexists; reflexivity.
Qed.

Lemma temporal_returns d sid readings :
  getitem d sid = Ok readings -> readings <> [] ->
  exists l, _detect_temporal_anomalies d sid = Ok l.
Proof.
  intros G Hne. unfold _detect_temporal_anomalies.
  rewrite G. cbn [bind].
  destruct (_ <? 24); [eexists; reflexivity|].
  destruct (last_item_nonempty readings Hne) as [latest [Hl _]].
  rewrite Hl. cbn [bind].
  destruct (Dict.get Z.eqb _ _) as [[m s]|]; [|eexists; reflexivity].
  destruct (Rgtb s 0) eqn:Hs; [|eexists; reflexivity].
  apply Rgtb_true_iff in Hs. rewrite (checked_div_nonzero _ s) by lra.
  cbn [bind]. destruct (Rgtb _ _); eexists; reflexivity.
Qed.

Lemma analyze_returns d s1 s2 r1 r2 :
  getitem d s1 = Ok r1 -> r1 <> [] -> getitem d s2 = Ok r2 ->
  exists o, _analyze_sensor_correlation d s1 s2 = Ok o.
Proof.
  intros G1 Hne G2. unfold _analyze_sensor_correlation.
  rewrite G1, G2. cbn [bind].
  destruct (_ <? 10); [eexists; reflexivity|].
  destruct (np_corrcoef _ _); [|eexists; reflexivity].
  destruct (np_corrcoef _ _); [|eexists; reflexivity].
  destruct (Rgtb _ _); [|eexists; reflexivity].
  destruct (last_item_nonempty r1 Hne) as [latest [Hl _]].
  rewrite Hl. cbn [bind]. eexists; reflexivity.
Qed.

Lemma correlated_sensors_returns d sid zone items :
  Forall (fun kv => snd kv <> []) items ->
  exists l,
    correlated_sensors d sid zone items = Ok l /\
    Forall (fun o => In o (map fst items)) l.
Proof.
  induction 1 as [|[k v] items Hv Hs IH]; simpl.
  - exists []. split; [reflexivity | constructor].
  - destruct IH as [l [E Hl]].
    assert (Hl' : Forall (fun o => k = o \/ In o (map fst items)) l)
      by (eapply Forall_impl; [|exact Hl]; intros o Ho; now right).
    destruct (_ || _); [exists l; now split|].
    destruct (last_item_nonempty v Hv) as [latest [Hlast _]].
    rewrite Hlast. cbn [bind]. rewrite E. cbn [bind].
    destruct (_ && _); [|exists l; now split].
    exists (k :: l). split; [reflexivity|].
    constructor; [now left | exact Hl'].
Qed.

Lemma analyze_all_returns d sid readings others :
  getitem d sid = Ok readings -> readings <> [] ->
  Forall (fun o => In o (Dict.keys (sensor_data d))) others ->
  exists l, analyze_all d sid others = Ok l.
Proof.
  intros G Hne. induction 1 as [|o others Ho Hs IH]; simpl.
  - eexists; reflexivity.
  - apply getitem_key in Ho. destruct Ho as [r2 G2].
    destruct (analyze_returns d sid o readings r2 G Hne G2) as [x Ex].
    destruct IH as [l El]. rewrite Ex, El. cbn [bind].
    destruct x; eexists; reflexivity.
Qed.

Lemma correlation_returns d sid readings :
  store_nonempty d -> getitem d sid = Ok readings ->
  exists l, _detect_correlation_anomalies d sid = Ok l.
Proof.
  intros Hs G. unfold _detect_correlation_anomalies.
  destruct (_ <? 2); [eexists; reflexivity|].
  rewrite G. cbn [bind].
  pose proof (getitem_nonempty d sid readings Hs G) as Hne.
  destruct (last_item_nonempty readings Hne) as [latest [Hl _]].
  rewrite Hl. cbn [bind].
  destruct (correlated_sensors_returns d sid (r_zone_id latest)
              (sensor_data d) Hs) as [others [E Hin]].
  rewrite E. cbn [bind].
  destruct others as [|o others]; [eexists; reflexivity|].
  now apply (analyze_all_returns d sid readings).
Qed.

(** With every listed sensor in the store the loop returns. *)
Lemma detect_sensors_returns d ids :
  store_nonempty d ->
  (forall sid, In sid ids -> In sid (Dict.keys (sensor_data d))) ->
  exists l, detect_sensors d ids = Ok l.
Proof.
  intros Hs. induction ids as [|sid ids IH]; intros Hall; simpl.
  - eexists; reflexivity.
  - destruct IH as [more Emore]; [intros x Hx; apply Hall; now right|].
    assert (Hsid : In sid (Dict.keys (sensor_data d)))
      by (apply Hall; now left).
    apply getitem_key in Hsid. destruct Hsid as [readings G].
    rewrite G. cbn [bind].
    destruct (_ <? _); [now exists more|].
    pose proof (getitem_nonempty d sid readings Hs G) as Hne.
    destruct (isolation_forest_returns d sid readings G Hne) as [l1 E1].
    destruct (energy_returns d sid readings G Hne) as [l2 E2].
    destruct (temporal_returns d sid readings G Hne) as [l3 E3].
    destruct (correlation_returns d sid readings Hs G) as [l4 E4].
    rewrite E1, E2, E3, E4, Emore. cbn [bind]. eexists; reflexivity.
Qed.

(** With a listed sensor that is not in the store the loop raises the
    [KeyError] of the first such sensor. *)
Lemma detect_sensors_raises d ids :
  store_nonempty d ->
  (exists sid, In sid ids /\ ~ In sid (Dict.keys (sensor_data d))) ->
  exists k,
    In k ids /\ ~ In k (Dict.keys (sensor_data d)) /\
    detect_sensors d ids = Raise (KeyError k).
Proof.
  intros Hs. induction ids as [|sid ids IH]; intros [x [Hx Hmiss]].
  - contradiction.
  - simpl.
    destruct (in_dec string_dec sid (Dict.keys (sensor_data d)))
      as [Hin | Hout].
    + destruct Hx as [-> | Hx]; [contradiction|].
      destruct IH as [k [Hk [Hkm Ek]]]; [now exists x|].
      exists k. split; [now right|]. split; [exact Hkm|].
      apply getitem_key in Hin. destruct Hin as [readings G].
      rewrite G. cbn [bind].
      destruct (_ <? _); [exact Ek|].
      pose proof (getitem_nonempty d sid readings Hs G) as Hne.
      destruct (isolation_forest_returns d sid readings G Hne) as [l1 E1].
      destruct (energy_returns d sid readings G Hne) as [l2 E2].
      destruct (temporal_returns d sid readings G Hne) as [l3 E3].
      destruct (correlation_returns d sid readings Hs G) as [l4 E4].
      rewrite E1, E2, E3, E4, Ek. reflexivity.
    + exists sid. split; [now left|]. split; [exact Hout|].
      now rewrite getitem_missing.
Qed.

(** C10: on a detector whose stored windows all hold a reading (any
    detector fed by [add_sensor_reading] with [window_size >= 1]),
    [detect_anomalies] with an explicit list raises [KeyError] when a
    listed id is not a key of the store, and returns when every listed id
    is one. *)
Theorem detect_anomalies_raises_keyerror_iff_unknown_id :
  forall d ids,
    store_nonempty d ->
    ((exists sid, In sid ids /\ ~ In sid (Dict.keys (sensor_data d))) ->
     exists k,
       In k ids /\ ~ In k (Dict.keys (sensor_data d)) /\
       detect_anomalies d (Some ids) = Raise (KeyError k)) /\
    ((forall sid, In sid ids -> In sid (Dict.keys (sensor_data d))) ->
     exists r, detect_anomalies d (Some ids) = Ok r).
Proof.
  intros d ids Hs. unfold detect_anomalies. split.
  - intros Hmiss.
    destruct (detect_sensors_raises d ids Hs Hmiss) as [k [Hk [Hkm E]]].
    exists k. rewrite E. auto.
  - intros Hall.
    destruct (detect_sensors_returns d ids Hs Hall) as [l E].
    rewrite E. cbn [bind]. eexists; reflexivity.
Qed.

Lemma set_nonempty (d : list (string * list Reading)) k v :
  v <> [] ->
  Forall (fun kv => snd kv <> []) d ->
  Forall (fun kv => snd kv <> []) (Dict.set String.eqb d k v).
Proof.
  intros Hv. induction 1 as [|[k' v'] d Hkv Hd IH]; simpl.
  - constructor; [exact Hv | constructor].
  - destruct (String.eqb k k'); constructor; auto.
Qed.

Lemma set_set_nonempty (d : list (string * list Reading)) k v0 v :
  v <> [] ->
  Forall (fun kv => snd kv <> []) d ->
  Forall (fun kv => snd kv <> [])
    (Dict.set String.eqb (Dict.set String.eqb d k v0) k v).
Proof.
  intros Hv. induction 1 as [|[k' v'] d Hkv Hd IH]; simpl.
  - rewrite String.eqb_refl. constructor; [exact Hv | constructor].
  - destruct (String.eqb k k') eqn:E; simpl; rewrite E;
      constructor; auto.
Qed.

Lemma keys_set {V : Type} (d : list (string * V)) k v x :
  In x (Dict.keys (Dict.set String.eqb d k v)) <->
  x = k \/ In x (Dict.keys d).
Proof.
  unfold Dict.keys. induction d as [|[k' v'] d IH]; simpl.
  - intuition auto.
  - destruct (String.eqb_spec k k') as [-> | Hne]; simpl.
    + intuition auto.
    + rewrite IH. intuition auto.
Qed.

Lemma limit_nonempty ws l r : 1 <= ws -> limit ws (l ++ [r]) <> [].
Proof.
  intros Hws. unfold limit, len.
  destruct (Z.gtb_spec (Z.of_nat (length (l ++ [r]))) ws) as [Hgt | Hle].
  - rewrite length_app in Hgt. simpl in Hgt.
    destruct l as [|a [|b l]]; simpl in *; try lia; discriminate.
  - destruct l; discriminate.
Qed.

(** [add_sensor_reading] keeps every stored window non-empty when the
    window size is at least one. *)
Lemma call_store_nonempty d c :
  1 <= window_size d -> store_nonempty d -> store_nonempty (call d c).
Proof.
  unfold store_nonempty, call, add_sensor_reading. simpl.
  intros Hws Hs.
  fold (reading_of c).
  assert (L : forall l, (if len (l ++ [reading_of c]) >? window_size d
                         then tl (l ++ [reading_of c])
                         else l ++ [reading_of c]) <> [])
    by (intros l; apply (limit_nonempty (window_size d) l _ Hws)).
  unfold Dict.contains.
  destruct (Dict.get String.eqb (sensor_data d) (c_sensor_id c)) eqn:G.
  - rewrite G. apply set_nonempty; [apply L | exact Hs].
  - rewrite get_set_same. apply set_set_nonempty; [apply (L []) | exact Hs].
Qed.

Lemma run_calls_store_nonempty cs : forall d,
  1 <= window_size d -> store_nonempty d -> store_nonempty (run_calls d cs).
Proof.
  induction cs as [|c cs IH]; intros d Hws Hs; simpl; [exact Hs|].
  apply IH; [now rewrite window_size_call | now apply call_store_nonempty].
Qed.

(** The keys of the store are the sensors that received a reading. *)
Lemma keys_call d c x :
  In x (Dict.keys (sensor_data (call d c))) <->
  x = c_sensor_id c \/ In x (Dict.keys (sensor_data d)).
Proof.
  unfold call, add_sensor_reading. simpl. rewrite keys_set.
  destruct (Dict.contains String.eqb (sensor_data d) (c_sensor_id c));
    [tauto|].
  rewrite keys_set. tauto.
Qed.

Lemma keys_run_calls sklearn ws c m na cs x :
  In x (Dict.keys
          (sensor_data (run_calls (AnomalyDetector_init sklearn ws c m na)
                          cs))) <->
  added_for x cs <> [].
Proof.
  induction cs as [|y cs IH] using rev_ind.
  - simpl. tauto.
  - rewrite run_calls_snoc, keys_call, IH, added_for_snoc.
    destruct (String.eqb_spec (c_sensor_id y) x) as [E | Hne].
    + split; [intros _ | auto].
      destruct (added_for x cs); discriminate.
    + split; [intros [E | H]; [congruence | exact H] | auto].
Qed.

Lemma detect_anomalies_raises_keyerror_iff_unknown_id_witness :
  (exists k,
     detect_anomalies (lonely_detector quiet_forest)
       (Some ["hvac_001"; "ghost_001"]) = Raise (KeyError k)) /\
  (exists r,
     detect_anomalies (lonely_detector quiet_forest) (Some ["hvac_001"])
     = Ok r).
Proof.
  assert (Hs : store_nonempty (lonely_detector quiet_forest)).
  { unfold store_nonempty.
    replace (sensor_data (lonely_detector quiet_forest))
      with [("hvac_001",
             [reading_of
                (sample_call "hvac_001" "temperature" None 1000000 21)])]
      by evaluate.
    constructor; [discriminate | constructor]. }
  split.
  - destruct (proj1 (detect_anomalies_raises_keyerror_iff_unknown_id
                       (lonely_detector quiet_forest)
                       ["hvac_001"; "ghost_001"] Hs))
      as [k [_ [_ E]]].
    + exists "ghost_001". split; [right; now left|].
      intros [H | []]. discriminate H.
    + now exists k.
  - apply (proj2 (detect_anomalies_raises_keyerror_iff_unknown_id
                    (lonely_detector quiet_forest) ["hvac_001"] Hs)).
    intros sid [<- | []]. now left.
Defined.

(** ** The returned order at a MEDIUM and a HIGH anomaly *)

(** The anomalies of the four checks of a sensor that passes the size test
    are in the result of the loop. *)
Lemma detect_sensors_includes d ids : forall l sid readings,
  detect_sensors d ids = Ok l ->
  In sid ids ->
  getitem d sid = Ok readings ->
  min_samples_for_detection d <= len readings ->
  exists l1 l2 l3 l4,
    _detect_isolation_forest_anomalies d sid = Ok l1 /\
    _detect_energy_anomalies d sid = Ok l2 /\
    _detect_temporal_anomalies d sid = Ok l3 /\
    _detect_correlation_anomalies d sid = Ok l4 /\
    incl (l1 ++ l2 ++ l3 ++ l4) l.
Proof.
  induction ids as [|x ids IH]; intros l sid readings H Hin G Hge;
    [contradiction|].
  simpl in H.
  destruct (getitem d x) as [rx|] eqn:Gx; cbn [bind] in H; [|discriminate].
  destruct (string_dec x sid) as [-> | Hne].
  - rewrite G in Gx. inversion Gx; subst rx.
    replace (len readings <? min_samples_for_detection d) with false in H
      by (symmetry; apply Z.ltb_ge; exact Hge).
    destruct (_detect_isolation_forest_anomalies d sid) as [l1|];
      cbn [bind] in H; [|discriminate].
    destruct (_detect_energy_anomalies d sid) as [l2|];
      cbn [bind] in H; [|discriminate].
    destruct (_detect_temporal_anomalies d sid) as [l3|];
      cbn [bind] in H; [|discriminate].
    destruct (_detect_correlation_anomalies d sid) as [l4|];
      cbn [bind] in H; [|discriminate].
    destruct (detect_sensors d ids) as [more|];
      cbn [bind] in H; [|discriminate].
    inversion H; subst; clear H.
    exists l1, l2, l3, l4. repeat split; try reflexivity.
    intros a Ha. rewrite !in_app_iff in *. tauto.
  - destruct Hin as [E | Hin]; [contradiction|].
    assert (Hrest : exists l', detect_sensors d ids = Ok l' /\ incl l' l).
    { destruct (len rx <? min_samples_for_detection d).
      - exists l. split; [exact H | apply incl_refl].
      - destruct (_detect_isolation_forest_anomalies d x) as [l1|];
          cbn [bind] in H; [|discriminate].
        destruct (_detect_energy_anomalies d x) as [l2|];
          cbn [bind] in H; [|discriminate].
        destruct (_detect_temporal_anomalies d x) as [l3|];
          cbn [bind] in H; [|discriminate].
        destruct (_detect_correlation_anomalies d x) as [l4|];
          cbn [bind] in H; [|discriminate].
        destruct (detect_sensors d ids) as [more|];
          cbn [bind] in H; [|discriminate].
        inversion H; subst; clear H.
        exists more. split; [reflexivity|].
        intros a Ha. rewrite !in_app_iff. tauto. }
    destruct Hrest as [l' [E' Hincl]].
    destruct (IH l' sid readings E' Hin G Hge)
      as [l1 [l2 [l3 [l4 [E1 [E2 [E3 [E4 Hall]]]]]]]].
    exists l1, l2, l3, l4. repeat split; try assumption.
    intros a Ha. apply Hincl, Hall, Ha.
Qed.

(** The energy check on the meter whose recent mean is 25: [z = 2.5], a
    MEDIUM spike. *)
Lemma isolated_meter_spike sklearn :
  exists m,
    _detect_energy_anomalies (isolated_meter sklearn) "energy_001" = Ok [m]
    /\ severity m = MEDIUM.
Proof.
  assert (Hget : getitem (isolated_meter sklearn) "energy_001"
                 = Ok (stored (isolated_meter sklearn) "energy_001"))
    by evaluate.
  assert (Hlast : last_item (stored (isolated_meter sklearn) "energy_001")
                  = Ok (reading_of
                          (sample_call "energy_001" "energy_power"
                             (Some "test_zone") 1002280 25)))
    by evaluate.
  assert (Hlen : len (stored (isolated_meter sklearn) "energy_001") > 10)
    by (lazy; reflexivity).
  pose proof (_detect_energy_anomalies_long (isolated_meter sklearn)
                "energy_001" _ _ Hget Hlast eq_refl Hlen) as E.
  cbv zeta in E.
  replace (map r_value (stored (isolated_meter sklearn) "energy_001"))
    with (map IZR (meter_values 25)) in E by evaluate.
  change (slice_drop_last 10 (map IZR (meter_values 25)))
    with (map IZR [18; 22; 18; 22; 18; 22; 18; 22; 18; 22]) in E.
  change (slice_last 10 (map IZR (meter_values 25)))
    with (map IZR (repeat 25 10)) in E.
  rewrite meter_historical_mean, meter_historical_std, meter_recent_mean
    in E.
  change (energy_spike_threshold (isolated_meter sklearn)) with 2%R in E.
  replace ((25 - 20) / 2)%R with (5 / 2)%R in E by lra.
  assert (Habs : Rabs (5 / 2) = (5 / 2)%R) by (apply Rabs_pos_eq; lra).
  rewrite Habs in E.
  rewrite (Rgtb_true 2 0) in E by lra.
  rewrite (Rgtb_true (5 / 2) 2) in E by lra.
  rewrite (Rgtb_false (5 / 2) 3) in E by lra.
  eexists. split; [exact E | reflexivity].
Qed.

Lemma isolated_meter_network sklearn :
  exists h,
    _detect_network_anomalies (isolated_meter sklearn) = [h] /\
    severity h = HIGH.
Proof. eexists. split; [evaluate | reflexivity]. Qed.

Lemma update_network_graph_store d g :
  store_nonempty d -> store_nonempty (update_network_graph d g).
Proof. intros H. exact H. Qed.

Lemma isolated_meter_store sklearn : store_nonempty (isolated_meter sklearn).
Proof.
  unfold isolated_meter, meter_detector.
  apply update_network_graph_store, run_calls_store_nonempty.
  - simpl. lia.
  - constructor.
Qed.

(** C1, at the failing input: an energy meter with a spike of [z = 2.5]
    that the network graph isolates. Whatever the forest flags, the call
    returns a list that holds the MEDIUM spike and the HIGH isolation; the
    list is in descending order of the severity names, so MEDIUM comes
    before HIGH, and it is not in the order of the severity ranks. *)
Theorem detect_anomalies_puts_medium_before_high :
  forall sklearn, exists d' l,
    detect_anomalies (isolated_meter sklearn) None = Ok (d', l) /\
    StronglySorted code_before l /\
    (exists m h,
       In m l /\ In h l /\ severity m = MEDIUM /\ severity h = HIGH /\
       code_before m h /\ ~ claimed_before m h) /\
    ~ StronglySorted claimed_before l.
Proof.
  intros sklearn.
  pose proof (isolated_meter_store sklearn) as Hs.
  destruct (detect_sensors_returns (isolated_meter sklearn)
              (Dict.keys (sensor_data (isolated_meter sklearn))) Hs)
    as [per_sensor E]; [intros sid H; exact H|].
  assert (Hget : getitem (isolated_meter sklearn) "energy_001"
                 = Ok (stored (isolated_meter sklearn) "energy_001"))
    by evaluate.
  assert (Hin : In "energy_001"
                  (Dict.keys (sensor_data (isolated_meter sklearn))))
    by (apply (proj2 (getitem_key (isolated_meter sklearn) "energy_001"));
        eexists; exact Hget).
  assert (Hge : min_samples_for_detection (isolated_meter sklearn)
                <= len (stored (isolated_meter sklearn) "energy_001"))
    by (lazy; discriminate).
  destruct (detect_sensors_includes _ _ _ _ _ E Hin Hget Hge)
    as [l1 [l2 [l3 [l4 [_ [E2 [_ [_ Hincl]]]]]]]].
  destruct (isolated_meter_spike sklearn) as [m [Em Hm]].
  rewrite Em in E2. inversion E2; subst l2; clear E2.
  destruct (isolated_meter_network sklearn) as [h [Eh Hh]].
  exists (with_detected_anomalies (isolated_meter sklearn)
            (detected_anomalies (isolated_meter sklearn)
             ++ per_sensor ++ [h])),
         (sort_reverse (per_sensor ++ [h])).
  assert (Im : In m (sort_reverse (per_sensor ++ [h]))).
  { rewrite sort_reverse_In, in_app_iff. left. apply Hincl.
    apply in_or_app. right. left. apply eq_refl. }
  assert (Ih : In h (sort_reverse (per_sensor ++ [h]))).
  { rewrite sort_reverse_In, in_app_iff. right. left. apply eq_refl. }
  split.
  - unfold detect_anomalies. rewrite E. cbn [bind].
    replace (network_analysis (isolated_meter sklearn)
             && truthy_graph (network_graph (isolated_meter sklearn)))
      with true by evaluate.
    cbv iota. rewrite Eh. exact eq_refl.
  - split; [apply sort_reverse_sorted|]. split.
    + exists m, h. repeat split; try assumption.
      * apply code_before_iff. rewrite Hm, Hh. left. simpl. lia.
      * unfold claimed_before. rewrite Hm, Hh. simpl.
        intros [H | [H _]]; [lia | discriminate].
    + exact (medium_before_high _ m h (sort_reverse_sorted _) Im Ih Hm Hh).
Qed.

(** ** The confidence of a correlation breakdown *)

(** The correlation coefficient of two columns of the same variance. *)
Lemma np_corrcoef_same_variance x y c cxy :
  np_cov x x = c -> np_cov y y = c -> (0 < c)%R -> np_cov x y = cxy ->
  np_corrcoef x y = Some (clip (-1) 1 (cxy / c)).
Proof.
  intros Hx Hy Hc Hxy. unfold np_corrcoef. rewrite Hx, Hy, Hxy.
  pose proof (sqrt_lt_R0 c Hc) as Hs.
  destruct (Req_dec_T (sqrt c) 0) as [E | _]; [lra|].
  do 2 f_equal. unfold Rdiv.
  rewrite Rmult_assoc, <- Rinv_mult, sqrt_sqrt by lra. reflexivity.
Qed.

Lemma pair_windows sklearn :
  map r_value (stored (pair_detector sklearn) "hvac_001")
  = map IZR pair_values_1 /\
  map r_value (stored (pair_detector sklearn) "hvac_002")
  = map IZR pair_values_2.
Proof. split; evaluate. Qed.

(** Read together, the two sensors are aligned reading by reading. *)
Lemma pair_aligned sklearn :
  _align_sensor_readings (stored (pair_detector sklearn) "hvac_001")
    (stored (pair_detector sklearn) "hvac_002")
  = combine (map IZR pair_values_1) (map IZR pair_values_2).
Proof. evaluate. Qed.

Lemma pair_full_correlation :
  np_corrcoef (map IZR pair_values_1) (map IZR pair_values_2)
  = Some (99 / 101)%R.
Proof.
  rewrite (np_corrcoef_same_variance _ _ (1010 / 19) (990 / 19)).
  - f_equal. unfold clip.
    replace (990 / 19 / (1010 / 19))%R with (99 / 101)%R by lra.
    rewrite Rmin_right by lra. apply Rmax_right. lra.
  - unfold pair_values_1. stats. lra.
  - unfold pair_values_2. stats. lra.
  - lra.
  - unfold pair_values_1, pair_values_2. stats. lra.
Qed.

Lemma pair_recent_correlation :
  np_corrcoef
    (map IZR [21; 19; 21; 19; 21; 19; 21; 19; 21; 19])
    (map IZR [19; 21; 19; 21; 19; 21; 19; 21; 19; 21])
  = Some (-1)%R.
Proof.
  rewrite (np_corrcoef_same_variance _ _ (10 / 9) (- (10 / 9))).
  - f_equal. unfold clip.
    replace (- (10 / 9) / (10 / 9))%R with (-1)%R by lra.
    rewrite Rmin_right by lra. apply Rmax_left. lra.
  - stats. lra.
  - stats. lra.
  - lra.
  - stats. lra.
Qed.

Lemma pair_analysis sklearn :
  exists a,
    _analyze_sensor_correlation (pair_detector sklearn) "hvac_001"
      "hvac_002" = Ok (Some a) /\
    confidence a = (200 / 101)%R.
Proof.
  assert (G1 : getitem (pair_detector sklearn) "hvac_001"
               = Ok (stored (pair_detector sklearn) "hvac_001"))
    by evaluate.
  assert (G2 : getitem (pair_detector sklearn) "hvac_002"
               = Ok (stored (pair_detector sklearn) "hvac_002"))
    by evaluate.
  assert (Hlast : last_item (stored (pair_detector sklearn) "hvac_001")
                  = Ok (reading_of
                          (sample_call "hvac_001" "temperature"
                             (Some "test_zone") 1005700 19)))
    by evaluate.
  unfold _analyze_sensor_correlation.
  rewrite G1, G2. cbn [bind]. rewrite pair_aligned.
  replace (len (combine (map IZR pair_values_1) (map IZR pair_values_2))
           <? 10) with false by evaluate.
  replace (map fst (combine (map IZR pair_values_1)
                      (map IZR pair_values_2)))
    with (map IZR pair_values_1) by evaluate.
  replace (map snd (combine (map IZR pair_values_1)
                      (map IZR pair_values_2)))
    with (map IZR pair_values_2) by evaluate.
  rewrite pair_full_correlation.
  replace (slice_last 10 (map IZR pair_values_1))
    with (map IZR [21; 19; 21; 19; 21; 19; 21; 19; 21; 19]) by evaluate.
  replace (slice_last 10 (map IZR pair_values_2))
    with (map IZR [19; 21; 19; 21; 19; 21; 19; 21; 19; 21]) by evaluate.
  rewrite pair_recent_correlation.
  assert (Habs : Rabs (99 / 101 - -1) = (200 / 101)%R)
    by (rewrite Rabs_pos_eq; lra).
  rewrite Habs. rewrite Rgtb_true by lra.
  rewrite Hlast. cbn [bind].
  eexists. split; [exact eq_refl | exact eq_refl].
Qed.

Lemma pair_store sklearn : store_nonempty (pair_detector sklearn).
Proof.
  unfold pair_detector. apply run_calls_store_nonempty.
  - simpl. lia.
  - constructor.
Qed.

(** C3, at the failing input: two sensors of one zone whose readings go
    together and then against each other. The correlation check of the
    first against the second creates an anomaly of confidence
    [|99/101 - (-1)| = 200/101], above 1, and [detect_anomalies] returns
    it, whatever the forest flags. *)
Theorem correlation_breakdown_confidence_above_one :
  forall sklearn, exists a,
    _analyze_sensor_correlation (pair_detector sklearn) "hvac_001"
      "hvac_002" = Ok (Some a) /\
    anomaly_type a = NETWORK_ISOLATION /\
    confidence a = (200 / 101)%R /\
    ~ (0 <= confidence a <= 1)%R /\
    exists d' l,
      detect_anomalies (pair_detector sklearn) None = Ok (d', l) /\
      In a l.
Proof.
  intros sklearn.
  destruct (pair_analysis sklearn) as [a [Ea Hc]].
  exists a. split; [exact Ea|].
  split.
  { exact (proj1 (analyze_kind _ _ _ _ Ea)). }
  split; [exact Hc|]. split; [rewrite Hc; lra|].
  pose proof (pair_store sklearn) as Hs.
  destruct (detect_sensors_returns (pair_detector sklearn)
              (Dict.keys (sensor_data (pair_detector sklearn))) Hs)
    as [per_sensor E]; [intros sid H; exact H|].
  assert (G1 : getitem (pair_detector sklearn) "hvac_001"
               = Ok (stored (pair_detector sklearn) "hvac_001"))
    by evaluate.
  assert (Hin : In "hvac_001"
                  (Dict.keys (sensor_data (pair_detector sklearn))))
    by (apply (proj2 (getitem_key (pair_detector sklearn) "hvac_001"));
        eexists; exact G1).
  assert (Hge : min_samples_for_detection (pair_detector sklearn)
                <= len (stored (pair_detector sklearn) "hvac_001"))
    by (lazy; discriminate).
  destruct (detect_sensors_includes _ _ _ _ _ E Hin G1 Hge)
    as [l1 [l2 [l3 [l4 [_ [_ [_ [E4 Hincl]]]]]]]].
  assert (E4' : _detect_correlation_anomalies (pair_detector sklearn)
                  "hvac_001" = Ok [a]).
  { unfold _detect_correlation_anomalies.
    replace (len (sensor_data (pair_detector sklearn)) <? 2) with false
      by evaluate.
    rewrite G1. cbn [bind].
    replace (last_item (stored (pair_detector sklearn) "hvac_001"))
      with (Ok (reading_of
                  (sample_call "hvac_001" "temperature"
                     (Some "test_zone") 1005700 19))) by evaluate.
    cbn [bind].
    replace (correlated_sensors (pair_detector sklearn) "hvac_001"
               (r_zone_id
                  (reading_of
                     (sample_call "hvac_001" "temperature"
                        (Some "test_zone") 1005700 19)))
               (sensor_data (pair_detector sklearn)))
      with (@Ok (list string) ["hvac_002"]) by evaluate.
    cbn [bind analyze_all]. rewrite Ea. exact eq_refl. }
  rewrite E4' in E4. inversion E4; subst l4; clear E4.
  exists (with_detected_anomalies (pair_detector sklearn)
            (detected_anomalies (pair_detector sklearn) ++ per_sensor)),
         (sort_reverse per_sensor).
  split.
  - unfold detect_anomalies. rewrite E. cbn [bind].
    replace (network_analysis (pair_detector sklearn)
             && truthy_graph (network_graph (pair_detector sklearn)))
      with false by evaluate.
    cbv iota. exact eq_refl.
  - apply (proj2 (sort_reverse_In a per_sensor)). apply Hincl.
    apply in_or_app. right. apply in_or_app. right.
    apply in_or_app. right. left. apply eq_refl.
Qed.

(** The other checks keep the confidence between 0 and 1: they cap it with
    [min(1.0, ...)], or set it to 1. *)
Lemma capped_confidence x c :
  (0 < c)%R -> (0 <= Rmin 1 (Rabs x / c) <= 1)%R.
Proof.
  intros Hc. split; [|apply Rmin_l].
  apply Rmin_glb; [lra|].
  apply Rmult_le_pos; [apply Rabs_pos|].
  left. now apply Rinv_0_lt_compat.
Qed.

Lemma isolation_forest_confidence d sid l :
  _detect_isolation_forest_anomalies d sid = Ok l ->
  Forall (fun a => (0 <= confidence a <= 1)%R) l.
Proof.
  unfold _detect_isolation_forest_anomalies. intros H.
  destruct (getitem d sid) as [readings|]; cbn [bind] in H;
    [|discriminate].
  destruct (map r_value readings); [discriminate|].
  inversion H; subst; clear H.
  apply Forall_forall. intros a Ha.
  apply in_flat_map in Ha. destruct Ha as [[p [sc rd]] [_ Ha]].
  destruct (p =? -1); [|contradiction].
  destruct Ha as [<- | []]. cbn [confidence].
  apply capped_confidence. lra.
Qed.

Lemma energy_confidence d sid l :
  _detect_energy_anomalies d sid = Ok l ->
  Forall (fun a => (0 <= confidence a <= 1)%R) l.
Proof.
  unfold _detect_energy_anomalies. intros H.
  returns H; try constructor; try constructor;
    cbn [confidence]; apply capped_confidence; lra.
Qed.

Lemma temporal_confidence d sid l :
  _detect_temporal_anomalies d sid = Ok l ->
  Forall (fun a => (0 <= confidence a <= 1)%R) l.
Proof.
  unfold _detect_temporal_anomalies. intros H.
  returns H; try constructor; try constructor; cbn [confidence].
  all: match goal with
       | Hd : checked_div _ _ = Ok ?dev, Hg : Rgtb ?dev _ = true |- _ =>
           apply Rgtb_true_iff in Hg;
           rewrite <- (Rabs_pos_eq dev) by lra;
           apply capped_confidence; lra
       end.
Qed.

Lemma network_confidence d :
  Forall (fun a => (0 <= confidence a <= 1)%R) (_detect_network_anomalies d).
Proof.
  apply Forall_forall. intros a Ha.
  apply _detect_network_anomalies_spec in Ha.
  destruct Ha as [g [_ [_ [_ [_ [_ [_ Hc]]]]]]]. rewrite Hc. lra.
Qed.

(** * Further properties of the detector *)

(** ** What [detect_anomalies] returns and stores *)

Lemma detect_anomalies_inv d ids d' l :
  detect_anomalies d ids = Ok (d', l) ->
  exists found,
    d' = with_detected_anomalies d (detected_anomalies d ++ found) /\
    l = sort_reverse found.
Proof.
  unfold detect_anomalies. intros H.
  destruct (detect_sensors d _) as [per_sensor|]; cbn [bind] in H;
    [|discriminate].
  inversion H; subst; clear H. eexists. split; exact eq_refl.
Qed.

Lemma strongly_sorted_impl {A : Type} (R R' : A -> A -> Prop) l :
  (forall a b, R a b -> R' a b) ->
  StronglySorted R l -> StronglySorted R' l.
Proof.
  intros Himp. induction 1 as [|a m Hs IH Hall]; constructor; [exact IH|].
  eapply Forall_impl; [|exact Hall]. intros b. apply Himp.
Qed.

(** X1: the list a call returns is in descending order of the pair of the
    severity's name and the timestamp: no element is followed by one with a
    greater key. *)
Theorem detect_anomalies_sorted_by_severity_name :
  forall d ids d' l,
    detect_anomalies d ids = Ok (d', l) ->
    StronglySorted
      (fun a b =>
         alphabetical_rank (severity b) < alphabetical_rank (severity a) \/
         (severity a = severity b /\ timestamp b <= timestamp a)) l.
Proof.
  intros d ids d' l H.
  destruct (detect_anomalies_inv d ids d' l H) as [found [_ ->]].
  apply (strongly_sorted_impl code_before); [|apply sort_reverse_sorted].
  intros a b Hab. now apply code_before_iff.
Qed.

Lemma detect_anomalies_sorted_by_severity_name_witness :
  exists d' l,
    detect_anomalies (lonely_detector quiet_forest) None = Ok (d', l) /\
    StronglySorted
      (fun a b =>
         alphabetical_rank (severity b) < alphabetical_rank (severity a) \/
         (severity a = severity b /\ timestamp b <= timestamp a)) l.
Proof.
  destruct (lonely_detection quiet_forest) as [d' [a [H _]]].
  exists d', [a]. split; [exact H|].
  exact (detect_anomalies_sorted_by_severity_name _ _ _ _ H).
Defined.

(** X2: a call appends its findings to the store, behind what the store
    held, and returns a permutation of what it appended; the windows, the
    graph and the settings are left as they were. *)
Theorem detect_anomalies_stores_what_it_returns :
  forall d ids d' l,
    detect_anomalies d ids = Ok (d', l) ->
    exists found,
      detected_anomalies d' = detected_anomalies d ++ found /\
      Permutation l found /\
      sensor_data d' = sensor_data d /\
      network_graph d' = network_graph d /\
      window_size d' = window_size d /\
      min_samples_for_detection d' = min_samples_for_detection d.
Proof.
  intros d ids d' l H.
  destruct (detect_anomalies_inv d ids d' l H) as [found [-> ->]].
  exists found. split; [exact eq_refl|].
  split; [apply sort_reverse_perm|]. repeat split.
Qed.

Lemma detect_anomalies_stores_what_it_returns_witness :
  exists d' l found,
    detect_anomalies (lonely_detector quiet_forest) None = Ok (d', l) /\
    detected_anomalies d'
    = detected_anomalies (lonely_detector quiet_forest) ++ found /\
    Permutation l found.
Proof.
  destruct (lonely_detection quiet_forest) as [d' [a [H _]]].
  destruct (detect_anomalies_stores_what_it_returns _ _ _ _ H)
    as [found [Hst [Hp _]]].
  exists d', [a], found. split; [exact H|]. split; assumption.
Defined.

(** The sort is stable: the anomalies of one severity and one timestamp
    keep the order in which they were found. *)
Lemma insert_reverse_filter_same a l :
  filter (fun b => SeverityLevel_eqb (severity b) (severity a)
                   && (timestamp b =? timestamp a)) (insert_reverse a l)
  = a :: filter (fun b => SeverityLevel_eqb (severity b) (severity a)
                          && (timestamp b =? timestamp a)) l.
Proof.
  induction l as [|b l IH]; cbn [insert_reverse filter].
  - replace (SeverityLevel_eqb (severity a) (severity a)) with true
      by (now destruct (severity a)).
    now rewrite Z.eqb_refl.
  - destruct (key_ltb (sort_key a) (sort_key b)) eqn:E.
    + cbn [filter]. rewrite IH.
      destruct (SeverityLevel_eqb (severity b) (severity a)
                && (timestamp b =? timestamp a)) eqn:Eb; [|reflexivity].
      exfalso. apply andb_prop in Eb. destruct Eb as [Es Et].
      apply Z.eqb_eq in Et.
      assert (Hs : severity b = severity a)
        by (destruct (severity b), (severity a); simpl in Es;
            congruence).
      unfold key_ltb, sort_key in E. cbn [fst snd] in E.
      rewrite Hs, compare_values, Z.compare_refl, Et in E.
      rewrite Z.ltb_irrefl in E. discriminate.
    + cbn [filter].
      replace (SeverityLevel_eqb (severity a) (severity a)) with true
        by (now destruct (severity a)).
      now rewrite Z.eqb_refl.
Qed.

Lemma insert_reverse_filter_other a l s t :
  SeverityLevel_eqb (severity a) s && (timestamp a =? t) = false ->
  filter (fun b => SeverityLevel_eqb (severity b) s && (timestamp b =? t))
    (insert_reverse a l)
  = filter (fun b => SeverityLevel_eqb (severity b) s && (timestamp b =? t))
      l.
Proof.
  intros Ha. induction l as [|b l IH]; cbn [insert_reverse filter].
  - now rewrite Ha.
  - destruct (key_ltb (sort_key a) (sort_key b)); cbn [filter].
    + now rewrite IH.
    + now rewrite Ha.
Qed.

Lemma sort_reverse_stable l s t :
  filter (fun b => SeverityLevel_eqb (severity b) s && (timestamp b =? t))
    (sort_reverse l)
  = filter (fun b => SeverityLevel_eqb (severity b) s && (timestamp b =? t))
      l.
Proof.
  induction l as [|a l IH]; [reflexivity|].
  cbn [sort_reverse fold_right filter]. fold (sort_reverse l).
  destruct (SeverityLevel_eqb (severity a) s && (timestamp a =? t)) eqn:E.
  - apply andb_prop in E. destruct E as [Es Et].
    apply Z.eqb_eq in Et.
    assert (Hs : severity a = s)
      by (destruct (severity a), s; simpl in Es; congruence).
    subst s t. now rewrite insert_reverse_filter_same, IH.
  - now rewrite insert_reverse_filter_other, IH.
Qed.

(** X3: among the returned anomalies of one severity and one timestamp the
    order is the one in which the call stored them. *)
Theorem detect_anomalies_keeps_ties_in_detection_order :
  forall d ids d' l s t,
    detect_anomalies d ids = Ok (d', l) ->
    exists found,
      detected_anomalies d' = detected_anomalies d ++ found /\
      filter (fun b => SeverityLevel_eqb (severity b) s
                       && (timestamp b =? t)) l
      = filter (fun b => SeverityLevel_eqb (severity b) s
                         && (timestamp b =? t)) found.
Proof.
  intros d ids d' l s t H.
  destruct (detect_anomalies_inv d ids d' l H) as [found [-> ->]].
  exists found. split; [exact eq_refl | apply sort_reverse_stable].
Qed.

Lemma detect_anomalies_keeps_ties_in_detection_order_witness :
  exists d' l found,
    detect_anomalies (lonely_detector quiet_forest) None = Ok (d', l) /\
    filter (fun b => SeverityLevel_eqb (severity b) HIGH
                     && (timestamp b =? 1000000 * microseconds_per_second))
      l
    = filter (fun b => SeverityLevel_eqb (severity b) HIGH
                       && (timestamp b =? 1000000 * microseconds_per_second))
        found.
Proof.
  destruct (lonely_detection quiet_forest) as [d' [a [H _]]].
  destruct (detect_anomalies_keeps_ties_in_detection_order
              _ _ _ _ HIGH (1000000 * microseconds_per_second) H)
    as [found [_ Hf]].
  exists d', [a], found. split; assumption.
Defined.

(** ** The network check *)

Lemma network_anomaly_other d sid n :
  n <> sid ->
  filter (fun a => String.eqb (sensor_id a) sid) (network_anomaly d n) = [].
Proof.
  intros Hne. unfold network_anomaly.
  destruct (Dict.get String.eqb (sensor_data d) n) as [[|r rs]|];
    try reflexivity.
  destruct (last_item (r :: rs)); [|reflexivity].
  cbn [filter sensor_id].
  destruct (String.eqb_spec n sid); [contradiction | reflexivity].
Qed.

Lemma filter_flat_map_network d sid nodes :
  ~ In sid nodes ->
  filter (fun a => String.eqb (sensor_id a) sid)
    (flat_map (network_anomaly d) nodes) = [].
Proof.
  induction nodes as [|n nodes IH]; intros Hout; [reflexivity|].
  cbn [flat_map]. rewrite filter_app, IH, app_nil_r.
  - apply network_anomaly_other. intros ->. apply Hout. now left.
  - intros H. apply Hout. now right.
Qed.

Lemma filter_flat_map_network_once d sid nodes :
  NoDup nodes -> In sid nodes ->
  filter (fun a => String.eqb (sensor_id a) sid)
    (flat_map (network_anomaly d) nodes)
  = filter (fun a => String.eqb (sensor_id a) sid) (network_anomaly d sid).
Proof.
  induction 1 as [|n nodes Hn Hnd IH]; intros Hin; [contradiction|].
  cbn [flat_map]. rewrite filter_app.
  destruct Hin as [-> | Hin].
  - now rewrite filter_flat_map_network, app_nil_r.
  - rewrite network_anomaly_other, IH by (auto; intros ->; contradiction).
    reflexivity.
Qed.

(** The anomaly of an isolated sensor. *)
Lemma isolated_sensor_anomaly :
  forall d g sid readings latest,
    network_graph d = Some g ->
    NoDup (graph_nodes g) ->
    In sid (graph_nodes g) ->
    graph_degree g sid = 0%nat ->
    getitem d sid = Ok readings ->
    last_item readings = Ok latest ->
    exists a,
      filter (fun x => String.eqb (sensor_id x) sid)
        (_detect_network_anomalies d) = [a] /\
      sensor_id a = sid /\
      anomaly_type a = NETWORK_ISOLATION /\
      severity a = HIGH /\
      confidence a = 1%R /\
      timestamp a = r_timestamp latest /\
      value a = r_value latest /\
      expected_range a = _calculate_expected_range readings.
Proof.
  intros d g sid readings latest Hg Hnd Hin Hdeg Hget Hlast.
  unfold _detect_network_anomalies. rewrite Hg.
  destruct g as [|node g']; [contradiction|].
  cbn [truthy_graph negb].
  set (nodes := graph_nodes (node :: g')) in *.
  rewrite filter_flat_map_network_once.
  - unfold network_anomaly. unfold getitem in Hget.
    destruct (Dict.get String.eqb (sensor_data d) sid) as [rs|];
      [|discriminate].
    inversion Hget; subst rs.
    destruct readings as [|r rs]; [discriminate|].
    rewrite Hlast. cbn [filter sensor_id]. rewrite String.eqb_refl.
    eexists. split; [exact eq_refl|]. repeat split.
  - now apply NoDup_filter.
  - apply filter_In. split; [exact Hin|]. now apply Nat.eqb_eq.
Qed.

(** X4: for a graph without repeated nodes, a node of degree 0 that is a
    sensor with a stored reading gives exactly one anomaly of the network
    check for that sensor: NETWORK_ISOLATION, HIGH, confidence 1, with the
    timestamp and the value of the sensor's latest reading. *)
Theorem isolated_sensor_gives_one_network_anomaly :
  forall d g sid readings latest,
    network_graph d = Some g ->
    NoDup (graph_nodes g) ->
    In sid (graph_nodes g) ->
    graph_degree g sid = 0%nat ->
    getitem d sid = Ok readings ->
    last_item readings = Ok latest ->
    exists a,
      filter (fun x => String.eqb (sensor_id x) sid)
        (_detect_network_anomalies d) = [a] /\
      sensor_id a = sid /\
      anomaly_type a = NETWORK_ISOLATION /\
      severity a = HIGH /\
      confidence a = 1%R /\
      timestamp a = r_timestamp latest /\
      value a = r_value latest /\
      expected_range a = _calculate_expected_range readings.
Proof. exact isolated_sensor_anomaly. Qed.

Lemma isolated_sensor_gives_one_network_anomaly_witness :
  exists a,
    filter (fun x => String.eqb (sensor_id x) "hvac_001")
      (_detect_network_anomalies (lonely_detector quiet_forest)) = [a] /\
    severity a = HIGH /\
    timestamp a = 1000000 * microseconds_per_second.
Proof.
  assert (Hg : network_graph (lonely_detector quiet_forest)
               = Some lonely_graph) by exact eq_refl.
  assert (Hnd : NoDup (graph_nodes lonely_graph))
    by (constructor; [intros [] | constructor]).
  assert (Hin : In "hvac_001" (graph_nodes lonely_graph))
    by (left; exact eq_refl).
  assert (Hget : getitem (lonely_detector quiet_forest) "hvac_001"
                 = Ok (stored (lonely_detector quiet_forest) "hvac_001"))
    by evaluate.
  assert (Hlast : last_item (stored (lonely_detector quiet_forest)
                               "hvac_001")
                  = Ok (reading_of
                          (sample_call "hvac_001" "temperature" None
                             1000000 21)))
    by evaluate.
  destruct (isolated_sensor_gives_one_network_anomaly
              (lonely_detector quiet_forest) lonely_graph "hvac_001" _ _
              Hg Hnd Hin eq_refl Hget Hlast)
    as [a [Hf [_ [_ [Hs [_ [Ht _]]]]]]].
  exists a. split; [exact Hf|]. split; [exact Hs | exact Ht].
Defined.

(** ** Severity from confidence *)

(** X5: [_calculate_severity] is monotone in the confidence: a greater
    confidence never gives a lower severity rank, whatever the value and
    the readings. *)
Theorem _calculate_severity_monotone :
  forall c1 c2 v1 v2 rs1 rs2,
    (c1 <= c2)%R ->
    severity_order (_calculate_severity c1 v1 rs1)
    <= severity_order (_calculate_severity c2 v2 rs2).
Proof.
  intros c1 c2 v1 v2 rs1 rs2 Hle. unfold _calculate_severity, Rgtb.
  repeat match goal with
         | |- context [Rgt_dec ?x ?y] => destruct (Rgt_dec x y)
         end; simpl; try lia; lra.
Qed.

Lemma _calculate_severity_monotone_witness :
  severity_order (_calculate_severity (1 / 2) 0 [])
  <= severity_order (_calculate_severity (9 / 10) 0 []).
Proof.
  apply _calculate_severity_monotone. lra.
Defined.

Lemma _calculate_severity_levels c v rs :
  (_calculate_severity c v rs = CRITICAL <-> (c > 8 / 10)%R) /\
  (_calculate_severity c v rs = LOW <-> (c <= 4 / 10)%R).
Proof.
  unfold _calculate_severity, Rgtb.
  repeat match goal with
         | |- context [Rgt_dec ?x ?y] => destruct (Rgt_dec x y)
         end; split; split; intros H; try discriminate; try reflexivity;
    lra.
Qed.

(** ** Where the energy check stays silent *)

Lemma Rsum_same_mean_zero (l : list R) :
  (np_mean l - np_mean l)%R = 0%R.
Proof. lra. Qed.

(** X6: the energy check returns the empty list for a sensor whose latest
    reading is not of an energy type, for a window of fewer than ten
    readings, and, with a threshold that is not negative, for a window of
    exactly ten readings (the z-score is then 0). *)
Theorem energy_check_is_silent :
  forall d sid readings latest,
    getitem d sid = Ok readings ->
    last_item readings = Ok latest ->
    _is_energy_sensor (r_sensor_type latest) = false \/
    len readings < 10 \/
    (len readings = 10 /\ (0 <= energy_spike_threshold d)%R) ->
    _detect_energy_anomalies d sid = Ok [].
Proof.
  intros d sid readings latest Hget Hlast Hcase.
  unfold _detect_energy_anomalies. rewrite Hget. cbn [bind].
  rewrite Hlast. cbn [bind].
  destruct (_is_energy_sensor (r_sensor_type latest)); [|reflexivity].
  cbn [negb].
  destruct Hcase as [Hne | [Hshort | [Hten Hthr]]]; [discriminate| |].
  - assert (Hv : len (map r_value readings) = len readings)
      by (unfold len; now rewrite length_map).
    replace (len (map r_value readings) >=? 10) with false; [reflexivity|].
    symmetry. destruct (Z.geb_spec (len (map r_value readings)) 10);
      [lia | reflexivity].
  - assert (Hv : len (map r_value readings) = 10)
      by (unfold len in *; now rewrite length_map).
    rewrite Hv. cbn [Z.geb Z.gtb Z.compare Pos.compare Pos.compare_cont].
    destruct (Rgtb (np_std (map r_value readings)) 0) eqn:Hs;
      [|reflexivity].
    apply Rgtb_true_iff in Hs.
    rewrite checked_div_nonzero by lra. cbn [bind].
    replace ((np_mean (slice_last 10 (map r_value readings))
              - np_mean (slice_last 10 (map r_value readings)))
             / np_std (map r_value readings))%R with 0%R
      by (unfold Rdiv; rewrite Rsum_same_mean_zero; lra).
    rewrite Rabs_R0, Rgtb_false by lra. reflexivity.
Qed.

Lemma energy_check_is_silent_witness :
  _detect_energy_anomalies (steady_detector quiet_forest) "hvac_001"
  = Ok [].
Proof.
  assert (Hget : getitem (steady_detector quiet_forest) "hvac_001"
                 = Ok (stored (steady_detector quiet_forest) "hvac_001"))
    by evaluate.
  assert (Hlast : last_item (stored (steady_detector quiet_forest)
                               "hvac_001")
                  = Ok (reading_of
                          (sample_call "hvac_001" "temperature"
                             (Some "test_zone") 1169200 21)))
    by evaluate.
  apply (energy_check_is_silent (steady_detector quiet_forest) "hvac_001"
           _ _ Hget Hlast).
  left. exact eq_refl.
Defined.

(** ** The temporal rule *)

Lemma last_item_In {A : Type} (l : list A) x : last_item l = Ok x -> In x l.
Proof.
  induction l as [|a l IH]; [discriminate|].
  destruct l as [|b l].
  - intros H. inversion H. now left.
  - intros H. right. now apply IH.
Qed.

Lemma hour_in_day ts :
  existsb (Z.eqb (hour ts)) (map Z.of_nat (seq 0 24)) = true.
Proof.
  apply existsb_exists. exists (hour ts). split; [|apply Z.eqb_refl].
  assert (Hb : 0 <= hour ts < 24)
    by (unfold hour; apply Z.mod_pos_bound; lia).
  apply in_map_iff. exists (Z.to_nat (hour ts)).
  split; [lia|]. apply in_seq. lia.
Qed.

(** The row of the hourly table for the hour of the latest reading. *)
Lemma hourly_patterns_latest readings latest :
  last_item readings = Ok latest ->
  Dict.get Z.eqb (hourly_patterns readings) (hour (r_timestamp latest))
  = Some (pd_mean (hour_bucket readings (hour (r_timestamp latest))),
          fillna0 (pd_std (hour_bucket readings
                             (hour (r_timestamp latest))))).
Proof.
  intros Hlast. unfold hourly_patterns.
  rewrite hourly_patterns_rows, hour_in_day.
  unfold hourly_row. cbv zeta.
  destruct (hour_bucket readings (hour (r_timestamp latest))) eqn:B.
  - exfalso. apply last_item_In in Hlast.
    assert (Hin : In (r_value latest)
                    (hour_bucket readings (hour (r_timestamp latest)))).
    { unfold hour_bucket. apply in_map. apply filter_In.
      split; [exact Hlast | apply Z.eqb_refl]. }
    rewrite B in Hin. contradiction.
  - cbn [Dict.get]. now rewrite Z.eqb_refl.
Qed.


Lemma burst_bucket sklearn :
  hour_bucket (stored (burst_detector sklearn) "hvac_001") 14
  = map IZR burst_values.
Proof. evaluate. Qed.

Lemma burst_mean : pd_mean (map IZR burst_values) = 1%R.
Proof. unfold burst_values. stats. lra. Qed.

Lemma burst_std : fillna0 (pd_std (map IZR burst_values)) = sqrt 24.
Proof.
  unfold pd_std. replace (length (map IZR burst_values) <? 2)%nat
    with false by evaluate.
  cbn [fillna0]. f_equal. unfold burst_values. stats. lra.
Qed.

Lemma sqrt_24_bounds : (4 < sqrt 24 < 5)%R.
Proof.
  split.
  - rewrite <- (sqrt_square 4) by lra. apply sqrt_lt_1; lra.
  - replace 5%R with (sqrt (5 * 5)) at 1 by (apply sqrt_square; lra).
    apply sqrt_lt_1; lra.
Qed.


(** ** Zero deviation before the latest reading *)

(** The temporal check flags a latest reading more than four deviations
    away from the mean of its hour. *)
Lemma _detect_temporal_anomalies_far d sid readings latest :
  getitem d sid = Ok readings ->
  last_item readings = Ok latest ->
  len readings >= 24 ->
  let bucket := hour_bucket readings (hour (r_timestamp latest)) in
  let m := pd_mean bucket in
  let s := fillna0 (pd_std bucket) in
  (s > 0)%R ->
  (Rabs (r_value latest - m) / s > 4)%R ->
  exists a,
    _detect_temporal_anomalies d sid = Ok [a] /\
    anomaly_type a = SEASONAL_DEVIATION /\
    severity a = HIGH.
Proof.
  intros Hget Hlast Hlong bucket m s Hs Hd.
  unfold _detect_temporal_anomalies. rewrite Hget. cbn [bind].
  replace (len readings <? 24) with false
    by (symmetry; apply Z.ltb_ge; lia).
  rewrite Hlast. cbn [bind].
  rewrite (hourly_patterns_latest readings latest Hlast).
  fold bucket. fold m. fold s.
  rewrite (Rgtb_true s 0) by exact Hs.
  rewrite checked_div_nonzero by lra. cbn [bind].
  rewrite Rgtb_true by lra.
  eexists. split; [exact eq_refl|]. cbn. split; [reflexivity|].
  now rewrite Rgtb_true.
Qed.

Lemma burst_earlier_bucket sklearn :
  hour_bucket (removelast (stored (burst_detector sklearn) "hvac_001")) 14
  = map IZR (repeat 0 23).
Proof. evaluate. Qed.

Lemma pd_std_zeros : pd_std (map IZR (repeat 0 23)) = Some 0%R.
Proof.
  unfold pd_std. replace (length (map IZR (repeat 0%Z 23)) <? 2)%nat
    with false by evaluate.
  f_equal. rewrite <- sqrt_0. f_equal. stats. lra.
Qed.

(** C8 as stated fails: the window holds 24 readings, all of the hour 14;
    the 23 before the latest are 0, so that the readings of the hour before
    the latest have a deviation of zero, and the check flags the latest
    reading, 24, with a HIGH anomaly: the deviation it tests is that of the
    hour's readings with the latest among them. *)
Lemma zero_deviation_before_the_latest_is_flagged :
  len (stored (burst_detector quiet_forest) "hvac_001") >= 24 /\
  (exists latest,
     last_item (stored (burst_detector quiet_forest) "hvac_001")
     = Ok latest /\
     pd_std
       (hour_bucket
          (removelast (stored (burst_detector quiet_forest) "hvac_001"))
          (hour (r_timestamp latest)))
     = Some 0%R) /\
  exists a,
    _detect_temporal_anomalies (burst_detector quiet_forest) "hvac_001"
    = Ok [a] /\
    anomaly_type a = SEASONAL_DEVIATION /\
    severity a = HIGH.
Proof.
  assert (Hget : getitem (burst_detector quiet_forest) "hvac_001"
                 = Ok (stored (burst_detector quiet_forest) "hvac_001"))
    by evaluate.
  assert (Hlast : last_item (stored (burst_detector quiet_forest)
                               "hvac_001")
                  = Ok (reading_of
                          (sample_call "hvac_001" "temperature"
                             (Some "test_zone") 1003560 24)))
    by evaluate.
  assert (Hlong : len (stored (burst_detector quiet_forest) "hvac_001")
                  >= 24) by (lazy; intro H; discriminate H).
  assert (Hhour : hour (r_timestamp
                          (reading_of
                             (sample_call "hvac_001" "temperature"
                                (Some "test_zone") 1003560 24))) = 14)
    by evaluate.
  split; [exact Hlong|]. split.
  - eexists. split; [exact Hlast|].
    rewrite Hhour, burst_earlier_bucket. exact pd_std_zeros.
  - pose proof (_detect_temporal_anomalies_far
                  (burst_detector quiet_forest) "hvac_001" _ _
                  Hget Hlast Hlong) as H.
    cbv zeta in H. rewrite Hhour in H.
    rewrite burst_bucket, burst_mean, burst_std in H.
    replace (r_value
               (reading_of
                  (sample_call "hvac_001" "temperature" (Some "test_zone")
                     1003560 24))) with 24%R in H by evaluate.
    pose proof sqrt_24_bounds as [Hlo Hhi].
    apply H; [lra|].
    rewrite Rabs_pos_eq by lra.
    apply Rlt_gt. apply (Rmult_lt_reg_r (sqrt 24)); [lra|].
    unfold Rdiv. rewrite Rmult_assoc, Rinv_l by lra. lra.
Qed.

(** ** The correlation check *)

Lemma clip_bounds x : (-1 <= clip (-1) 1 x <= 1)%R.
Proof.
  unfold clip. split.
  - apply Rmax_l.
  - apply Rmax_lub; [lra | apply Rmin_l].
Qed.

Lemma np_corrcoef_bounds x y c :
  np_corrcoef x y = Some c -> (-1 <= c <= 1)%R.
Proof.
  unfold np_corrcoef.
  destruct (Req_dec_T (sqrt (np_cov x x)) 0); [discriminate|].
  destruct (Req_dec_T (sqrt (np_cov y y)) 0); [discriminate|].
  intros H. inversion H. apply clip_bounds.
Qed.

Lemma analyze_shape d s1 s2 a :
  _analyze_sensor_correlation d s1 s2 = Ok (Some a) ->
  sensor_id a = s1 /\
  anomaly_type a = NETWORK_ISOLATION /\
  severity a = MEDIUM /\
  (1 / 2 < confidence a <= 2)%R /\
  description a = DescCorrelationBreakdown s2.
Proof.
  unfold _analyze_sensor_correlation. intros H.
  destruct (getitem d s1) as [r1|]; cbn [bind] in H; [|discriminate].
  destruct (getitem d s2) as [r2|]; cbn [bind] in H; [|discriminate].
  destruct (len _ <? 10); [discriminate|].
  destruct (np_corrcoef _ _) as [c|] eqn:Ec; [|discriminate].
  destruct (np_corrcoef (slice_last _ _) _) as [rc|] eqn:Er;
    [|discriminate].
  destruct (Rgtb _ _) eqn:Eg; [|discriminate].
  destruct (last_item r1); cbn [bind] in H; [|discriminate].
  inversion H; subst; clear H. cbn.
  apply Rgtb_true_iff in Eg.
  apply np_corrcoef_bounds in Ec. apply np_corrcoef_bounds in Er.
  repeat split; try lra.
  unfold Rabs. destruct (Rcase_abs (c - rc)); lra.
Qed.

Lemma correlated_sensors_spec d sid zone items : forall l,
  correlated_sensors d sid zone items = Ok l ->
  Forall (fun o =>
            o <> sid /\
            exists rs latest,
              In (o, rs) items /\
              min_samples_for_detection d <= len rs /\
              last_item rs = Ok latest /\
              truthy_zone zone = true /\
              zone_eqb (r_zone_id latest) zone = true) l.
Proof.
  induction items as [|[k v] items IH]; intros l H; simpl in H.
  - inversion H. constructor.
  - assert (Hweak : forall m,
              Forall (fun o =>
                        o <> sid /\
                        exists rs latest,
                          In (o, rs) items /\
                          min_samples_for_detection d <= len rs /\
                          last_item rs = Ok latest /\
                          truthy_zone zone = true /\
                          zone_eqb (r_zone_id latest) zone = true) m ->
              Forall (fun o =>
                        o <> sid /\
                        exists rs latest,
                          In (o, rs) ((k, v) :: items) /\
                          min_samples_for_detection d <= len rs /\
                          last_item rs = Ok latest /\
                          truthy_zone zone = true /\
                          zone_eqb (r_zone_id latest) zone = true) m).
    { intros m Hm. eapply Forall_impl; [|exact Hm].
      intros o [Ho [rs [latest [Hin Hrest]]]]. split; [exact Ho|].
      exists rs, latest. split; [now right | exact Hrest]. }
    destruct (String.eqb_spec k sid) as [Ek | Hne]; cbn [orb] in H;
      [now apply Hweak, IH|].
    destruct (Z.ltb_spec (len v) (min_samples_for_detection d))
      as [Hlt | Hge]; [now apply Hweak, IH|].
    destruct (last_item v) as [latest|] eqn:El; cbn [bind] in H;
      [|discriminate].
    destruct (correlated_sensors d sid zone items) as [more|];
      cbn [bind] in H; [|discriminate].
    destruct (truthy_zone zone) eqn:Et; cbn [andb] in H.
    + destruct (zone_eqb (r_zone_id latest) zone) eqn:Ez;
        inversion H; subst; clear H; [|now apply Hweak, IH].
      constructor; [|now apply Hweak, IH].
      split; [exact Hne|]. exists v, latest.
      split; [now left|]. repeat split; assumption.
    + inversion H; subst. now apply Hweak, IH.
Qed.

Lemma analyze_all_shape d sid others : forall l a,
  analyze_all d sid others = Ok l -> In a l ->
  exists other,
    In other others /\ _analyze_sensor_correlation d sid other = Ok (Some a).
Proof.
  induction others as [|o others IH]; intros l a H Ha; simpl in H.
  - inversion H; subst. contradiction.
  - destruct (_analyze_sensor_correlation d sid o) as [[x|]|] eqn:Ex;
      cbn [bind] in H; try discriminate;
      destruct (analyze_all d sid others) as [m|]; cbn [bind] in H;
      try discriminate; inversion H; subst; clear H.
    + destruct Ha as [<- | Ha].
      * exists o. split; [now left | exact Ex].
      * destruct (IH m a eq_refl Ha) as [other [Hin E]].
        exists other. split; [now right | exact E].
    + destruct (IH l a eq_refl Ha) as [other [Hin E]].
      exists other. split; [now right | exact E].
Qed.

(** The shape of the anomalies of the correlation check. *)
Lemma _detect_correlation_anomalies_shape :
  forall d sid l a,
    _detect_correlation_anomalies d sid = Ok l ->
    In a l ->
    sensor_id a = sid /\
    anomaly_type a = NETWORK_ISOLATION /\
    severity a = MEDIUM /\
    (1 / 2 < confidence a <= 2)%R /\
    exists other rs latest_other readings latest zone,
      description a = DescCorrelationBreakdown other /\
      other <> sid /\
      In (other, rs) (sensor_data d) /\
      min_samples_for_detection d <= len rs /\
      last_item rs = Ok latest_other /\
      getitem d sid = Ok readings /\
      last_item readings = Ok latest /\
      r_zone_id latest = Some zone /\
      zone <> "" /\
      r_zone_id latest_other = Some zone.
Proof.
  intros d sid l a H Ha. unfold _detect_correlation_anomalies in H.
  destruct (len (sensor_data d) <? 2);
    [inversion H; subst; contradiction|].
  destruct (getitem d sid) as [readings|] eqn:G; cbn [bind] in H;
    [|discriminate].
  destruct (last_item readings) as [latest|] eqn:Hl; cbn [bind] in H;
    [|discriminate].
  destruct (correlated_sensors d sid (r_zone_id latest) (sensor_data d))
    as [others|] eqn:Ec; cbn [bind] in H; [|discriminate].
  destruct others as [|o others]; [inversion H; subst; contradiction|].
  destruct (analyze_all_shape d sid _ l a H Ha) as [other [Hin Ea]].
  destruct (analyze_shape d sid other a Ea) as [H1 [H2 [H3 [H4 H5]]]].
  repeat (split; [assumption|]).
  pose proof (correlated_sensors_spec _ _ _ _ _ Ec) as Hspec.
  rewrite Forall_forall in Hspec.
  destruct (Hspec other Hin)
    as [Hne [rs [lo [Hitem [Hge [Hlo [Htz Hze]]]]]]].
  destruct (r_zone_id latest) as [zone|] eqn:Ez; [|discriminate].
  exists other, rs, lo, readings, latest, zone.
  repeat (split; [assumption || reflexivity|]).
  cbn [truthy_zone] in Htz. split.
  - intros ->. discriminate.
  - unfold zone_eqb in Hze. destruct (r_zone_id lo) as [zo|];
      [|discriminate].
    apply String.eqb_eq in Hze. now subst.
Qed.

(** X8: every anomaly the correlation check returns for a sensor is a
    MEDIUM NETWORK_ISOLATION anomaly of that sensor with a confidence above
    0.5 and at most 2, and it names another sensor of the store that has
    at least [min_samples_for_detection] readings and whose latest reading
    is in the same, non-empty zone as the sensor's latest reading. *)
Theorem correlation_anomalies_name_a_zone_mate :
  forall d sid l a,
    _detect_correlation_anomalies d sid = Ok l ->
    In a l ->
    sensor_id a = sid /\
    anomaly_type a = NETWORK_ISOLATION /\
    severity a = MEDIUM /\
    (1 / 2 < confidence a <= 2)%R /\
    exists other rs latest_other readings latest zone,
      description a = DescCorrelationBreakdown other /\
      other <> sid /\
      In (other, rs) (sensor_data d) /\
      min_samples_for_detection d <= len rs /\
      last_item rs = Ok latest_other /\
      getitem d sid = Ok readings /\
      last_item readings = Ok latest /\
      r_zone_id latest = Some zone /\
      zone <> "" /\
      r_zone_id latest_other = Some zone.
Proof. exact _detect_correlation_anomalies_shape. Qed.

Lemma pair_correlation sklearn :
  exists a,
    _detect_correlation_anomalies (pair_detector sklearn) "hvac_001"
    = Ok [a].
Proof.
  destruct (pair_analysis sklearn) as [a [Ea _]]. exists a.
  assert (G1 : getitem (pair_detector sklearn) "hvac_001"
               = Ok (stored (pair_detector sklearn) "hvac_001"))
    by evaluate.
  unfold _detect_correlation_anomalies.
  replace (len (sensor_data (pair_detector sklearn)) <? 2) with false
    by evaluate.
  rewrite G1. cbn [bind].
  replace (last_item (stored (pair_detector sklearn) "hvac_001"))
    with (Ok (reading_of
                (sample_call "hvac_001" "temperature"
                   (Some "test_zone") 1005700 19))) by evaluate.
  cbn [bind].
  replace (correlated_sensors (pair_detector sklearn) "hvac_001"
             (r_zone_id
                (reading_of
                   (sample_call "hvac_001" "temperature"
                      (Some "test_zone") 1005700 19)))
             (sensor_data (pair_detector sklearn)))
    with (@Ok (list string) ["hvac_002"]) by evaluate.
  cbn [bind analyze_all]. rewrite Ea. exact eq_refl.
Qed.

Lemma correlation_anomalies_name_a_zone_mate_witness :
  exists a,
    _detect_correlation_anomalies (pair_detector quiet_forest) "hvac_001"
    = Ok [a] /\
    severity a = MEDIUM /\
    (1 / 2 < confidence a <= 2)%R.
Proof.
  destruct (pair_correlation quiet_forest) as [a Ea].
  destruct (correlation_anomalies_name_a_zone_mate
              (pair_detector quiet_forest) "hvac_001" [a] a Ea
              (or_introl eq_refl))
    as [_ [_ [Hs [Hc _]]]].
  exists a. split; [exact Ea|]. split; [exact Hs | exact Hc].
Defined.

(** X9: the correlation check returns the empty list, if it returns, when
    the store holds fewer than two sensors or when the latest reading of
    the sensor has no zone or an empty one. *)
Theorem correlation_check_is_silent_without_zone :
  forall d sid l readings latest,
    _detect_correlation_anomalies d sid = Ok l ->
    len (sensor_data d) < 2 \/
    (getitem d sid = Ok readings /\ last_item readings = Ok latest /\
     truthy_zone (r_zone_id latest) = false) ->
    l = [].
Proof.
  intros d sid l readings latest H Hcase.
  destruct l as [|a l]; [reflexivity|]. exfalso.
  destruct (_detect_correlation_anomalies_shape d sid (a :: l) a H
              (or_introl eq_refl))
    as [_ [_ [_ [_ [other [rs [lo [rd [lt [zone Hx]]]]]]]]]].
  destruct Hx as [_ [_ [_ [_ [_ [G [Hl [Hz [Hne _]]]]]]]]].
  destruct Hcase as [Hfew | [G' [Hl' Ht]]].
  - unfold _detect_correlation_anomalies in H.
    replace (len (sensor_data d) <? 2) with true in H
      by (symmetry; apply Z.ltb_lt; exact Hfew).
    discriminate.
  - rewrite G in G'. inversion G'; subst rd.
    rewrite Hl in Hl'. inversion Hl'; subst lt.
    rewrite Hz in Ht. cbn [truthy_zone] in Ht.
    apply negb_false_iff, String.eqb_eq in Ht. contradiction.
Qed.

Lemma correlation_check_is_silent_without_zone_witness :
  exists l,
    _detect_correlation_anomalies (lonely_detector quiet_forest) "hvac_001"
    = Ok l /\ l = [].
Proof.
  assert (H : _detect_correlation_anomalies (lonely_detector quiet_forest)
                "hvac_001" = Ok []) by evaluate.
  exists []. split; [exact H|].
  apply (correlation_check_is_silent_without_zone
           (lonely_detector quiet_forest) "hvac_001" []
           [] (reading_of (sample_call "hvac_001" "temperature" None
                             1000000 21)) H).
  left. lazy. exact eq_refl.
Defined.

(** ** The alignment of two windows *)

Lemma set_In_Z {V : Type} (d : list (Z * V)) k v k0 v0 :
  In (k0, v0) (Dict.set Z.eqb d k v) ->
  (k0 = k /\ v0 = v) \/ In (k0, v0) d.
Proof.
  induction d as [|[k' v'] d IH]; simpl.
  - intros [H | []]. inversion H. now left.
  - destruct (Z.eqb_spec k k') as [-> | Hne]; simpl.
    + intros [H | H]; [inversion H; now left | right; now right].
    + intros [H | H]; [right; now left|].
      destruct (IH H) as [E | Hin]; [now left | right; now right].
Qed.

Lemma set_length_Z {V : Type} (d : list (Z * V)) k v :
  (length (Dict.set Z.eqb d k v) <= S (length d))%nat.
Proof.
  induction d as [|[k' v'] d IH]; simpl; [lia|].
  destruct (Z.eqb k k'); simpl; lia.
Qed.

Lemma timestamp_dict_In readings : forall acc k v,
  In (k, v)
    (fold_left (fun acc r => Dict.set Z.eqb acc (r_timestamp r) (r_value r))
       readings acc) ->
  In (k, v) acc \/
  exists r, In r readings /\ k = r_timestamp r /\ v = r_value r.
Proof.
  induction readings as [|r readings IH]; intros acc k v H; simpl in H.
  - now left.
  - destruct (IH _ _ _ H) as [Hin | [r' [Hr' E]]].
    + destruct (set_In_Z _ _ _ _ _ Hin) as [[Ek Ev] | Hacc].
      * right. exists r. split; [now left | now split].
      * now left.
    + right. exists r'. split; [now right | exact E].
Qed.

Lemma timestamp_dict_length readings : forall acc,
  (length
     (fold_left (fun acc r => Dict.set Z.eqb acc (r_timestamp r) (r_value r))
        readings acc)
   <= length acc + length readings)%nat.
Proof.
  induction readings as [|r readings IH]; intros acc; simpl; [lia|].
  specialize (IH (Dict.set Z.eqb acc (r_timestamp r) (r_value r))).
  pose proof (set_length_Z acc (r_timestamp r) (r_value r)). lia.
Qed.

Lemma flat_map_length_le {A B : Type} (f : A -> list B) l :
  (forall x, (length (f x) <= 1)%nat) ->
  (length (flat_map f l) <= length l)%nat.
Proof.
  intros Hf. induction l as [|x l IH]; simpl; [lia|].
  rewrite length_app. specialize (Hf x). lia.
Qed.

(** X10: every pair of the alignment holds the value of a reading of the
    first window and the value of a reading of the second whose timestamps
    are at most 60 seconds apart, and there are no more pairs than readings
    in the first window. *)
Theorem _align_sensor_readings_pairs :
  forall readings1 readings2,
    (forall v1 v2,
       In (v1, v2) (_align_sensor_readings readings1 readings2) ->
       exists r1 r2,
         In r1 readings1 /\ In r2 readings2 /\
         v1 = r_value r1 /\ v2 = r_value r2 /\
         Z.abs (r_timestamp r1 - r_timestamp r2)
         <= 60 * microseconds_per_second) /\
    (length (_align_sensor_readings readings1 readings2)
     <= length readings1)%nat.
Proof.
  intros readings1 readings2. unfold _align_sensor_readings. split.
  - intros v1 v2 H. apply in_flat_map in H.
    destruct H as [[ts1 val1] [H1 H]].
    match type of H with
    | context [find ?f ?l] => destruct (find f l) as [[ts2 val2]|] eqn:F
    end; [|contradiction].
    destruct H as [H | []]. inversion H; subst val1 val2; clear H.
    apply find_some in F. destruct F as [H2 Hnear].
    apply Z.leb_le in Hnear.
    unfold timestamp_dict in H1, H2.
    destruct (timestamp_dict_In _ _ _ _ H1) as [[] | [r1 [Hr1 [E1 E1']]]].
    destruct (timestamp_dict_In _ _ _ _ H2) as [[] | [r2 [Hr2 [E2 E2']]]].
    exists r1, r2. subst. repeat split; assumption.
  - etransitivity.
    + apply flat_map_length_le. intros [ts1 val1].
      match goal with
      | |- context [find ?f ?l] => destruct (find f l) as [[ts2 val2]|]
      end; simpl; lia.
    + unfold timestamp_dict.
      pose proof (timestamp_dict_length readings1 []). simpl in *. lia.
Qed.

(** ** What a new reading changes *)

Lemma last_item_snoc {A : Type} (l : list A) x : last_item (l ++ [x]) = Ok x.
Proof.
  induction l as [|a l IH]; [reflexivity|].
  cbn [app last_item]. destruct (l ++ [x]) eqn:E; [|exact IH].
  destruct l; discriminate.
Qed.

Lemma last_item_tl {A : Type} (l : list A) x :
  (2 <= length l)%nat -> last_item l = Ok x -> last_item (tl l) = Ok x.
Proof.
  destruct l as [|a [|b l]]; simpl; intros Hl H; try lia. exact H.
Qed.

Lemma latest_after_call d c :
  1 <= window_size d ->
  last_item (stored (call d c) (c_sensor_id c)) = Ok (reading_of c).
Proof.
  intros Hws. rewrite stored_call, String.eqb_refl. unfold limit, len.
  destruct (Z.gtb_spec
              (Z.of_nat (length (stored d (c_sensor_id c) ++ [reading_of c])))
              (window_size d)) as [Hgt | Hle].
  - apply last_item_tl; [lia | apply last_item_snoc].
  - apply last_item_snoc.
Qed.

(** X11: with a window size of at least one, after [add_sensor_reading]
    the latest stored reading of the sensor is the one just added (with the
    given timestamp, or the current time when none is given); the windows
    of the other sensors and the anomaly store are as before. *)
Theorem add_sensor_reading_stores_the_reading_last :
  forall now d sid value ts sensor_type zone meta,
    1 <= window_size d ->
    let d' := add_sensor_reading now d sid value ts sensor_type zone meta in
    last_item (stored d' sid)
    = Ok (mkReading (match ts with None => now | Some t => t end)
            value sensor_type zone meta) /\
    (forall other, other <> sid -> stored d' other = stored d other) /\
    detected_anomalies d' = detected_anomalies d.
Proof.
  intros now d sid value ts sensor_type zone meta Hws d'.
  change d' with (call d (mkCall now sid value ts sensor_type zone meta)).
  split; [|split].
  - exact (latest_after_call d
             (mkCall now sid value ts sensor_type zone meta) Hws).
  - intros other Hne. rewrite stored_call. cbn [c_sensor_id].
    destruct (String.eqb_spec sid other); [congruence | reflexivity].
  - reflexivity.
Qed.

Lemma add_sensor_reading_stores_the_reading_last_witness :
  last_item
    (stored
       (add_sensor_reading 7 (AnomalyDetector_default quiet_forest)
          "hvac_001" 21 None "temperature" None []) "hvac_001")
  = Ok (mkReading 7 21 "temperature" None []).
Proof.
  apply (add_sensor_reading_stores_the_reading_last 7
           (AnomalyDetector_default quiet_forest) "hvac_001" 21 None
           "temperature" None []).
  simpl. lia.
Defined.

(** X12: after any calls of [add_sensor_reading] on a fresh detector with a
    window size of at least one, the keys of the store are exactly the
    sensors that received a reading, and every stored window holds a
    reading. *)
Theorem store_holds_the_sensors_that_were_read :
  forall sklearn ws c m na cs,
    1 <= ws ->
    let d := run_calls (AnomalyDetector_init sklearn ws c m na) cs in
    (forall sid,
       In sid (Dict.keys (sensor_data d)) <-> added_for sid cs <> []) /\
    (forall sid readings, getitem d sid = Ok readings -> readings <> []).
Proof.
  intros sklearn ws c m na cs Hws d. split.
  - intros sid. apply keys_run_calls.
  - intros sid readings. apply getitem_nonempty.
    apply run_calls_store_nonempty; [exact Hws | constructor].
Qed.

Lemma store_holds_the_sensors_that_were_read_witness :
  In "light_001"
    (Dict.keys
       (sensor_data
          (run_calls
             (AnomalyDetector_init quiet_forest 2 (5 / 100)%R 20 true)
             three_and_one))) <->
  added_for "light_001" three_and_one <> [].
Proof.
  apply (store_holds_the_sensors_that_were_read quiet_forest 2
           (5 / 100)%R 20 true three_and_one).
  lia.
Defined.

(** ** Pruning and summarising the store *)

Lemma filter_length_split {A : Type} (f : A -> bool) l :
  len (filter f l) + len (filter (fun x => negb (f x)) l) = len l.
Proof.
  unfold len. induction l as [|a l IH]; [reflexivity|].
  cbn [filter]. destruct (f a); cbn [negb length];
    rewrite ?Nat2Z.inj_succ; lia.
Qed.

Lemma filter_filter_same {A : Type} (f : A -> bool) l :
  filter f (filter f l) = filter f l.
Proof.
  induction l as [|a l IH]; [reflexivity|].
  cbn [filter]. destruct (f a) eqn:E; [|exact IH].
  cbn [filter]. now rewrite E, IH.
Qed.

Lemma filter_filter_weaker {A : Type} (f g : A -> bool) l :
  (forall x, f x = true -> g x = true) ->
  filter f (filter g l) = filter f l.
Proof.
  intros Himp. induction l as [|a l IH]; [reflexivity|].
  cbn [filter]. destruct (g a) eqn:G.
  - cbn [filter]. now rewrite IH.
  - destruct (f a) eqn:F; [|exact IH].
    apply Himp in F. congruence.
Qed.

(** X13: [clear_old_anomalies] keeps, in order, exactly the stored
    anomalies that are not older than the cutoff (the store becomes its own
    sublist of those anomalies), returns the number of those that are
    older, and leaves the windows alone; a second call with the same clock
    reading removes nothing. *)
Theorem clear_old_anomalies_removes_the_old :
  forall now d days,
    let cutoff := now - timedelta_days days in
    let d' := fst (clear_old_anomalies now d days) in
    let removed := snd (clear_old_anomalies now d days) in
    detected_anomalies d'
    = filter (fun a => cutoff <=? timestamp a) (detected_anomalies d) /\
    (forall a,
       In a (detected_anomalies d') <->
       In a (detected_anomalies d) /\ cutoff <= timestamp a) /\
    removed
    = len (filter (fun a => timestamp a <? cutoff) (detected_anomalies d)) /\
    removed + len (detected_anomalies d') = len (detected_anomalies d) /\
    sensor_data d' = sensor_data d /\
    clear_old_anomalies now d' days = (d', 0).
Proof.
  intros now d days cutoff d' removed.
  unfold d', removed, clear_old_anomalies. cbn [fst snd].
  cbn [with_detected_anomalies detected_anomalies sensor_data].
  fold cutoff.
  pose proof (filter_length_split (fun a => timestamp a >=? cutoff)
                (detected_anomalies d)) as Hsplit.
  assert (Hneg : filter (fun a => negb (timestamp a >=? cutoff))
                   (detected_anomalies d)
                 = filter (fun a => timestamp a <? cutoff)
                     (detected_anomalies d)).
  { apply filter_ext. intros a.
    destruct (Z.geb_spec (timestamp a) cutoff),
             (Z.ltb_spec (timestamp a) cutoff); simpl; try reflexivity; lia. }
  cbv beta in Hsplit. rewrite Hneg in Hsplit.
  split; [|split; [|split; [|split; [|split]]]].
  - apply filter_ext. intros a. apply Z.geb_leb.
  - intros a. rewrite filter_In.
    destruct (Z.geb_spec (timestamp a) cutoff);
      intuition (try lia; try discriminate).
  - lia.
  - lia.
  - reflexivity.
  - rewrite filter_filter_same. f_equal. lia.
Qed.

(** X14: pruning does not change a summary whose window is not longer than
    the retention: for [hours] hours within [days] days,
    [get_anomaly_summary] gives the same result before and after
    [clear_old_anomalies], at the same clock reading. *)
Theorem summary_survives_pruning :
  forall now d days hours,
    timedelta_hours hours <= timedelta_days days ->
    get_anomaly_summary now (fst (clear_old_anomalies now d days)) hours
    = get_anomaly_summary now d hours.
Proof.
  intros now d days hours Hle.
  unfold get_anomaly_summary, clear_old_anomalies. cbn [fst].
  cbn [with_detected_anomalies detected_anomalies].
  rewrite filter_filter_weaker; [reflexivity|].
  intros a Ha. apply Z.geb_le in Ha. apply Z.geb_le. lia.
Qed.

Lemma summary_survives_pruning_witness :
  get_anomaly_summary 0 (fst (clear_old_anomalies 0
                                (lonely_detector quiet_forest) 7)) 24
  = get_anomaly_summary 0 (lonely_detector quiet_forest) 24.
Proof.
  apply summary_survives_pruning.
  unfold timedelta_hours, timedelta_days, microseconds_per_hour,
    microseconds_per_second. lia.
Defined.

Lemma dedup_acc l : forall acc x,
  In x (fold_left (fun acc s => if existsb (String.eqb s) acc then acc
                                else acc ++ [s]) l acc) <->
  In x acc \/ In x l.
Proof.
  induction l as [|s l IH]; intros acc x; simpl; [tauto|].
  rewrite IH. destruct (existsb (String.eqb s) acc) eqn:E.
  - apply existsb_exists in E. destruct E as [y [Hy Ey]].
    apply String.eqb_eq in Ey. subst y.
    split; [tauto|]. intros [H | [<- | H]]; auto.
  - rewrite in_app_iff. simpl. tauto.
Qed.

Lemma dedup_acc_NoDup l : forall acc,
  NoDup acc ->
  NoDup (fold_left (fun acc s => if existsb (String.eqb s) acc then acc
                                 else acc ++ [s]) l acc).
Proof.
  induction l as [|s l IH]; intros acc Hnd; simpl; [exact Hnd|].
  apply IH. destruct (existsb (String.eqb s) acc) eqn:E; [exact Hnd|].
  apply NoDup_app; [exact Hnd | constructor; [intros [] | constructor] |].
  intros y Hy [Ey | []]. subst y.
  assert (existsb (String.eqb s) acc = true)
    by (apply existsb_exists; exists s; split;
        [exact Hy | apply String.eqb_refl]).
  congruence.
Qed.

Lemma SeverityLevel_eqb_eq a b : SeverityLevel_eqb a b = true <-> a = b.
Proof. destruct a, b; simpl; split; congruence. Qed.

(** X15: [critical_sensors] lists each sensor once, and a sensor is listed
    exactly when the store holds a CRITICAL anomaly of it inside the
    window. *)
Theorem critical_sensors_are_the_sensors_with_a_critical_anomaly :
  forall now d hours,
    let s := get_anomaly_summary now d hours in
    NoDup (critical_sensors s) /\
    forall sid,
      In sid (critical_sensors s) <->
      exists a,
        In a (detected_anomalies d) /\
        sensor_id a = sid /\
        severity a = CRITICAL /\
        now - timedelta_hours hours <= timestamp a.
Proof.
  intros now d hours. cbn [get_anomaly_summary critical_sensors].
  unfold dedup. split.
  - apply dedup_acc_NoDup. constructor.
  - intros sid. rewrite dedup_acc. cbn [In]. rewrite in_map_iff. split.
    + intros [[] | [a [Ea Ha]]].
      apply filter_In in Ha. destruct Ha as [Ha Hc].
      apply filter_In in Ha. destruct Ha as [Ha Hw].
      exists a. repeat split; try assumption.
      * now apply SeverityLevel_eqb_eq.
      * now apply Z.geb_le.
    + intros [a [Ha [Ea [Hc Hw]]]]. right. exists a. split; [exact Ea|].
      apply filter_In. split; [|now apply SeverityLevel_eqb_eq].
      apply filter_In. split; [exact Ha | now apply Z.geb_le].
Qed.

Lemma filter_length_weaker {A : Type} (f g : A -> bool) l :
  (forall x, f x = true -> g x = true) ->
  len (filter f l) <= len (filter g l) <= len l.
Proof.
  intros Himp. unfold len. induction l as [|a l IH]; [simpl; lia|].
  cbn [filter]. destruct (f a) eqn:F.
  - rewrite (Himp a F). cbn [length]. lia.
  - destruct (g a); cbn [length]; lia.
Qed.

(** X16: a longer window never counts fewer anomalies, and no window counts
    more than the store holds. *)
Theorem total_anomalies_grows_with_the_window :
  forall now d hours1 hours2,
    hours1 <= hours2 ->
    total_anomalies (get_anomaly_summary now d hours1)
    <= total_anomalies (get_anomaly_summary now d hours2)
    <= len (detected_anomalies d).
Proof.
  intros now d hours1 hours2 Hle. cbn [get_anomaly_summary total_anomalies].
  apply filter_length_weaker. intros a Ha.
  apply Z.geb_le in Ha. apply Z.geb_le.
  unfold timedelta_hours, microseconds_per_hour, microseconds_per_second
    in *. lia.
Qed.

Lemma total_anomalies_grows_with_the_window_witness :
  total_anomalies (get_anomaly_summary 0 (lonely_detector quiet_forest) 1)
  <= total_anomalies (get_anomaly_summary 0 (lonely_detector quiet_forest) 24)
  <= len (detected_anomalies (lonely_detector quiet_forest)).
Proof.
  apply total_anomalies_grows_with_the_window. lia.
Defined.

(** ** When the detection returns, and returns nothing *)

(** X17: without a list of sensors [detect_anomalies] raises nothing on a
    store whose windows all hold a reading: it returns a list. *)
Theorem detect_anomalies_of_all_sensors_returns :
  forall d,
    store_nonempty d ->
    exists d' l, detect_anomalies d None = Ok (d', l).
Proof.
  intros d Hs. unfold detect_anomalies.
  destruct (detect_sensors_returns d (Dict.keys (sensor_data d)) Hs)
    as [l E]; [intros sid H; exact H|].
  rewrite E. cbn [bind]. eexists. eexists. exact eq_refl.
Qed.

Lemma detect_anomalies_of_all_sensors_returns_witness :
  exists d' l, detect_anomalies (pair_detector quiet_forest) None = Ok (d', l).
Proof.
  apply detect_anomalies_of_all_sensors_returns. apply pair_store.
Defined.

Lemma detect_sensors_short d ids :
  (forall sid, In sid ids ->
     exists readings,
       getitem d sid = Ok readings /\
       len readings < min_samples_for_detection d) ->
  detect_sensors d ids = Ok [].
Proof.
  induction ids as [|sid ids IH]; intros Hall; [reflexivity|].
  cbn [detect_sensors].
  destruct (Hall sid (or_introl eq_refl)) as [readings [G Hshort]].
  rewrite G. cbn [bind].
  replace (len readings <? min_samples_for_detection d) with true
    by (symmetry; apply Z.ltb_lt; exact Hshort).
  apply IH. intros x Hx. apply Hall. now right.
Qed.

(** X18: when every examined sensor has fewer than
    [min_samples_for_detection] readings and the network check is off
    (network analysis disabled, or no graph, or a graph without nodes),
    [detect_anomalies] returns the empty list and the anomaly store is as
    before. *)
Theorem detect_anomalies_below_the_sample_minimum :
  forall d ids,
    (forall sid,
       In sid (match ids with
               | None => Dict.keys (sensor_data d)
               | Some l => l
               end) ->
       exists readings,
         getitem d sid = Ok readings /\
         len readings < min_samples_for_detection d) ->
    network_analysis d = false \/ truthy_graph (network_graph d) = false ->
    exists d',
      detect_anomalies d ids = Ok (d', []) /\
      detected_anomalies d' = detected_anomalies d /\
      sensor_data d' = sensor_data d.
Proof.
  intros d ids Hall Hoff. unfold detect_anomalies.
  rewrite (detect_sensors_short d _ Hall). cbn [bind].
  replace (network_analysis d && truthy_graph (network_graph d))
    with false
    by (destruct Hoff as [-> | ->];
        [reflexivity | now rewrite andb_false_r]).
  eexists. split; [exact eq_refl|].
  cbn [with_detected_anomalies detected_anomalies sensor_data].
  now rewrite app_nil_r.
Qed.

Lemma detect_anomalies_below_the_sample_minimum_witness :
  exists d',
    detect_anomalies
      (run_calls (AnomalyDetector_default quiet_forest) three_and_one) None
    = Ok (d', []).
Proof.
  destruct (detect_anomalies_below_the_sample_minimum
              (run_calls (AnomalyDetector_default quiet_forest)
                 three_and_one) None) as [d' [H _]].
  - replace (Dict.keys
               (sensor_data
                  (run_calls (AnomalyDetector_default quiet_forest)
                     three_and_one)))
      with ["hvac_001"; "light_001"] by evaluate.
    intros sid [<- | [<- | []]].
    + eexists. split; [evaluate | lazy; exact eq_refl].
    + eexists. split; [evaluate | lazy; exact eq_refl].
  - right. exact eq_refl.
  - exists d'. exact H.
Defined.

(** * Properties of the monitoring system *)

(** ** Alerts *)

Lemma severity_order_get_value sev default :
  severity_order_get (SeverityLevel_value sev) default = severity_order sev.
Proof. destruct sev; reflexivity. Qed.

Lemma severity_order_get_unknown key default :
  (forall sev, key <> SeverityLevel_value sev) ->
  severity_order_get key default = default.
Proof.
  intros H. unfold severity_order_get, severity_order_table.
  cbn [Dict.get].
  destruct (String.eqb_spec key "low") as [E|_];
    [exfalso; exact (H LOW E)|].
  destruct (String.eqb_spec key "medium") as [E|_];
    [exfalso; exact (H MEDIUM E)|].
  destruct (String.eqb_spec key "high") as [E|_];
    [exfalso; exact (H HIGH E)|].
  destruct (String.eqb_spec key "critical") as [E|_];
    [exfalso; exact (H CRITICAL E)|].
  reflexivity.
Qed.

Lemma process_alerts_loop_spec clock level anomalies : forall i alerts,
  process_alerts_loop clock level anomalies i alerts
  = alerts
    ++ stamp clock i
         (filter (fun a => level <=? severity_order (severity a)) anomalies).
Proof.
  induction anomalies as [|a anomalies IH]; intros i alerts;
    cbn [process_alerts_loop filter].
  - cbn [stamp]. now rewrite app_nil_r.
  - rewrite severity_order_get_value.
    replace (severity_order (severity a) >=? level)
      with (level <=? severity_order (severity a))
      by (destruct (Z.leb_spec level (severity_order (severity a))),
                   (Z.geb_spec (severity_order (severity a)) level);
          try reflexivity; lia).
    destruct (level <=? severity_order (severity a)).
    + rewrite IH. cbn [stamp]. now rewrite <- app_assoc.
    + apply IH.
Qed.

(** X19: [_process_alerts] appends to the alert history one alert for each
    anomaly whose severity rank (low 0, medium 1, high 2, critical 3) is at
    least the rank of the configured threshold, in the order of the
    anomalies and with their fields; a threshold that is none of the four
    names counts as medium. Nothing else of the system changes. *)
Theorem _process_alerts_appends_alerts_from_the_threshold_up :
  forall (Building : Type) clock (s : System Building) anomalies,
    let level := severity_order_get (alert_threshold (config s)) 1 in
    let s' := _process_alerts clock s anomalies in
    alert_history s'
    = alert_history s
      ++ stamp clock 0
           (filter (fun a => level <=? severity_order (severity a))
              anomalies) /\
    (forall sev,
       alert_threshold (config s) = SeverityLevel_value sev ->
       level = severity_order sev) /\
    ((forall sev, alert_threshold (config s) <> SeverityLevel_value sev) ->
     level = severity_order MEDIUM) /\
    anomaly_detector s' = anomaly_detector s /\
    reading_history s' = reading_history s /\
    total_readings s' = total_readings s /\
    total_anomalies_found s' = total_anomalies_found s.
Proof.
  intros Building clock s anomalies level s'.
  split; [apply process_alerts_loop_spec|].
  split; [intros sev E; unfold level; rewrite E;
          apply severity_order_get_value|].
  split; [intros H; unfold level;
          now rewrite severity_order_get_unknown|].
  repeat split.
Qed.

(** ** Collecting the readings *)

Lemma collect_loop_spec timestamp sweep : forall detector readings total,
  collect_loop timestamp sweep detector readings total
  = (run_calls detector (sweep_calls timestamp sweep),
     fold_left record_entry sweep readings,
     total + measured_count sweep).
Proof.
  induction sweep as [|[sid answer] sweep IH]; intros detector readings total.
  - cbn. now rewrite Z.add_0_r.
  - destruct answer; cbn [collect_loop sweep_calls measured_count fold_left];
      rewrite IH; unfold run_calls; cbn [fold_left];
      unfold record_entry at 2; cbn [sweep_entry fst snd].
    + reflexivity.
    + reflexivity.
    + f_equal. lia.
Qed.

Lemma added_for_unmeasured timestamp sweep sid :
  (forall v u q st z m, ~ In (sid, Measured v u q st z m) sweep) ->
  added_for sid (sweep_calls timestamp sweep) = [].
Proof.
  induction sweep as [|[k answer] sweep IH]; intros Hno; [reflexivity|].
  assert (Hrest : forall v u q st z m,
            ~ In (sid, Measured v u q st z m) sweep)
    by (intros v u q st z m H; apply (Hno v u q st z m); now right).
  destruct answer; cbn [sweep_calls]; try (now apply IH).
  unfold added_for. cbn [filter c_sensor_id].
  destruct (String.eqb_spec k sid) as [-> | Hne].
  - exfalso. eapply Hno. left. reflexivity.
  - now apply IH.
Qed.

Lemma added_for_measured timestamp sweep sid v u q st z m :
  NoDup (map fst sweep) ->
  In (sid, Measured v u q st z m) sweep ->
  added_for sid (sweep_calls timestamp sweep)
  = [mkReading timestamp v st z m].
Proof.
  induction sweep as [|[k answer] sweep IH]; intros Hnd Hin;
    [contradiction|].
  cbn [map fst] in Hnd. inversion Hnd as [|? ? Hk Hnd']; subst.
  destruct Hin as [E | Hin].
  - inversion E; subst; clear E. cbn [sweep_calls].
    unfold added_for. cbn [filter c_sensor_id]. rewrite String.eqb_refl.
    cbn [map]. f_equal.
    apply added_for_unmeasured. intros v' u' q' st' z' m' H.
    apply Hk. apply in_map_iff. now exists (sid, Measured v' u' q' st' z' m').
  - assert (Hne : k <> sid).
    { intros ->. apply Hk. apply in_map_iff.
      now exists (sid, Measured v u q st z m). }
    destruct answer; cbn [sweep_calls]; try (now apply IH).
    unfold added_for. cbn [filter c_sensor_id].
    destruct (String.eqb_spec k sid); [contradiction|]. now apply IH.
Qed.

Lemma stored_run_calls_frame cs : forall d sid,
  added_for sid cs = [] -> stored (run_calls d cs) sid = stored d sid.
Proof.
  induction cs as [|c cs IH]; intros d sid H; [reflexivity|].
  cbn [run_calls fold_left]. unfold added_for in H. cbn [filter] in H.
  destruct (String.eqb (c_sensor_id c) sid) eqn:E; [discriminate|].
  fold (run_calls (call d c) cs). rewrite IH by exact H.
  now rewrite stored_call, E.
Qed.

Lemma latest_run_calls cs : forall d sid r,
  1 <= window_size d ->
  added_for sid cs = [r] ->
  last_item (stored (run_calls d cs) sid) = Ok r.
Proof.
  induction cs as [|c cs IH]; intros d sid r Hws H; [discriminate|].
  cbn [run_calls fold_left]. fold (run_calls (call d c) cs).
  unfold added_for in H. cbn [filter] in H.
  destruct (String.eqb_spec (c_sensor_id c) sid) as [E | Hne].
  - cbn [map] in H. inversion H as [[Hr Hrest]].
    rewrite stored_run_calls_frame by exact Hrest.
    subst sid. now apply latest_after_call.
  - apply IH; [now rewrite window_size_call | exact H].
Qed.

Lemma detected_anomalies_run_calls cs : forall d,
  detected_anomalies (run_calls d cs) = detected_anomalies d.
Proof.
  induction cs as [|c cs IH]; intros d; [reflexivity|].
  cbn [run_calls fold_left]. fold (run_calls (call d c) cs). now rewrite IH.
Qed.

(** X20: one collection, over sensors with distinct ids and a detector of
    window size at least one: [total_readings] grows by the number of
    sensors that returned a reading; each of them has that reading, with
    the timestamp of the collection, as the latest of its window; the
    windows of the sensors that are inactive or failed are as before; the
    anomaly store and the alert history are untouched. *)
Theorem collection_feeds_each_reading_to_the_detector :
  forall (Building : Type) (s : System Building) timestamp sweep state,
    NoDup (map fst sweep) ->
    1 <= window_size (anomaly_detector s) ->
    let s' := _collect_sensor_readings timestamp sweep state s in
    total_readings s' = total_readings s + measured_count sweep /\
    (forall sid v u q st z m,
       In (sid, Measured v u q st z m) sweep ->
       last_item (stored (anomaly_detector s') sid)
       = Ok (mkReading timestamp v st z m)) /\
    (forall sid,
       (forall v u q st z m, ~ In (sid, Measured v u q st z m) sweep) ->
       stored (anomaly_detector s') sid = stored (anomaly_detector s) sid) /\
    detected_anomalies (anomaly_detector s')
    = detected_anomalies (anomaly_detector s) /\
    alert_history s' = alert_history s.
Proof.
  intros Building s timestamp sweep state Hnd Hws s'.
  unfold s', _collect_sensor_readings. rewrite collect_loop_spec.
  cbn [total_readings anomaly_detector alert_history].
  split; [reflexivity|]. split; [|split; [|split]].
  - intros sid v u q st z m Hin. apply latest_run_calls; [exact Hws|].
    now apply (added_for_measured timestamp sweep sid v u q st z m).
  - intros sid Hno. apply stored_run_calls_frame.
    now apply added_for_unmeasured.
  - apply detected_anomalies_run_calls.
  - reflexivity.
Qed.

Lemma mixed_sweep_distinct : NoDup (map fst mixed_sweep).
Proof.
  repeat constructor; cbn; intros H;
    repeat (destruct H as [H | H]; [discriminate H|]); exact H.
Qed.

Lemma collection_feeds_each_reading_to_the_detector_witness :
  total_readings (_collect_sensor_readings 7 mixed_sweep idle_state
                    fresh_system) = 0 + measured_count mixed_sweep /\
  last_item
    (stored
       (anomaly_detector
          (_collect_sensor_readings 7 mixed_sweep idle_state fresh_system))
       "hvac_001")
  = Ok (mkReading 7 21 "temperature" (Some "test_zone") []).
Proof.
  assert (Hws : 1 <= window_size (anomaly_detector fresh_system))
    by (cbn; lia).
  destruct (collection_feeds_each_reading_to_the_detector unit fresh_system
              7 mixed_sweep idle_state mixed_sweep_distinct Hws)
    as [Ht [Hm _]].
  split; [exact Ht|].
  apply (Hm "hvac_001" 21%R "C" 1%R "temperature" (Some "test_zone") []).
  left. exact eq_refl.
Defined.

(** ** The reading history *)

Lemma record_entry_frame sweep sid : forall readings,
  ~ In sid (map fst sweep) ->
  Dict.get String.eqb (fold_left record_entry sweep readings) sid
  = Dict.get String.eqb readings sid.
Proof.
  induction sweep as [|[k a] sweep IH]; intros readings Hout;
    [reflexivity|].
  cbn [fold_left]. rewrite IH by (intros H; apply Hout; now right).
  unfold record_entry. cbn [fst snd].
  destruct (sweep_entry a); [|reflexivity].
  apply get_set_other. intros ->. apply Hout. now left.
Qed.

Lemma record_entry_get sweep sid a : forall readings,
  NoDup (map fst sweep) ->
  In (sid, a) sweep ->
  Dict.get String.eqb (fold_left record_entry sweep readings) sid
  = match sweep_entry a with
    | Some entry => Some entry
    | None => Dict.get String.eqb readings sid
    end.
Proof.
  induction sweep as [|[k b] sweep IH]; intros readings Hnd Hin;
    [contradiction|].
  cbn [map fst] in Hnd. inversion Hnd as [|? ? Hk Hnd']; subst.
  cbn [fold_left]. destruct Hin as [E | Hin].
  - inversion E; subst; clear E. rewrite record_entry_frame by exact Hk.
    unfold record_entry. cbn [fst snd].
    destruct (sweep_entry a); [apply get_set_same | reflexivity].
  - assert (Hne : k <> sid).
    { intros ->. apply Hk. apply in_map_iff. now exists (sid, a). }
    rewrite IH by assumption.
    destruct (sweep_entry a); [reflexivity|].
    unfold record_entry. cbn [fst snd].
    destruct (sweep_entry b); [|reflexivity].
    now apply get_set_other.
Qed.

(** X21: a collection with [save_history] on and [max_history_size >= 1]
    ends the reading history with a snapshot that carries the timestamp of
    the collection and, for sensors with distinct ids, a value entry for
    each sensor that answered, an error entry for each sensor that failed
    and no entry for an inactive sensor. The history never grows beyond the
    larger of its previous length and [max_history_size], and with
    [save_history] off it is unchanged. *)
Theorem collection_appends_a_bounded_snapshot :
  forall (Building : Type) (s : System Building) timestamp sweep state,
    let s' := _collect_sensor_readings timestamp sweep state s in
    len (reading_history s')
    <= Z.max (len (reading_history s)) (max_history_size (config s)) /\
    (save_history (config s) = false ->
     reading_history s' = reading_history s) /\
    (save_history (config s) = true ->
     1 <= max_history_size (config s) ->
     NoDup (map fst sweep) ->
     exists snapshot,
       last_item (reading_history s') = Ok snapshot /\
       snapshot_timestamp snapshot = timestamp /\
       snapshot_building_summary snapshot = state /\
       (forall sid answer,
          In (sid, answer) sweep ->
          Dict.get String.eqb (snapshot_readings snapshot) sid
          = sweep_entry answer) /\
       (forall sid,
          ~ In sid (map fst sweep) ->
          Dict.get String.eqb (snapshot_readings snapshot) sid = None)).
Proof.
  intros Building s timestamp sweep state s'.
  unfold s', _collect_sensor_readings. rewrite collect_loop_spec.
  cbn [reading_history].
  set (snap := mkSnapshot timestamp (fold_left record_entry sweep []) state).
  split; [|split].
  - destruct (save_history (config s)); [|lia].
    unfold len.
    destruct (Z.gtb_spec
                (Z.of_nat (length (reading_history s ++ [snap])))
                (max_history_size (config s))) as [Hgt | Hle].
    + rewrite length_app in Hgt. cbn [length] in Hgt.
      destruct (reading_history s) as [|x h]; cbn [app tl length].
      * lia.
      * rewrite length_app. cbn [length]. lia.
    + lia.
  - intros ->. reflexivity.
  - intros -> Hmax Hnd. exists snap. split; [|split; [|split; [|split]]].
    + unfold len.
      destruct (Z.gtb_spec
                  (Z.of_nat (length (reading_history s ++ [snap])))
                  (max_history_size (config s))) as [Hgt | Hle].
      * apply last_item_tl; [|apply last_item_snoc].
        rewrite length_app in *. cbn [length] in *. lia.
      * apply last_item_snoc.
    + reflexivity.
    + reflexivity.
    + intros sid answer Hin. cbn [snap snapshot_readings].
      rewrite (record_entry_get sweep sid answer [] Hnd Hin).
      now destruct (sweep_entry answer).
    + intros sid Hout. cbn [snap snapshot_readings].
      now rewrite record_entry_frame.
Qed.

Lemma collection_appends_a_bounded_snapshot_witness :
  exists snapshot,
    last_item
      (reading_history
         (_collect_sensor_readings 7 mixed_sweep idle_state fresh_system))
    = Ok snapshot /\
    Dict.get String.eqb (snapshot_readings snapshot) "light_001"
    = Some (EntryError "Sensor light_001 has failed").
Proof.
  destruct (collection_appends_a_bounded_snapshot unit fresh_system 7
              mixed_sweep idle_state) as [_ [_ H]].
  destruct (H eq_refl ltac:(cbn; lia) mixed_sweep_distinct)
    as [snapshot [Hlast [_ [_ [Hin _]]]]].
  exists snapshot. split; [exact Hlast|].
  apply (Hin "light_001" (Failed "Sensor light_001 has failed")).
  right. left. exact eq_refl.
Defined.

(** ** Steps of the monitoring system *)

Lemma sort_reverse_length l : length (sort_reverse l) = length l.
Proof. apply Permutation_length, sort_reverse_perm. Qed.

Lemma collect_sound (Building : Type) (s : System Building)
    timestamp sweep state :
  detector_sound (anomaly_detector s) ->
  detector_sound
    (anomaly_detector (_collect_sensor_readings timestamp sweep state s)).
Proof.
  intros [Hs Hws]. unfold _collect_sensor_readings.
  rewrite collect_loop_spec. cbn [anomaly_detector]. split.
  - now apply run_calls_store_nonempty.
  - now rewrite window_size_run_calls.
Qed.

Lemma perform_returns (Building : Type) (s : System Building) clock graph :
  detector_sound (anomaly_detector s) ->
  exists s',
    _perform_anomaly_detection clock graph s = Ok s' /\
    sensor_data (anomaly_detector s') = sensor_data (anomaly_detector s) /\
    window_size (anomaly_detector s') = window_size (anomaly_detector s) /\
    total_readings s' = total_readings s /\
    is_running s' = is_running s /\
    total_anomalies_found s' - len (detected_anomalies (anomaly_detector s'))
    = total_anomalies_found s - len (detected_anomalies (anomaly_detector s)).
Proof.
  intros [Hs Hws]. unfold _perform_anomaly_detection.
  set (d := update_network_graph (anomaly_detector s) graph).
  assert (Hd : store_nonempty d) by now apply update_network_graph_store.
  destruct (detect_sensors_returns d (Dict.keys (sensor_data d)) Hd)
    as [per_sensor E]; [intros sid H; exact H|].
  assert (Hr : exists d' l, detect_anomalies d None = Ok (d', l)).
  { unfold detect_anomalies. rewrite E. cbn [bind].
    eexists. eexists. exact eq_refl. }
  destruct Hr as [d' [l Hr]]. rewrite Hr. cbn [bind fst snd].
  destruct (detect_anomalies_inv d None d' l Hr) as [found [-> ->]].
  destruct (sort_reverse found) as [|a l] eqn:El.
  - assert (found = []).
    { apply length_zero_iff_nil. rewrite <- sort_reverse_length, El.
      reflexivity. }
    subst found. eexists. split; [exact eq_refl|].
    cbn [anomaly_detector with_detected_anomalies sensor_data window_size
         detected_anomalies total_readings is_running
         total_anomalies_found].
    rewrite app_nil_r. repeat split.
  - assert (Hlen : len (a :: l) = len found)
      by (unfold len; now rewrite <- El, sort_reverse_length).
    assert (Happ : len (detected_anomalies (anomaly_detector s) ++ found)
                   = len (detected_anomalies (anomaly_detector s))
                     + len found)
      by (unfold len; rewrite length_app; lia).
    cbn [config enable_alerts].
    destruct (enable_alerts (config s)); eexists;
      (split; [exact eq_refl|]);
      cbn [_process_alerts anomaly_detector with_detected_anomalies
           sensor_data window_size detected_anomalies total_readings
           is_running total_anomalies_found];
      change (detected_anomalies d)
        with (detected_anomalies (anomaly_detector s));
      repeat split; lia.
Qed.

Lemma simulate_step_returns (Building : Type) (s : System Building) i :
  detector_sound (anomaly_detector s) ->
  exists s',
    simulate_step i s = Ok s' /\
    detector_sound (anomaly_detector s') /\
    sensor_data (anomaly_detector s')
    = sensor_data
        (run_calls (anomaly_detector s)
           (sweep_calls (step_timestamp i) (step_sweep i))) /\
    window_size (anomaly_detector s') = window_size (anomaly_detector s) /\
    total_readings s' = total_readings s + measured_count (step_sweep i) /\
    is_running s' = is_running s /\
    total_anomalies_found s' - len (detected_anomalies (anomaly_detector s'))
    = total_anomalies_found s - len (detected_anomalies (anomaly_detector s)).
Proof.
  intros Hsound. unfold simulate_step.
  match goal with
  | |- context [_collect_sensor_readings _ _ _ ?x] => set (s0 := x)
  end.
  assert (H0 : anomaly_detector s0 = anomaly_detector s /\
               total_readings s0 = total_readings s /\
               is_running s0 = is_running s /\
               total_anomalies_found s0 = total_anomalies_found s)
    by (unfold s0; destruct (is_running s) eqn:Er; cbn [negb];
        repeat split; cbn; auto).
  destruct H0 as [Hd0 [Ht0 [Hr0 Ha0]]].
  set (s1 := _collect_sensor_readings (step_timestamp i) (step_sweep i)
               (step_state i) s0).
  assert (Hsound1 : detector_sound (anomaly_detector s1))
    by (apply collect_sound; now rewrite Hd0).
  assert (H1 : anomaly_detector s1
               = run_calls (anomaly_detector s)
                   (sweep_calls (step_timestamp i) (step_sweep i)) /\
               total_readings s1
               = total_readings s + measured_count (step_sweep i) /\
               is_running s1 = is_running s /\
               total_anomalies_found s1 = total_anomalies_found s).
  { unfold s1, _collect_sensor_readings. rewrite collect_loop_spec.
    cbn [anomaly_detector total_readings is_running total_anomalies_found].
    rewrite Hd0, Ht0, Hr0, Ha0. repeat split. }
  destruct H1 as [Hd1 [Ht1 [Hr1 Ha1]]].
  destruct (perform_returns Building s1 (step_clock i) (step_graph i)
              Hsound1) as [s' [E [Hsd [Hw [Ht [Hr Ha]]]]]].
  exists s'. split; [exact E|].
  split; [|split; [|split; [|split; [|split]]]].
  - destruct Hsound1 as [Hs1 Hw1]. split.
    + unfold store_nonempty. rewrite Hsd. exact Hs1.
    + now rewrite Hw.
  - now rewrite Hsd, Hd1.
  - now rewrite Hw, Hd1, window_size_run_calls.
  - now rewrite Ht, Ht1.
  - now rewrite Hr, Hr1.
  - rewrite Ha, Ha1, Hd1, detected_anomalies_run_calls. reflexivity.
Qed.

Lemma sensor_data_call d1 d2 c :
  sensor_data d1 = sensor_data d2 -> window_size d1 = window_size d2 ->
  sensor_data (call d1 c) = sensor_data (call d2 c).
Proof.
  intros Hs Hw. unfold call, add_sensor_reading.
  cbn [with_sensor_data sensor_data]. now rewrite Hs, Hw.
Qed.

Lemma sensor_data_run_calls cs : forall d1 d2,
  sensor_data d1 = sensor_data d2 -> window_size d1 = window_size d2 ->
  sensor_data (run_calls d1 cs) = sensor_data (run_calls d2 cs).
Proof.
  induction cs as [|c cs IH]; intros d1 d2 Hs Hw; [exact Hs|].
  cbn [run_calls fold_left]. apply IH.
  - now apply sensor_data_call.
  - now rewrite !window_size_call.
Qed.

Lemma simulate_steps_return (Building : Type) inputs :
  forall s : System Building,
    detector_sound (anomaly_detector s) ->
    exists s',
      simulate_steps inputs s = Ok s' /\
      sensor_data (anomaly_detector s')
      = sensor_data (run_calls (anomaly_detector s) (steps_calls inputs)) /\
      window_size (anomaly_detector s') = window_size (anomaly_detector s) /\
      total_readings s' = total_readings s + measured_total inputs /\
      is_running s' = is_running s /\
      total_anomalies_found s'
      - len (detected_anomalies (anomaly_detector s'))
      = total_anomalies_found s
        - len (detected_anomalies (anomaly_detector s)).
Proof.
  induction inputs as [|i inputs IH]; intros s Hsound.
  - exists s. cbn. repeat split. lia.
  - destruct (simulate_step_returns Building s i Hsound)
      as [s1 [E1 [Hsound1 [Hsd1 [Hw1 [Ht1 [Hr1 Ha1]]]]]]].
    destruct (IH s1 Hsound1) as [s' [E [Hsd [Hw [Ht [Hr Ha]]]]]].
    exists s'. cbn [simulate_steps]. rewrite E1. cbn [bind].
    split; [exact E|]. split; [|split; [|split; [|split]]].
    + rewrite Hsd. unfold steps_calls. cbn [flat_map].
      unfold run_calls at 2. rewrite fold_left_app.
      apply sensor_data_run_calls; [exact Hsd1|].
      rewrite Hw1. symmetry. apply window_size_run_calls.
    + now rewrite Hw, Hw1.
    + rewrite Ht, Ht1. cbn [measured_total]. lia.
    + now rewrite Hr, Hr1.
    + now rewrite Ha, Ha1.
Qed.

(** X22: a system made by the constructor and driven by [simulate_step]
    never raises, whatever the sensors answer and whatever graph the
    building gives: after the steps, [total_readings] is the number of
    readings the sensors returned, [total_anomalies] is the size of the
    detector's anomaly store, and the system is still not running. *)
Theorem simulate_steps_count_readings_and_anomalies :
  forall (Building : Type) sklearn (b : Building) cfg inputs,
  exists s0 s,
    MonitoringSystem_init SnapshotRecord AlertRecord sklearn b cfg = Ok s0 /\
    simulate_steps inputs s0 = Ok s /\
    total_readings s = measured_total inputs /\
    total_anomalies_found s
    = len (detected_anomalies (anomaly_detector s)) /\
    is_running s = false.
Proof.
  intros Building sklearn b cfg inputs.
  assert (Hsound : detector_sound (AnomalyDetector_default sklearn))
    by (split; [constructor | cbn; lia]).
  destruct (simulate_steps_return Building inputs
              (mkMonitoringSystem b
                 (match cfg with
                  | Some c => c
                  | None => MonitoringConfig_default
                  end)
                 (AnomalyDetector_default sklearn)
                 false false false [] [] None 0 0) Hsound)
    as [s [E [_ [_ [Ht [Hr Ha]]]]]].
  eexists. exists s. split; [exact eq_refl|]. split; [exact E|].
  cbn [total_readings is_running total_anomalies_found anomaly_detector]
    in Ht, Hr, Ha.
  split; [lia|]. split; [|exact Hr].
  change (len (detected_anomalies (AnomalyDetector_default sklearn)))
    with 0 in Ha.
  lia.
Qed.

(** X23: after any steps of such a system the window the detector holds
    for a sensor is made of the last 50 readings the sensor returned, in
    the order of the steps. *)
Theorem windows_after_steps_hold_the_last_readings :
  forall (Building : Type) sklearn (b : Building) cfg inputs sid,
  exists s0 s,
    MonitoringSystem_init SnapshotRecord AlertRecord sklearn b cfg = Ok s0 /\
    simulate_steps inputs s0 = Ok s /\
    stored (anomaly_detector s) sid
    = lastn 50 (added_for sid (steps_calls inputs)).
Proof.
  intros Building sklearn b cfg inputs sid.
  assert (Hsound : detector_sound (AnomalyDetector_default sklearn))
    by (split; [constructor | cbn; lia]).
  destruct (simulate_steps_return Building inputs
              (mkMonitoringSystem b
                 (match cfg with
                  | Some c => c
                  | None => MonitoringConfig_default
                  end)
                 (AnomalyDetector_default sklearn)
                 false false false [] [] None 0 0) Hsound)
    as [s [E [Hsd _]]].
  eexists. exists s. split; [exact eq_refl|]. split; [exact E|].
  cbn [anomaly_detector] in Hsd. unfold stored. rewrite Hsd.
  change (match
            Dict.get String.eqb
              (sensor_data
                 (run_calls (AnomalyDetector_default sklearn)
                    (steps_calls inputs))) sid
          with
          | Some l => l
          | None => []
          end)
    with (stored (run_calls (AnomalyDetector_default sklearn)
                    (steps_calls inputs)) sid).
  unfold AnomalyDetector_default.
  rewrite stored_run_calls by lia. reflexivity.
Qed.

(** ** Clearing the history *)

Lemma measured_total_app a b :
  measured_total (a ++ b) = measured_total a + measured_total b.
Proof.
  induction a as [|i a IH]; cbn [app measured_total]; lia.
Qed.

Lemma run_calls_app d a b :
  run_calls (run_calls d a) b = run_calls d (a ++ b).
Proof. unfold run_calls. now rewrite fold_left_app. Qed.

Lemma steps_calls_app a b :
  steps_calls (a ++ b) = steps_calls a ++ steps_calls b.
Proof. unfold steps_calls. apply flat_map_app. Qed.

(** X24: [clear_history] empties the two histories and the detector's
    anomaly store, but neither the sensor windows nor the counters.
    After steps, a [clear_history] and further steps of a system made by
    the constructor, each window holds the last 50 readings of the sensor
    over all the steps, [total_readings] counts the readings of all the
    steps, and [total_anomalies] exceeds the size of the anomaly store by
    its value at the time of the clearing. *)
Theorem clear_history_keeps_the_windows_and_the_counters :
  forall (Building : Type) sklearn (b : Building) cfg before after sid,
  exists s0 s1 s2,
    MonitoringSystem_init SnapshotRecord AlertRecord sklearn b cfg = Ok s0 /\
    simulate_steps before s0 = Ok s1 /\
    reading_history (clear_history s1) = [] /\
    alert_history (clear_history s1) = [] /\
    detected_anomalies (anomaly_detector (clear_history s1)) = [] /\
    simulate_steps after (clear_history s1) = Ok s2 /\
    stored (anomaly_detector s2) sid
    = lastn 50 (added_for sid (steps_calls (before ++ after))) /\
    total_readings s2 = measured_total (before ++ after) /\
    total_anomalies_found s2
    = total_anomalies_found s1
      + len (detected_anomalies (anomaly_detector s2)).
Proof.
  intros Building sklearn b cfg before after sid.
  assert (Hsound : detector_sound (AnomalyDetector_default sklearn))
    by (split; [constructor | cbn; lia]).
  destruct (simulate_steps_return Building before
              (mkMonitoringSystem b
                 (match cfg with
                  | Some c => c
                  | None => MonitoringConfig_default
                  end)
                 (AnomalyDetector_default sklearn)
                 false false false [] [] None 0 0) Hsound)
    as [s1 [E1 [Hsd1 [Hw1 [Ht1 [_ Ha1]]]]]].
  cbn [anomaly_detector total_readings total_anomalies_found] in Hsd1, Hw1,
    Ht1, Ha1.
  assert (Hsound1 : detector_sound (anomaly_detector (clear_history s1))).
  { destruct Hsound as [Hne Hws]. split.
    - unfold store_nonempty.
      cbn [clear_history anomaly_detector with_detected_anomalies
           sensor_data].
      rewrite Hsd1.
      exact (run_calls_store_nonempty _ _ Hws Hne).
    - cbn [clear_history anomaly_detector with_detected_anomalies
           window_size].
      rewrite Hw1. exact Hws. }
  destruct (simulate_steps_return Building after (clear_history s1) Hsound1)
    as [s2 [E2 [Hsd2 [_ [Ht2 [_ Ha2]]]]]].
  eexists. exists s1, s2.
  split; [exact eq_refl|]. split; [exact E1|].
  split; [exact eq_refl|]. split; [exact eq_refl|].
  split; [exact eq_refl|]. split; [exact E2|].
  split; [|split].
  - unfold stored. rewrite Hsd2.
    rewrite (sensor_data_run_calls (steps_calls after)
               (anomaly_detector (clear_history s1))
               (run_calls (AnomalyDetector_default sklearn)
                  (steps_calls before))).
    + rewrite run_calls_app, <- steps_calls_app.
      change (match
                Dict.get String.eqb
                  (sensor_data
                     (run_calls (AnomalyDetector_default sklearn)
                        (steps_calls (before ++ after)))) sid
              with
              | Some l => l
              | None => []
              end)
        with (stored (run_calls (AnomalyDetector_default sklearn)
                        (steps_calls (before ++ after))) sid).
      unfold AnomalyDetector_default.
      rewrite stored_run_calls by lia. reflexivity.
    + exact Hsd1.
    + cbn [clear_history anomaly_detector with_detected_anomalies
           window_size].
      rewrite Hw1. symmetry. apply window_size_run_calls.
  - rewrite Ht2. cbn [clear_history total_readings].
    rewrite Ht1, measured_total_app. lia.
  - cbn [clear_history total_anomalies_found anomaly_detector
         with_detected_anomalies detected_anomalies] in Ha2.
    change (len (@nil Anomaly)) with 0 in Ha2. lia.
Qed.

(** * Properties of the sensor network graph *)





















(** ** The nodes of the graph *)













(** * Invariants of the returned anomalies *)

(** A property of the anomalies of every check is a property of the
    anomalies that [detect_anomalies] returns. *)
Lemma detect_sensors_Forall (P : Anomaly -> Prop) d :
  (forall sid l,
     _detect_isolation_forest_anomalies d sid = Ok l -> Forall P l) ->
  (forall sid l, _detect_energy_anomalies d sid = Ok l -> Forall P l) ->
  (forall sid l, _detect_temporal_anomalies d sid = Ok l -> Forall P l) ->
  (forall sid l,
     _detect_correlation_anomalies d sid = Ok l -> Forall P l) ->
  forall ids l, detect_sensors d ids = Ok l -> Forall P l.
Proof.
  intros Hi He Ht Hc. induction ids as [|sid ids IH]; intros l H;
    simpl in H.
  - inversion H. constructor.
  - destruct (getitem d sid) as [readings|]; cbn [bind] in H;
      [|discriminate].
    destruct (len readings <? _); [now apply IH|].
    destruct (_detect_isolation_forest_anomalies d sid) as [l1|] eqn:E1;
      cbn [bind] in H; [|discriminate].
    destruct (_detect_energy_anomalies d sid) as [l2|] eqn:E2;
      cbn [bind] in H; [|discriminate].
    destruct (_detect_temporal_anomalies d sid) as [l3|] eqn:E3;
      cbn [bind] in H; [|discriminate].
    destruct (_detect_correlation_anomalies d sid) as [l4|] eqn:E4;
      cbn [bind] in H; [|discriminate].
    destruct (detect_sensors d ids) as [more|]; cbn [bind] in H;
      [|discriminate].
    inversion H; subst; clear H.
    repeat (apply Forall_app; split);
      [exact (Hi _ _ E1) | exact (He _ _ E2) | exact (Ht _ _ E3)
      | exact (Hc _ _ E4) | exact (IH _ eq_refl)].
Qed.

Lemma detect_anomalies_Forall (P : Anomaly -> Prop) d ids d' l :
  (forall sid l,
     _detect_isolation_forest_anomalies d sid = Ok l -> Forall P l) ->
  (forall sid l, _detect_energy_anomalies d sid = Ok l -> Forall P l) ->
  (forall sid l, _detect_temporal_anomalies d sid = Ok l -> Forall P l) ->
  (forall sid l,
     _detect_correlation_anomalies d sid = Ok l -> Forall P l) ->
  Forall P (_detect_network_anomalies d) ->
  detect_anomalies d ids = Ok (d', l) -> Forall P l.
Proof.
  intros Hi He Ht Hc Hn. unfold detect_anomalies. intros H.
  destruct (detect_sensors d _) as [per_sensor|] eqn:E; cbn [bind] in H;
    [|discriminate].
  inversion H; subst; clear H.
  apply (detect_sensors_Forall P d Hi He Ht Hc) in E.
  apply Forall_forall. intros a Ha.
  apply (proj1 (sort_reverse_In _ _)) in Ha.
  destruct (network_analysis d && truthy_graph (network_graph d)).
  - apply in_app_or in Ha. rewrite Forall_forall in E, Hn.
    destruct Ha; auto.
  - rewrite Forall_forall in E. auto.
Qed.

Lemma getitem_stored d sid readings :
  getitem d sid = Ok readings -> stored d sid = readings.
Proof.
  unfold getitem, stored.
  destruct (Dict.get String.eqb (sensor_data d) sid); [|discriminate].
  intros H. now inversion H.
Qed.

Lemma analyze_all_Forall (P : Anomaly -> Prop) d sid :
  (forall other a,
     _analyze_sensor_correlation d sid other = Ok (Some a) -> P a) ->
  forall others l, analyze_all d sid others = Ok l -> Forall P l.
Proof.
  intros Hp. induction others as [|o others IH]; intros l H; simpl in H.
  - inversion H. constructor.
  - destruct (_analyze_sensor_correlation d sid o) as [[a|]|] eqn:Ea;
      cbn [bind] in H; try discriminate;
      destruct (analyze_all d sid others) as [m|]; cbn [bind] in H;
      try discriminate; inversion H; subst; clear H.
    + constructor; [exact (Hp _ _ Ea) | now apply IH].
    + now apply IH.
Qed.

Lemma correlation_Forall (P : Anomaly -> Prop) d sid l :
  (forall other a,
     _analyze_sensor_correlation d sid other = Ok (Some a) -> P a) ->
  _detect_correlation_anomalies d sid = Ok l -> Forall P l.
Proof.
  intros Hp. unfold _detect_correlation_anomalies. intros H.
  destruct (len (sensor_data d) <? 2); [inversion H; constructor|].
  destruct (getitem d sid) as [rs|]; cbn [bind] in H; [|discriminate].
  destruct (last_item rs) as [r|]; cbn [bind] in H; [|discriminate].
  destruct (correlated_sensors d sid (r_zone_id r) (sensor_data d))
    as [[|o os]|]; cbn [bind] in H;
    [inversion H; constructor| |discriminate].
  exact (analyze_all_Forall P d sid Hp _ _ H).
Qed.

(** ** The reading an anomaly is about *)

Lemma isolation_forest_about d sid l :
  _detect_isolation_forest_anomalies d sid = Ok l ->
  Forall (about_reading d) l.
Proof.
  unfold _detect_isolation_forest_anomalies. intros H.
  destruct (getitem d sid) as [readings|] eqn:G; cbn [bind] in H;
    [|discriminate].
  apply getitem_stored in G.
  destruct (map r_value readings); [discriminate|].
  inversion H; subst l; clear H.
  apply Forall_forall. intros a Ha.
  apply in_flat_map in Ha. destruct Ha as [[p [sc rd]] [Hin Ha]].
  destruct (p =? -1); [|contradiction].
  destruct Ha as [<- | []].
  apply in_combine_r in Hin. apply in_combine_r in Hin.
  exists rd. cbn. rewrite G. repeat split; auto. intros Hne.
  now contradiction Hne.
Qed.

Lemma latest_about d sid readings latest a :
  getitem d sid = Ok readings ->
  last_item readings = Ok latest ->
  sensor_id a = sid ->
  timestamp a = r_timestamp latest ->
  value a = r_value latest ->
  about_reading d a.
Proof.
  intros G Hl Hs Ht Hv. apply getitem_stored in G.
  exists latest. rewrite Hs, G.
  repeat split; auto. now apply last_item_In.
Qed.

Lemma energy_about d sid l :
  _detect_energy_anomalies d sid = Ok l -> Forall (about_reading d) l.
Proof.
  unfold _detect_energy_anomalies. intros H.
  destruct (getitem d sid) as [readings|] eqn:G; cbn [bind] in H;
    [|discriminate].
  destruct (last_item readings) as [latest|] eqn:L; cbn [bind] in H;
    [|discriminate].
  returns H; try constructor; try constructor;
    apply (latest_about d sid readings latest); auto.
Qed.

Lemma temporal_about d sid l :
  _detect_temporal_anomalies d sid = Ok l -> Forall (about_reading d) l.
Proof.
  unfold _detect_temporal_anomalies. intros H.
  destruct (getitem d sid) as [readings|] eqn:G; cbn [bind] in H;
    [|discriminate].
  destruct (len readings <? 24); [inversion H; constructor|].
  destruct (last_item readings) as [latest|] eqn:L; cbn [bind] in H;
    [|discriminate].
  returns H; try constructor; try constructor;
    apply (latest_about d sid readings latest); auto.
Qed.

Lemma analyze_about d s1 s2 a :
  _analyze_sensor_correlation d s1 s2 = Ok (Some a) -> about_reading d a.
Proof.
  unfold _analyze_sensor_correlation. intros H.
  destruct (getitem d s1) as [r1|] eqn:G; cbn [bind] in H; [|discriminate].
  destruct (getitem d s2) as [r2|]; cbn [bind] in H; [|discriminate].
  destruct (len _ <? 10); [discriminate|].
  destruct (np_corrcoef _ _) as [c|]; [|discriminate].
  destruct (np_corrcoef (slice_last _ _) _) as [rc|]; [|discriminate].
  destruct (Rgtb _ _); [|discriminate].
  destruct (last_item r1) as [latest|] eqn:L; cbn [bind] in H;
    [|discriminate].
  inversion H; subst a; clear H.
  apply (latest_about d s1 r1 latest); auto.
Qed.

Lemma network_about d : Forall (about_reading d) (_detect_network_anomalies d).
Proof.
  apply Forall_forall. intros a. unfold _detect_network_anomalies.
  destruct (truthy_graph (network_graph d)); [|contradiction].
  cbn [negb]. destruct (network_graph d) as [g|]; [|contradiction].
  intros Ha. apply in_flat_map in Ha. destruct Ha as [sid [_ Ha]].
  unfold network_anomaly in Ha.
  destruct (Dict.get String.eqb (sensor_data d) sid) as [[|r rs]|] eqn:G;
    try contradiction.
  destruct (last_item (r :: rs)) as [latest|] eqn:L; [|contradiction].
  destruct Ha as [<- | []].
  apply (latest_about d sid (r :: rs) latest); auto.
  unfold getitem. now rewrite G.
Qed.

(** X28: every anomaly that a call returns is about a stored reading of
    its own sensor: it carries the reading's timestamp and value; unless it
    comes from the isolation forest (type [UNKNOWN]), the reading is the
    latest of the sensor's window. *)
Theorem returned_anomalies_are_about_stored_readings :
  forall d ids d' l,
    detect_anomalies d ids = Ok (d', l) ->
    Forall
      (fun a =>
         exists r,
           In r (stored d (sensor_id a)) /\
           timestamp a = r_timestamp r /\
           value a = r_value r /\
           (anomaly_type a <> UNKNOWN ->
            last_item (stored d (sensor_id a)) = Ok r)) l.
Proof.
  intros d ids d' l H.
  apply (detect_anomalies_Forall (about_reading d) d ids d' l); auto.
  - apply isolation_forest_about.
  - apply energy_about.
  - apply temporal_about.
  - intros sid m. apply correlation_Forall. apply analyze_about.
  - apply network_about.
Qed.

Lemma returned_anomalies_are_about_stored_readings_witness :
  exists d' a r,
    detect_anomalies (lonely_detector quiet_forest) None = Ok (d', [a]) /\
    In r (stored (lonely_detector quiet_forest) (sensor_id a)) /\
    timestamp a = r_timestamp r /\ value a = r_value r.
Proof.
  destruct (lonely_detection quiet_forest) as [d' [a [H _]]].
  pose proof (returned_anomalies_are_about_stored_readings _ _ _ _ H)
    as Hall.
  apply Forall_inv in Hall. destruct Hall as [r [Hin [Ht [Hv _]]]].
  exists d', a, r. repeat split; assumption.
Defined.

(** ** Bounds of the expected range and of the confidence *)

Lemma range_of_window readings :
  (fst (_calculate_expected_range readings)
   <= snd (_calculate_expected_range readings))%R.
Proof.
  unfold _calculate_expected_range. cbn [fst snd].
  pose proof (np_std_nonneg (map r_value readings)). lra.
Qed.

Lemma isolation_forest_bounds d sid l :
  _detect_isolation_forest_anomalies d sid = Ok l ->
  Forall within_bounds l.
Proof.
  unfold _detect_isolation_forest_anomalies. intros H.
  destruct (getitem d sid) as [readings|]; cbn [bind] in H;
    [|discriminate].
  destruct (map r_value readings); [discriminate|].
  inversion H; subst l; clear H.
  apply Forall_forall. intros a Ha.
  apply in_flat_map in Ha. destruct Ha as [[p [sc rd]] [_ Ha]].
  destruct (p =? -1); [|contradiction].
  destruct Ha as [<- | []]. unfold within_bounds.
  cbn [expected_range confidence description].
  pose proof (capped_confidence sc (1 / 2) ltac:(lra)) as Hc.
  split; [apply range_of_window|]. split; [lra|]. intros Hgt. lra.
Qed.

Lemma energy_bounds d sid l :
  _detect_energy_anomalies d sid = Ok l -> Forall within_bounds l.
Proof.
  unfold _detect_energy_anomalies. intros H.
  returns H; try apply Forall_nil; (apply Forall_cons; [|apply Forall_nil]);
    unfold within_bounds;
    cbn [expected_range confidence description fst snd].
  all: match goal with
       | Hs : Rgtb ?s 0 = true, Hd : checked_div _ ?s = Ok ?z |- _ =>
           apply Rgtb_true_iff in Hs;
           pose proof (capped_confidence z 3 ltac:(lra))
       end.
  all: split; [lra|]; split; [lra|]; intros; lra.
Qed.

Lemma temporal_bounds d sid l :
  _detect_temporal_anomalies d sid = Ok l -> Forall within_bounds l.
Proof.
  unfold _detect_temporal_anomalies. intros H.
  returns H; try apply Forall_nil; (apply Forall_cons; [|apply Forall_nil]);
    unfold within_bounds;
    cbn [expected_range confidence description fst snd].
  all: match goal with
       | Hs : Rgtb ?s 0 = true,
         Hd : checked_div _ ?s = Ok ?dev,
         Hg : Rgtb ?dev _ = true |- _ =>
           apply Rgtb_true_iff in Hs; apply Rgtb_true_iff in Hg;
           pose proof (capped_confidence dev 4 ltac:(lra)) as Hc;
           rewrite (Rabs_pos_eq dev) in Hc by lra
       end.
  all: split; [lra|]; split; [lra|]; intros; lra.
Qed.

Lemma analyze_bounds d s1 s2 a :
  _analyze_sensor_correlation d s1 s2 = Ok (Some a) -> within_bounds a.
Proof.
  intros H. pose proof (analyze_shape _ _ _ _ H) as [_ [_ [_ [Hc Hd]]]].
  unfold within_bounds. split; [|split; [lra|eauto]].
  unfold _analyze_sensor_correlation in H.
  destruct (getitem d s1) as [r1|]; cbn [bind] in H; [|discriminate].
  destruct (getitem d s2) as [r2|]; cbn [bind] in H; [|discriminate].
  destruct (len _ <? 10); [discriminate|].
  destruct (np_corrcoef _ _) as [c|]; [|discriminate].
  destruct (np_corrcoef (slice_last _ _) _) as [rc|]; [|discriminate].
  destruct (Rgtb _ _); [|discriminate].
  destruct (last_item r1) as [latest|]; cbn [bind] in H; [|discriminate].
  inversion H; subst a; clear H. apply range_of_window.
Qed.

Lemma network_bounds d : Forall within_bounds (_detect_network_anomalies d).
Proof.
  apply Forall_forall. intros a. unfold _detect_network_anomalies.
  destruct (truthy_graph (network_graph d)); [|contradiction].
  cbn [negb]. destruct (network_graph d) as [g|]; [|contradiction].
  intros Ha. apply in_flat_map in Ha. destruct Ha as [sid [_ Ha]].
  unfold network_anomaly in Ha.
  destruct (Dict.get String.eqb (sensor_data d) sid) as [[|r rs]|];
    try contradiction.
  destruct (last_item (r :: rs)) as [latest|]; [|contradiction].
  destruct Ha as [<- | []]. unfold within_bounds.
  cbn [expected_range confidence description].
  split; [apply range_of_window|]. split; [lra|]. intros Hgt. lra.
Qed.

(** X29: every anomaly that a call returns has an expected range whose
    lower end is at most its upper end and a confidence between 0 and 2;
    only a correlation breakdown has a confidence above 1. *)
Theorem returned_anomalies_are_within_bounds :
  forall d ids d' l,
    detect_anomalies d ids = Ok (d', l) ->
    Forall
      (fun a =>
         (fst (expected_range a) <= snd (expected_range a))%R /\
         (0 <= confidence a <= 2)%R /\
         ((1 < confidence a)%R ->
          exists other, description a = DescCorrelationBreakdown other)) l.
Proof.
  intros d ids d' l H.
  apply (detect_anomalies_Forall within_bounds d ids d' l); auto.
  - apply isolation_forest_bounds.
  - apply energy_bounds.
  - apply temporal_bounds.
  - intros sid m. apply correlation_Forall. apply analyze_bounds.
  - apply network_bounds.
Qed.

Lemma returned_anomalies_are_within_bounds_witness :
  exists d' a,
    detect_anomalies (lonely_detector quiet_forest) None = Ok (d', [a]) /\
    (fst (expected_range a) <= snd (expected_range a))%R /\
    (0 <= confidence a <= 2)%R.
Proof.
  destruct (lonely_detection quiet_forest) as [d' [a [H _]]].
  pose proof (returned_anomalies_are_within_bounds _ _ _ _ H) as Hall.
  apply Forall_inv in Hall. destruct Hall as [Hr [Hc _]].
  exists d', a. repeat split; try assumption; apply Hc.
Defined.

(** ** The grades of the isolation forest check *)



